(** * cget: the prefix engine ([cget/prefix.py])

    A shallow embedding of [CGetPrefix] and of the free functions around it:
    the specification resolver ([parse_alias], [parse_src_name],
    [parse_pkg_src], [parse_pkg_build], [from_recipe], [from_file]), the
    store operations ([write_parent], [ignore], [_list_files], [list]), the
    link farm ([link], [unlink], [remove]) and the install orchestrator
    ([create_builder], [install_deps], [install]).

    The file system is a finite map from absolute paths to nodes; every
    method of the class is a function on a world (file system plus the trace
    of calls made to the external Builder) that returns the new world and
    either a value or the Python exception that was raised. *)

From Stdlib Require Import ZArith Ascii String.
From stdpp Require Import gmap strings list fin_maps.

Local Open Scope string_scope.
Local Open Scope list_scope.
Local Open Scope Z_scope.

(** ** Python strings *)

Module PyStr.

(** [s.find(sub)]: the lowest index where [sub] occurs, or [-1]. *)
Fixpoint find_from (sub s : string) (i : Z) : Z :=
  if String.prefix sub s then i
  else match s with
       | EmptyString => -1
       | String _ s' => find_from sub s' (i + 1)
       end.

Definition find (s sub : string) : Z := find_from sub s 0.

(** [s[0:e]], with Python's treatment of a negative or too large end. *)
Definition slice_to (s : string) (e : Z) : string :=
  let n := Z.of_nat (String.length s) in
  let e' := if e <? 0 then Z.max 0 (e + n) else Z.min e n in
  String.substring 0 (Z.to_nat e') s.

(** [s[i:]] for [0 <= i]. *)
Definition slice_from (s : string) (i : Z) : string :=
  String.substring (Z.to_nat i) (String.length s - Z.to_nat i) s.

(** [s.find(sub, 0, e)]. *)
Definition find_upto (s sub : string) (e : Z) : Z := find (slice_to s e) sub.

(** [sub in s]. *)
Definition contains (sub s : string) : bool := 0 <=? find s sub.

(** [s.split(c)] for a one-character separator. *)
Fixpoint split (c : ascii) (s : string) : list string :=
  match s with
  | EmptyString => [EmptyString]
  | String a s' =>
      if Ascii.eqb a c then EmptyString :: split c s'
      else match split c s' with
           | [] => [String a EmptyString]
           | x :: xs => String a x :: xs
           end
  end.

(** [s.startswith(p)]. *)
Definition startswith (s p : string) : bool := String.prefix p s.

(** Whether the character [c] occurs in [s]. *)
Fixpoint has_char (c : ascii) (s : string) : bool :=
  match s with
  | EmptyString => false
  | String a s' => Ascii.eqb a c || has_char c s'
  end.

(** Truthiness of a string and of an optional string ([None] and the empty
    string are falsy). *)
Definition truthy (s : string) : bool := negb (String.eqb s "").
Definition otruthy (o : option string) : bool :=
  match o with Some s => truthy s | None => false end.

End PyStr.

(** ** The file system *)

Abbreviation path := (list string).

Inductive node :=
| Dir
| File (content : string)
| Symlink (target : path).

#[global] Instance node_eq_dec : EqDecision node.
Proof. solve_decision. Defined.

Abbreviation FS := (gmap path node).


(** Paths are absolute and kept as their list of components; the strings the
    program passes around are split at ['/'] (no [.] or [..] components). *)
Module Path.

Definition of_string (s : string) : path :=
  filter (λ c, c ≠ EmptyString) (PyStr.split "/" s).

Fixpoint join_comps (p : path) : string :=
  match p with
  | [] => EmptyString
  | c :: p' => "/" +:+ c +:+ join_comps p'
  end.

(** [str(p)]. *)
Definition to_string (p : path) : string :=
  match p with [] => "/" | _ => join_comps p end.

(** [os.path.join(base, s)]: an absolute [s] replaces [base]. *)
Definition join (base : path) (s : string) : path :=
  if PyStr.startswith s "/" then of_string s else base ++ of_string s.

(** [os.path.dirname]. *)
Definition dirname (p : path) : path := removelast p.

(** [strip p k] is the remainder of [k] below [p], when [k] lies at or
    below [p]. *)
Fixpoint strip (p k : path) : option path :=
  match p, k with
  | [], _ => Some k
  | a :: p', b :: k' => if decide (a = b) then strip p' k' else None
  | _ :: _, [] => None
  end.

Definition under (p k : path) : bool :=
  match strip p k with Some _ => true | None => false end.

(** The name of [k] when it is a direct child of [p]. *)
Definition child_of (p k : path) : option string :=
  match strip p k with Some [n] => Some n | _ => None end.

End Path.

(** ** Exceptions, worlds and the monad of methods *)

Inductive exn :=
| TypeError
| AttributeError
| OSError
| StopIteration
| ConfigurationError
| BuildError
| RecursionError.

Inductive res (A : Type) :=
| Ok (a : A)
| Raise (e : exn).
Arguments Ok {A} a.
Arguments Raise {A} e.

(** *** The Builder collaborator ([cget.builder], an external interface) *)

Inductive builder_call :=
| BFetch (url : option string) (hash : option string) (copy : bool) (insecure : bool)
| BConfigure (src_dir : path) (defines : gmap string string) (generator : option string)
             (install_prefix : path) (test : bool) (variant : option string)
| BBuild (variant : option string) (target : option string)
| BTest (variant : option string).

(** One call made to a [Builder(self, d, exists)] object. *)
Record builder_event := { ev_dir : path; ev_exists : bool; ev_call : builder_call }.

Record world := { fs : FS; trace : list builder_event }.

Definition M (A : Type) : Type := world → world * res A.

Definition ret {A} (a : A) : M A := λ w, (w, Ok a).
Definition raise {A} (e : exn) : M A := λ w, (w, Raise e).
Definition bind {A B} (m : M A) (k : A → M B) : M B :=
  λ w, match m w with
       | (w', Ok a) => k a w'
       | (w', Raise e) => (w', Raise e)
       end.
Definition lift {A} (r : res A) : M A := λ w, (w, r).
Definition read {A} (f : FS → A) : M A := λ w, (w, Ok (f (fs w))).
Definition read_res {A} (f : FS → res A) : M A := λ w, (w, f (fs w)).
Definition update_fs (f : FS → FS) : M unit :=
  λ w, ({| fs := f (fs w); trace := trace w |}, Ok tt).
Definition update_res (f : FS → res FS) : M unit :=
  λ w, match f (fs w) with
       | Ok fs' => ({| fs := fs'; trace := trace w |}, Ok tt)
       | Raise e => (w, Raise e)
       end.

Notation "'let*' x := m 'in' k" := (bind m (λ x, k))
  (at level 10, x pattern, m at level 100, k at level 200).
Notation "m >> k" := (bind m (λ _, k))
  (at level 90, right associativity).

(** ** The operating system ([os], [os.path], [shutil]) *)

Module OS.

(** The root is a directory; a path names at most one node. *)
Definition node_at (f : FS) (p : path) : option node :=
  match p with [] => Some Dir | _ => f !! p end.

Definition islink (f : FS) (p : path) : bool :=
  match node_at f p with Some (Symlink _) => true | _ => false end.

(** [os.path.exists] follows a link to its target. *)
Definition exists_ (f : FS) (p : path) : bool :=
  match node_at f p with
  | Some (Symlink t) => match node_at f t with Some _ => true | None => false end
  | Some _ => true
  | None => false
  end.

Definition isdir (f : FS) (p : path) : bool :=
  match node_at f p with
  | Some Dir => true
  | Some (Symlink t) => match node_at f t with Some Dir => true | _ => false end
  | _ => false
  end.

Definition isfile (f : FS) (p : path) : bool :=
  match node_at f p with
  | Some (File _) => true
  | Some (Symlink t) => match node_at f t with Some (File _) => true | _ => false end
  | _ => false
  end.

(** [open(p).read()], through one link. *)
Definition read_file (f : FS) (p : path) : res string :=
  match node_at f p with
  | Some (File c) => Ok c
  | Some (Symlink t) =>
      match node_at f t with Some (File c) => Ok c | _ => Raise OSError end
  | _ => Raise OSError
  end.

(** [f.readlines()], the lines without their terminator. *)
Definition readlines (c : string) : list string :=
  let l := PyStr.split "010" c in
  match last l with
  | Some EmptyString => removelast l
  | _ => l
  end.

(** [os.listdir] of an existing directory. *)
Definition listdir (f : FS) (p : path) : list string :=
  omap (λ kv : path * node, Path.child_of p kv.1) (map_to_list f).

(** [os.makedirs(base/rest)], [base] being a directory: creates the missing
    directories on the way and fails on a component that is no directory. *)
Fixpoint makedirs_from (base rest : path) (f : FS) : res FS :=
  match rest with
  | [] => Ok f
  | c :: rest' =>
      let p := base ++ [c] in
      match f !! p with
      | None => makedirs_from p rest' (<[p := Dir]> f)
      | Some Dir => makedirs_from p rest' f
      | Some _ => Raise OSError
      end
  end.

Definition makedirs (p : path) (f : FS) : res FS :=
  if exists_ f p then Raise OSError else makedirs_from [] p f.

(** [shutil.rmtree(p, ignore_errors=True)]. *)
Definition rmtree (p : path) (f : FS) : FS :=
  filter (λ kv : path * node, Path.under p kv.1 = false) f.

(** [shutil.rmtree(p)], errors not ignored: it refuses a symbolic link and
    anything that is no directory. *)
Definition rmtree_strict (p : path) (f : FS) : res FS :=
  match node_at f p with
  | Some Dir => Ok (rmtree p f)
  | _ => Raise OSError
  end.

(** [open(p, 'w').write(c)]: the parent must be a directory and [p] must
    not be one. *)
Definition write_file (p : path) (c : string) (f : FS) : res FS :=
  if isdir f (Path.dirname p) && negb (isdir f p)
  then Ok (match node_at f p with
           | Some (Symlink t) => <[t := File c]> f
           | _ => <[p := File c]> f
           end)
  else Raise OSError.

(** [shutil.copyfile(src, dst)]. *)
Definition copyfile (src dst : path) (f : FS) : res FS :=
  match read_file f src with
  | Ok c => write_file dst c f
  | Raise e => Raise e
  end.

(** The subtree at [src] moved to [dst]. *)
Definition move (src dst : path) (f : FS) : FS :=
  list_to_map
    (omap (λ kv : path * node,
             match Path.strip src kv.1 with
             | Some r => Some (dst ++ r, kv.2)
             | None => None
             end) (map_to_list f))
  ∪ rmtree src f.

(** [os.rename(src, dst)]. A directory cannot be renamed onto one of its
    own ancestors (the ancestor is not empty) nor below itself; on Windows
    the destination must not exist; elsewhere an existing destination must
    be an empty directory (for a directory) or a non-directory (for a
    non-directory). *)
Definition rename (nt : bool) (src dst : path) (f : FS) : res FS :=
  match node_at f src with
  | None => Raise OSError
  | Some n =>
      if decide (src = dst) then Ok f
      else if Path.under dst src || Path.under src dst then Raise OSError
      else if negb (isdir f (Path.dirname dst)) then Raise OSError
      else match node_at f dst with
           | None => Ok (move src dst f)
           | Some m =>
               if nt then Raise OSError
               else match n, m with
                    | Dir, Dir =>
                        match listdir f dst with
                        | [] => Ok (move src dst (delete dst f))
                        | _ => Raise OSError
                        end
                    | Dir, _ | _, Dir => Raise OSError
                    | _, _ => Ok (move src dst (delete dst f))
                    end
           end
  end.

End OS.

(** ** The package data model ([cget.package]) *)

Module Package.

(** Where the code comes from. *)
Record PackageSource := {
  name : option string;
  url : option string;
  recipe : option path
}.

(** The source of a build request: a raw token, or a resolved source. *)
Inductive src_ref :=
| Raw (token : string)
| Resolved (ps : PackageSource).

(** How to build it. *)
Record PackageBuild := {
  pkg_src : src_ref;
  define : gmap string string;
  parent : option string;
  test : bool;
  build : bool;
  cmake : option string;
  hash : option string;
  variant : option string;
  requirements : option string;
  ignore_requirements : bool;
  file : option string
}.

(** [PackageBuild(pkg_src)]: every option unset. *)
Definition mk (src : src_ref) : PackageBuild :=
  {| pkg_src := src; define := ∅; parent := None; test := false;
     build := false; cmake := None; hash := None; variant := None;
     requirements := None; ignore_requirements := false; file := None |}.

Definition set_pkg_src (src : src_ref) (pb : PackageBuild) : PackageBuild :=
  {| pkg_src := src; define := define pb; parent := parent pb;
     test := test pb; build := build pb; cmake := cmake pb; hash := hash pb;
     variant := variant pb; requirements := requirements pb;
     ignore_requirements := ignore_requirements pb; file := file pb |}.

Definition set_cmake (c : option string) (pb : PackageBuild) : PackageBuild :=
  {| pkg_src := pkg_src pb; define := define pb; parent := parent pb;
     test := test pb; build := build pb; cmake := c; hash := hash pb;
     variant := variant pb; requirements := requirements pb;
     ignore_requirements := ignore_requirements pb; file := file pb |}.

Definition set_requirements (r : option string) (pb : PackageBuild) : PackageBuild :=
  {| pkg_src := pkg_src pb; define := define pb; parent := parent pb;
     test := test pb; build := build pb; cmake := cmake pb; hash := hash pb;
     variant := variant pb; requirements := r;
     ignore_requirements := ignore_requirements pb; file := file pb |}.

Definition set_parent (p : option string) (pb : PackageBuild) : PackageBuild :=
  {| pkg_src := pkg_src pb; define := define pb; parent := p;
     test := test pb; build := build pb; cmake := cmake pb; hash := hash pb;
     variant := variant pb; requirements := requirements pb;
     ignore_requirements := ignore_requirements pb; file := file pb |}.

Definition set_name (n : option string) (ps : PackageSource) : PackageSource :=
  {| name := n; url := url ps; recipe := recipe ps |}.

Definition set_recipe (r : option path) (ps : PackageSource) : PackageSource :=
  {| name := name ps; url := url ps; recipe := r |}.

(** [y or x] on an optional string field. *)
Definition or_else (y x : option string) : option string :=
  if PyStr.otruthy y then y else x.

(** Modelled from the spec: [PackageBuild.merge] is not in this file. The
    spec has the build options of the receiver overridden field by field by
    those of the argument, which wins on conflict; the source is the
    receiver's, and so is the parent label, which is no build option. *)
Definition merge (p other : PackageBuild) : PackageBuild :=
  {| pkg_src := pkg_src p;
     define := define other ∪ define p;
     parent := parent p;
     test := test other || test p;
     build := build other || build p;
     cmake := or_else (cmake other) (cmake p);
     hash := or_else (hash other) (hash p);
     variant := or_else (variant other) (variant p);
     requirements := or_else (requirements other) (requirements p);
     ignore_requirements := ignore_requirements other || ignore_requirements p;
     file := or_else (file other) (file p) |}.

(** The parts of [cget.package], [cget.util] and of the Python library that
    this file calls and that are taken as they come: the identity codec,
    the tokenizer of specification lines, and the path helpers. *)
Class Ops := {
  (** [PackageBuild.to_fname()] *)
  to_fname : PackageBuild → string;
  (** [PackageSource.to_fname()] *)
  src_to_fname : PackageSource → string;
  (** [PackageBuild.to_name()] *)
  to_name : PackageBuild → string;
  (** [fname_to_pkg(fname)] *)
  fname_to_pkg : string → PackageSource;
  (** [shlex.split(line, comments=True)] *)
  shlex_split : string → res (list string);
  (** [parse_pkg_build_tokens(tokens)] *)
  parse_pkg_build_tokens : list string → res PackageBuild;
  (** [util.actual_path(path, start)] *)
  actual_path : string → option path → path;
  (** [util.cget_dir(a, b)] *)
  cget_dir : string → string → path;
  (** [Builder.cmake_original_file] *)
  cmake_original_file : string;
  (** what the [Builder(self, d, exists)] object does on a call: the new
      file system and the value returned or the exception raised *)
  builder_run : path → bool → builder_call → FS → FS * res path
}.

(** Modelled from the spec: [PackageBuild.of] is not in this file. The
    spec's parent label names the dependent that required the package, by
    its identity. *)
Definition of_ `{Ops} (dependent pb : PackageBuild) : PackageBuild :=
  set_parent (Some (to_fname pb)) dependent.

End Package.

Import Package.

(** ** [cget.util], the file-system helpers *)

Module Util.

(** Modelled from the spec: [util.mkdir] is not in this file; it creates a
    directory, with its parents, unless the path exists. *)
Definition mkdir (p : path) : M path :=
  λ w, if OS.exists_ (fs w) p then (w, Ok p)
       else match OS.makedirs p (fs w) with
            | Ok f => ({| fs := f; trace := trace w |}, Ok p)
            | Raise e => (w, Raise e)
            end.

(** Modelled from the spec: [util.mkfile] is not in this file; a marker is
    a file [file] with content [content] in directory [d], which is created
    when missing. An existing file is kept when [always_write] is unset; the
    callers below that do not pass it get it set, and would leave the same
    file system with it unset, the content they write being the same. *)
Definition mkfile (d : path) (file content : string) (always_write : bool) : M path :=
  mkdir d >>
  let p := Path.join d file in
  let* ex := read (λ f, OS.exists_ f p) in
  (if negb ex || always_write
   then update_res (OS.write_file p content)
   else ret tt) >>
  ret p.

(** Modelled from the spec: [util.ls] is not in this file; it enumerates
    the children of a directory that satisfy a predicate on their path, and
    nothing for a path that does not exist. *)
Definition ls (f : FS) (p : path) (pred : FS → path → bool) : list string :=
  if OS.exists_ f p
  then filter (λ n, pred f (p ++ [n]) = true) (OS.listdir f p)
  else [].

(** Modelled from the spec: [util.delete_dir] is not in this file; it
    deletes a directory tree when it exists. *)
Definition delete_dir (p : path) : M unit :=
  let* ex := read (λ f, OS.exists_ f p) in
  if ex then update_fs (OS.rmtree p) else ret tt.

(** Modelled from the spec: [util.ensure_exists] is not in this file; a
    required file that is absent is a configuration error. *)
Definition ensure_exists (f : FS) (p : path) : res unit :=
  if OS.exists_ f p then Ok tt else Raise ConfigurationError.

(** The files (not directories) stored below [src], with their path
    relative to [src]. *)
Definition files_below (f : FS) (src : path) : list (path * node) :=
  omap (λ kv : path * node,
          match Path.strip src kv.1, kv.2 with
          | Some (c :: r), File _ | Some (c :: r), Symlink _ => Some (c :: r, kv.2)
          | _, _ => None
          end) (map_to_list f).

(** Publishing one path: the directories above it are created, then
    [publish] gives the node put at [dst ++ r]. *)
Fixpoint publish_all (dst : path) (publish : path → node → res node)
         (l : list (path * node)) (f : FS) : res FS :=
  match l with
  | [] => Ok f
  | (r, n) :: l' =>
      match OS.makedirs_from [] (Path.dirname (dst ++ r)) f with
      | Raise e => Raise e
      | Ok f' =>
          match publish r n with
          | Raise e => Raise e
          | Ok n' => publish_all dst publish l' (<[dst ++ r := n']> f')
          end
      end
  end.

(** Modelled from the spec: [util.symlink_dir] is not in this file; every
    path under the install tree gets a symbolic link in the prefix tree. *)
Definition symlink_dir (src dst : path) : M unit :=
  update_res (λ f, publish_all dst (λ r _, Ok (Symlink (src ++ r))) (files_below f src) f).

(** Modelled from the spec: [util.copy_dir] is not in this file; every
    path under the install tree is copied into the prefix tree. *)
Definition copy_dir (src dst : path) : M unit :=
  update_res (λ f, publish_all dst (λ _ n, Ok n) (files_below f src) f).

(** Modelled from the spec: [util.rm_symlink_from] is not in this file; it
    removes from the prefix tree the links to the paths under [d]. *)
Definition rm_symlink_from (d prefix : path) : M unit :=
  update_fs (filter (λ kv : path * node,
               match kv.2 with
               | Symlink t => negb (Path.under prefix kv.1 && Path.under d t)
               | _ => true
               end = true)).

(** Modelled from the spec: [util.rm_dup_dir] is not in this file; with
    [remove_both] unset it removes from the prefix tree the duplicate of
    each file under [d]. *)
Definition rm_dup_dir (d prefix : path) : M unit :=
  update_fs (λ f,
    filter (λ kv : path * node,
              match Path.strip prefix kv.1, kv.2 with
              | Some (c :: r), File _ =>
                  negb (OS.isfile f (d ++ c :: r) && negb (Path.under d kv.1))
              | _, _ => true
              end = true) f).

(** Modelled from the spec: [util.rm_empty_dirs] is not in this file; it
    prunes the directories at or below [d] that hold no file or link. *)
Definition rm_empty_dirs (d : path) : M unit :=
  update_fs (λ f,
    filter (λ kv : path * node,
              match kv.2 with
              | Dir => negb (Path.under d kv.1)
                       || bool_decide (files_below f kv.1 ≠ [])
              | _ => true
              end = true) f).

End Util.

(** ** The free functions of [prefix.py] *)

Definition parse_deprecated_alias (s : string) : option string * string :=
  let i := PyStr.find_upto s ":" (Z.max (PyStr.find s "://") (PyStr.find s ":\")) in
  if 0 <? i
  then (Some (PyStr.slice_to s i), PyStr.slice_from s (i + 1))
  else (None, s).

Definition parse_alias (s : string) : option string * string :=
  let i := PyStr.find s "," in
  if 0 <? i
  then (Some (PyStr.slice_to s i), PyStr.slice_from s (i + 1))
  else parse_deprecated_alias s.

(** The values [functools.reduce(lambda x, y: x == y, ps)] goes through: the
    first comparison is between two strings, the later ones between a
    boolean and a string. *)
Inductive pyval :=
| VStr (s : string)
| VBool (b : bool).

Definition py_eq (x y : pyval) : pyval :=
  VBool match x, y with
        | VStr a, VStr b => String.eqb a b
        | VBool a, VBool b => Bool.eqb a b
        | _, _ => false
        end.

Definition py_truthy (v : pyval) : bool :=
  match v with VStr s => PyStr.truthy s | VBool b => b end.

Definition reduce_eq (ps : list string) : pyval :=
  match ps with
  | [] => VBool false
  | a :: l => fold_left py_eq (map VStr l) (VStr a)
  end.

Definition parse_src_name (url : string) (default : option string)
  : string * option string :=
  let x := PyStr.split "@" url in
  let p := hd EmptyString x in
  let p := if PyStr.contains "/" p
           then let ps := PyStr.split "/" p in
                if py_truthy (reduce_eq ps) then hd EmptyString ps else p
           else p in
  let v := match x with _ :: x1 :: _ => Some x1 | _ => default end in
  (p, v).

(** [str.format] of an optional string. *)
Definition py_str (v : option string) : string :=
  match v with Some s => s | None => "None" end.

(** The first result of [f] along a list (a loop that returns at the first
    hit). *)
Fixpoint list_first {A B} (f : A → option B) (l : list A) : option B :=
  match l with
  | [] => None
  | a :: l' => match f a with Some b => Some b | None => list_first f l' end
  end.

(** ** [CGetPrefix] *)

(** The object and the process-wide settings it reads. *)
Record Env := {
  prefix : path;          (* [self.prefix] *)
  verbose : bool;         (* [self.verbose] *)
  nt : bool;              (* [os.name == 'nt'] *)
  USE_SYMLINKS : bool;    (* [util.USE_SYMLINKS] *)
  limit : nat             (* the depth of calls Python allows *)
}.

(** What a caller may pass for a package: a token, a source or a build. *)
Inductive pkg_arg :=
| AStr (s : string)
| ASrc (ps : PackageSource)
| ABuild (pb : PackageBuild).

Definition arg_of_src (r : src_ref) : pkg_arg :=
  match r with Raw s => AStr s | Resolved ps => ASrc ps end.

(** The state of a [from_file] generator: the files still to open and the
    lines still to read, innermost first. *)
Inductive frame :=
| FOpen (file : option path) (url : option string)
| FLines (lines : list string) (start : path).

Section Resolver.

Context `{Ops} (env : Env).

Definition find_cmake (p : option string) (start : option path) (f : FS)
  : option string :=
  match p with
  | Some s =>
      if PyStr.truthy s && negb (PyStr.startswith s "/") then
        let absp := actual_path s start in
        if OS.exists_ f absp then Some (Path.to_string absp)
        else
          let x := cget_dir "cmake" s in
          if OS.exists_ f x then Some (Path.to_string x)
          else if OS.exists_ f (Path.of_string (Path.to_string x +:+ ".cmake"))
               then Some (Path.to_string x +:+ ".cmake")
               else p
      else p
  | None => p
  end.

Definition get_private_path : path := prefix env ++ ["cget"].

Definition get_public_path : path := prefix env ++ ["etc"; "cget"].

Definition get_recipe_paths : list path := [get_public_path ++ ["recipes"]].

Definition parse_src_file (name : option string) (url : string)
           (start : option path) (f : FS) : option PackageSource :=
  let p := actual_path url start in
  if OS.exists_ f p
  then Some {| Package.name := name;
               Package.url := Some ("file://" +:+ Path.to_string p);
               Package.recipe := None |}
  else None.

(** [os.path.join(rpath, p, v or '')] ends in a separator when [v] is
    unset, and then exists only as a directory. [os.path.normcase] changes
    nothing off Windows and is left out. *)
Definition parse_src_recipe (name : option string) (url : string) (f : FS)
  : option PackageSource :=
  let '(p, v) := parse_src_name url None in
  let try_path (rpath : path) : option PackageSource :=
    let rp := Path.join (Path.join rpath p) (default EmptyString v) in
    if (if PyStr.otruthy v then OS.exists_ f rp else OS.isdir f rp)
    then Some {| Package.name := if PyStr.otruthy name then name else Some p;
                 Package.url := None;
                 Package.recipe := Some rp |}
    else None in
  list_first try_path get_recipe_paths.

Definition parse_src_github (name : option string) (url : string)
  : PackageSource :=
  let '(p, v) := parse_src_name url (Some "HEAD") in
  let url :=
    if PyStr.contains "/" p
    then "https://github.com/" +:+ p +:+ "/archive/" +:+ py_str v +:+ ".tar.gz"
    else "https://github.com/" +:+ p +:+ "/" +:+ p +:+ "/archive/"
         +:+ py_str v +:+ ".tar.gz" in
  {| Package.name := match name with None => Some p | Some _ => name end;
     Package.url := Some url;
     Package.recipe := None |}.

(** [parse_pkg_src] on a token. *)
Definition parse_pkg_src_str (pkg : string) (start : option path)
           (no_recipe : bool) (f : FS) : PackageSource :=
  let '(name, url) := parse_alias pkg in
  if negb (PyStr.contains "://" url) then
    match parse_src_file name url start f with
    | Some ps => ps
    | None =>
        match (if no_recipe then None else parse_src_recipe name url f) with
        | Some ps => ps
        | None => parse_src_github name url
        end
    end
  else {| Package.name := name; Package.url := Some url; Package.recipe := None |}.

(** The [params] check refuses anything that is no token, source or build,
    [None] included. A build is resolved through its source, and the
    recursive call does not pass [no_recipe] on. *)
Definition parse_pkg_src (pkg : option pkg_arg) (start : option path)
           (no_recipe : bool) (f : FS) : res PackageSource :=
  match pkg with
  | None => Raise TypeError
  | Some (ASrc ps) => Ok ps
  | Some (ABuild pb) =>
      match pkg_src pb with
      | Resolved ps => Ok ps
      | Raw s => Ok (parse_pkg_src_str s start false f)
      end
  | Some (AStr s) => Ok (parse_pkg_src_str s start no_recipe f)
  end.


(** *** [from_file], a generator

    [gen_next] is one [next()] on the generator: it opens files and reads
    lines, at the file system of the moment, up to the next package it
    yields; [None] is the end of the iteration. [rec] is
    [self.parse_pkg_build]. *)
Section Generator.

Variable rec : option pkg_arg → option path → bool → FS → res PackageBuild.
Variable no_recipe : bool.

Fixpoint gen_next (k : nat) (g : list frame) (f : FS)
  : res (option (PackageBuild * list frame)) :=
  match k with
  | O => Raise RecursionError
  | S k' =>
      match g with
      | [] => Ok None
      | FOpen None _ :: g' => gen_next k' g' f
      | FOpen (Some file) url :: g' =>
          if negb (OS.exists_ f file) then gen_next k' g' f
          else
            let start :=
              match url with
              | Some u => if PyStr.startswith u "file://"
                          then Path.of_string (PyStr.slice_from u 7)
                          else Path.dirname file
              | None => Path.dirname file
              end in
            match OS.read_file f file with
            | Raise e => Raise e
            | Ok c => gen_next k' (FLines (OS.readlines c) start :: g') f
            end
      | FLines [] _ :: g' => gen_next k' g' f
      | FLines (line :: ls) start :: g' =>
          match shlex_split line with
          | Raise e => Raise e
          | Ok [] => gen_next k' (FLines ls start :: g') f
          | Ok tokens =>
              match parse_pkg_build_tokens tokens with
              | Raise e => Raise e
              | Ok pb =>
                  match file pb with
                  | Some inc =>
                      if PyStr.truthy inc
                      then gen_next k'
                             (FOpen (Some (actual_path inc (Some start))) None
                              :: FLines ls start :: g') f
                      else match rec (Some (ABuild pb)) (Some start) no_recipe f with
                           | Raise e => Raise e
                           | Ok p => Ok (Some (p, FLines ls start :: g'))
                           end
                  | None =>
                      match rec (Some (ABuild pb)) (Some start) no_recipe f with
                      | Raise e => Raise e
                      | Ok p => Ok (Some (p, FLines ls start :: g'))
                      end
                  end
              end
          end
      end
  end.

(** [self.from_file(file, url, no_recipe)] before its first [next()]. *)
Definition from_file (file : option path) (url : option string) : list frame :=
  [FOpen file url].

End Generator.

(** What [from_recipe] receives as [pkg]: a build, or the name that
    [parse_pkg_build] passes in that position. *)
Definition from_recipe (k : nat)
           (rec : option pkg_arg → option path → bool → FS → res PackageBuild)
           (recipe : path) (pkg : option (string + PackageBuild))
           (name : option string) (f : FS) : res PackageBuild :=
  let recipe_pkg := Path.join recipe "package.txt" in
  match Util.ensure_exists f recipe_pkg with
  | Raise e => Raise e
  | Ok _ =>
      match gen_next rec true k (from_file (Some recipe_pkg) None) f with
      | Raise e => Raise e
      | Ok None => Raise StopIteration
      | Ok (Some (p, _)) =>
          (* [self.check]: [p.pkg_src] is never [None] *)
          let requirements := Path.join recipe "requirements.txt" in
          let p := if OS.exists_ f requirements
                   then set_requirements (Some (Path.to_string requirements)) p
                   else p in
          match pkg_src p with
          | Raw _ => Raise AttributeError
          | Resolved ps =>
              let ps := set_recipe None ps in
              (* Use original name *)
              match pkg with
              | Some (inr pb) =>
                  match pkg_src pb with
                  | Raw _ => Raise AttributeError
                  | Resolved caller =>
                      let ps := set_name (Package.name caller) ps in
                      Ok (merge (set_pkg_src (Resolved ps) p) pb)
                  end
              | Some (inl s) =>
                  if PyStr.truthy s then Raise AttributeError
                  else
                    let ps := if PyStr.otruthy name then set_name name ps else ps in
                    Ok (set_pkg_src (Resolved ps) p)
              | None =>
                  let ps := if PyStr.otruthy name then set_name name ps else ps in
                  Ok (set_pkg_src (Resolved ps) p)
              end
          end
      end
  end.

Fixpoint parse_pkg_build_at (n : nat) (pkg : option pkg_arg)
         (start : option path) (no_recipe : bool) (f : FS) : res PackageBuild :=
  match n with
  | O => Raise RecursionError
  | S n' =>
      match pkg with
      | Some (ABuild pb) =>
          match parse_pkg_src (Some (arg_of_src (pkg_src pb))) start no_recipe f with
          | Raise e => Raise e
          | Ok src =>
              let pkg1 := set_pkg_src (Resolved src) pb in
              match (match Package.recipe src with
                     | Some r => from_recipe n' (parse_pkg_build_at n') r
                                   (Some (inr pkg1)) None f
                     | None => Ok pkg1
                     end) with
              | Raise e => Raise e
              | Ok pkg2 =>
                  Ok (if PyStr.otruthy (cmake pkg2)
                      then set_cmake (find_cmake (cmake pkg2) start f) pkg2
                      else pkg2)
              end
          end
      | _ =>
          match parse_pkg_src pkg start no_recipe f with
          | Raise e => Raise e
          | Ok src =>
              match Package.recipe src with
              | Some r => from_recipe n' (parse_pkg_build_at n') r
                            (option_map inl (Package.name src)) None f
              | None => Ok (mk (Resolved src))
              end
          end
      end
  end.

Definition parse_pkg_build (pkg : option pkg_arg) (start : option path)
           (no_recipe : bool) (f : FS) : res PackageBuild :=
  parse_pkg_build_at (limit env) pkg start no_recipe f.

End Resolver.

(** *** The store, the link farm and the install orchestrator *)

(** The keyword arguments of [install]. *)
Record install_args := {
  a_test : bool;
  a_test_all : bool;
  a_generator : option string;
  a_update : bool;
  a_track : bool;
  a_insecure : bool
}.

(** [install(pb)] with every keyword at its default. *)
Definition default_args : install_args :=
  {| a_test := false; a_test_all := false; a_generator := None;
     a_update := false; a_track := true; a_insecure := false |}.

Section Prefix.

Context `{Ops} (env : Env).

Definition get_package_directory (pb : option pkg_arg) : M path :=
  let* pb := read_res (parse_pkg_build env pb None false) in
  ret (Path.join (get_private_path env) (to_fname pb)).

Definition get_unlink_directory (pb : option pkg_arg) : M path :=
  let* d := get_package_directory pb in
  ret (d ++ [".unlink"]).

Definition get_deps_directory (pb : option pkg_arg) : M path :=
  let* d := get_package_directory pb in
  ret (d ++ [".depend"]).

(** A call on the [Builder(self, d, exists)] object, recorded in the
    trace. *)
Definition call_builder (d : path) (ex : bool) (c : builder_call) : M path :=
  λ w, let '(f, r) := builder_run d ex c (fs w) in
       ({| fs := f;
           trace := trace w ++ [{| ev_dir := d; ev_exists := ex; ev_call := c |}] |},
        r).

(** [with self.create_builder(pb, tmp) as builder: body]. An exception in
    the body leaves through the [yield]: the directory stays. *)
Definition create_builder {A} (pb : PackageBuild) (tmp : bool)
           (body : path → bool → M A) : M A :=
  let* d := get_package_directory (Some (ABuild pb)) in
  let* ex := read (λ f, OS.exists_ f d) in
  Util.mkdir d >>
  let* a := body d ex in
  (if negb (nt env) && tmp then update_fs (OS.rmtree d) else ret tt) >>
  ret a.

Definition write_parent (pb : PackageBuild) (track : bool) : M unit :=
  match parent pb with
  | Some parent =>
      if track
      then let* d := get_deps_directory (Some (AStr (to_fname pb))) in
           Util.mkfile d parent parent true >> ret tt
      else ret tt
  | None => ret tt
  end.

(** [for p in gen: body(p)], the generator reading the file system between
    two runs of the body. *)
Fixpoint for_gen (k : nat) (g : list frame) (body : PackageBuild → M unit)
  : M unit :=
  match k with
  | O => raise RecursionError
  | S k' =>
      let* r := read_res (gen_next (parse_pkg_build env) false (limit env) g) in
      match r with
      | None => ret tt
      | Some (p, g') => body p >> for_gen k' g' body
      end
  end.

(** [install_deps], [install] being the method it calls back. *)
Definition install_deps (install : pkg_arg → install_args → M string)
           (pb : PackageBuild) (d : path) (test test_all : bool)
           (generator : option string) (insecure ignore_requirements : bool)
  : M unit :=
  let req_txt := if negb ignore_requirements
                 then Some (Path.to_string (Path.join d "requirements.txt"))
                 else None in
  let file := if PyStr.otruthy (requirements pb) then requirements pb else req_txt in
  let url := match pkg_src pb with Resolved ps => Package.url ps | Raw _ => None end in
  for_gen (limit env) (from_file (option_map Path.of_string file) url)
    (λ dependent,
       let transient := Package.test dependent || Package.build dependent in
       let testing := test || test_all in
       let installable := negb (Package.test dependent)
                          || Bool.eqb (Package.test dependent) testing in
       if installable
       then install (ABuild (of_ dependent pb))
              {| a_test := false; a_test_all := test_all;
                 a_generator := generator; a_update := false;
                 a_track := negb transient; a_insecure := insecure |}
            >> ret tt
       else ret tt).

(** [unlink]: the call [self.get_unlink_directory()] at its end passes no
    package, which Python refuses with a [TypeError]. *)
Definition unlink (pkg : option pkg_arg) (delete : bool) : M unit :=
  let* pkg := read_res (parse_pkg_src env pkg None false) in
  let* pkg_dir := get_package_directory (Some (ASrc pkg)) in
  let* unlink_dir := get_unlink_directory (Some (ASrc pkg)) in
  let* ex := read (λ f, OS.exists_ f pkg_dir) in
  if ex then
    (if USE_SYMLINKS env
     then Util.rm_symlink_from (pkg_dir ++ ["install"]) (prefix env)
     else Util.rm_dup_dir (pkg_dir ++ ["install"]) (prefix env)) >>
    Util.rm_empty_dirs (prefix env) >>
    if delete then Util.delete_dir pkg_dir
    else
      let* d := (raise TypeError : M path) in
      Util.mkdir d >>
      update_res (OS.rename (nt env) pkg_dir unlink_dir)
  else ret tt.

Definition remove (pkg : option pkg_arg) : M unit := unlink pkg true.

(** [link]: the class has no method [get_unlink_deps_directory], so the
    body of the loop over the dependents raises [AttributeError] before it
    reaches the recursive [self.link(dep)]. *)
Definition link (pkg : option pkg_arg) : M unit :=
  let* pkg := read_res (parse_pkg_src env pkg None false) in
  let* pkg_dir := get_package_directory (Some (ASrc pkg)) in
  let unlink_dir := pkg_dir ++ ["unlink"] in
  let* ex := read (λ f, OS.exists_ f unlink_dir) in
  (if ex then
     Util.mkdir pkg_dir >>
     update_res (OS.rename (nt env) unlink_dir pkg_dir) >>
     if USE_SYMLINKS env
     then Util.symlink_dir (pkg_dir ++ ["install"]) (prefix env)
     else Util.copy_dir (pkg_dir ++ ["install"]) (prefix env)
   else ret tt) >>
  (* Relink dependencies *)
  let* deps := read (λ f, Util.ls f unlink_dir OS.isdir) in
  match deps with
  | [] => ret tt
  | dep :: _ => raise AttributeError
  end.

Definition already_installed (pb : PackageBuild) : string :=
  "Package " +:+ to_name pb +:+ " already installed".

Definition linking (pb : PackageBuild) : string :=
  "Linking package " +:+ to_name pb.

Definition successfully_installed (pb : PackageBuild) : string :=
  "Successfully installed " +:+ to_name pb.

(** The body of the [with] block of [install]. *)
Definition install_build (install : pkg_arg → install_args → M string)
           (pb : PackageBuild) (a : install_args) (d : path) (ex : bool)
  : M unit :=
  let url := match pkg_src pb with Resolved ps => Package.url ps | Raw _ => None end in
  (* Fetch package *)
  let* src_dir := call_builder d ex
                    (BFetch url (hash pb)
                       (match cmake pb with Some _ => true | None => false end)
                       (a_insecure a)) in
  (* Install any dependencies first *)
  install_deps install pb src_dir (a_test a) (a_test_all a) (a_generator a)
    (a_insecure a) (ignore_requirements pb) >>
  (* Setup cmake file *)
  (match cmake pb with
   | Some c =>
       if PyStr.truthy c then
         let target := Path.join src_dir "CMakeLists.txt" in
         let* ex_target := read (λ f, OS.exists_ f target) in
         (if ex_target
          then update_res (OS.rename (nt env) target
                             (Path.join src_dir cmake_original_file))
          else ret tt) >>
         update_res (OS.copyfile (Path.of_string c) target)
       else ret tt
   | None => ret tt
   end) >>
  (* Configure and build *)
  call_builder d ex (BConfigure src_dir (define pb) (a_generator a) (prefix env)
                       (a_test a) (variant pb)) >>
  call_builder d ex (BBuild (variant pb) None) >>
  (* Run tests if enabled *)
  (if a_test a || a_test_all a
   then call_builder d ex (BTest (variant pb)) >> ret tt
   else ret tt) >>
  (* Install *)
  call_builder d ex (BBuild (variant pb) (Some "install")) >>
  ret tt.

Fixpoint install_at (n : nat) (pb : pkg_arg) (a : install_args) : M string :=
  match n with
  | O => raise RecursionError
  | S n' =>
      let* pb := read_res (parse_pkg_build env (Some pb) None false) in
      let* pkg_dir := get_package_directory (Some (ABuild pb)) in
      let unlink_dir := pkg_dir ++ ["unlink"] in
      let build_it : M string :=
        create_builder pb true (install_build (install_at n') pb a) >>
        write_parent pb (a_track a) >>
        ret (successfully_installed pb) in
      let installed_or_build : M string :=
        let* isd := read (λ f, OS.isdir f pkg_dir) in
        if isd then
          write_parent pb (a_track a) >>
          if a_update a then remove (Some (ABuild pb)) >> build_it
          else ret (already_installed pb)
        else build_it in
      (* If it's been unlinked, then link it in *)
      let* unl := read (λ f, OS.isdir f unlink_dir) in
      if unl then
        if a_update a
        then update_res (OS.rmtree_strict unlink_dir) >> installed_or_build
        else link (Some (ABuild pb)) >>
             write_parent pb (a_track a) >>
             ret (linking pb)
      else installed_or_build
  end.

Definition install (pb : pkg_arg) (a : install_args) : M string :=
  install_at (limit env) pb a.

Definition ignore (pb : pkg_arg) : M string :=
  let* pb := read_res (parse_pkg_build env (Some pb) None false) in
  let pkg_dir := Path.join (get_private_path env) (to_fname pb) in
  (* If package doesn't exist *)
  let* ex := read (λ f, OS.exists_ f pkg_dir) in
  if negb ex
  then Util.mkfile pkg_dir "ignore" "ignore" true >>
       ret ("Ignore package " +:+ to_name pb)
  else ret (already_installed pb).

(** [_list_files]: the package is parsed before it is compared with
    [None], so the branch for [None] is never taken: [parse_pkg_src] has
    raised. *)
Definition _list_files (pkg : option pkg_arg) (top : bool) : M (list string) :=
  let* pkg := read_res (parse_pkg_src env pkg None false) in
  let* pkg_dir := get_package_directory (Some (ASrc pkg)) in
  let* d := get_deps_directory (Some (AStr (src_to_fname pkg))) in
  let* ls := read (λ f, Util.ls f d OS.isfile) in
  if top then ret (src_to_fname pkg :: ls) else ret ls.

(** [list], a generator: the packages it yields, and the exception that
    ends the iteration when there is one. *)
Fixpoint list_at (n : nat) (pkg : option pkg_arg) (recursive top : bool)
         (w : world) : list PackageSource * option exn :=
  match n with
  | O => ([], Some RecursionError)
  | S n' =>
      match _list_files pkg top w with
      | (_, Raise e) => ([], Some e)
      | (_, Ok ds) =>
          (fix loop (ds : list string) : list PackageSource * option exn :=
             match ds with
             | [] => ([], None)
             | d :: ds' =>
                 let p := fname_to_pkg d in
                 let here := if OS.exists_ (fs w) (Path.join (get_private_path env) d)
                             then [p] else [] in
                 if recursive then
                   match list_at n' (Some (ASrc p)) recursive false w with
                   | (cs, Some e) => (here ++ cs, Some e)
                   | (cs, None) =>
                       let '(r, e) := loop ds' in (here ++ cs ++ r, e)
                   end
                 else let '(r, e) := loop ds' in (here ++ r, e)
             end) ds
      end
  end.

Definition list_ (pkg : option pkg_arg) (recursive top : bool) (w : world)
  : list PackageSource * option exn :=
  list_at (limit env) pkg recursive top w.

End Prefix.

(** The archive a shorthand stands for. *)
Definition archive_url (owner repo ref : string) : string :=
  "https://github.com/" +:+ owner +:+ "/" +:+ repo +:+ "/archive/" +:+ ref
  +:+ ".tar.gz".

(** The store entry of a resolved build. *)
Definition entry_path `{Ops} (env : Env) (pb : PackageBuild) : path :=
  Path.join (get_private_path env) (to_fname pb).

(** The world after [ignore] has created the marker entry at [d]. *)
Definition ignored (d : path) (w : world) : world :=
  {| fs := <[d ++ ["ignore"] := File "ignore"]> (<[d := Dir]> (fs w));
     trace := trace w |}.

(** What [install_deps] is to pass to [install] for a dependency of [pb]:
    the dependency labelled with its parent, [update] unset, and [track] set
    exactly when the dependency is neither test-only nor build-only. *)
Definition track_ok `{Ops} (pb : PackageBuild) (arg : pkg_arg) (a : install_args)
  : bool :=
  match arg with
  | ABuild dep =>
      bool_decide (parent dep = Some (to_fname pb))
      && Bool.eqb (a_track a) (negb (Package.test dep || Package.build dep))
      && negb (a_update a)
  | _ => false
  end.

(** A file system is well formed when every node sits in a directory. *)
Definition wf (f : FS) : Prop :=
  map_Forall (λ (k : path) (_ : node),
                Path.dirname k = [] ∨ f !! Path.dirname k = Some Dir) f.

#[global] Instance wf_dec (f : FS) : Decision (wf f).
Proof. unfold wf. apply _. Defined.

(** ** A concrete installation, for the examples

    An instance of the interface above: names are made safe by doubling the
    separator, a specification line is one token, optionally after a
    [--test] or [--build] flag, and the Builder fetches into [src], builds a
    library and installs it into the prefix. *)
Module Example.

Definition home : path := ["home"; "user"].
Definition root : path := ["home"; "user"; "cget"].
Definition store : path := root ++ ["cget"].

Fixpoint safe (s : string) : string :=
  match s with
  | EmptyString => EmptyString
  | String a s' =>
      if Ascii.eqb a "/" then "__" +:+ safe s' else String a (safe s')
  end.

Definition src_fname (ps : PackageSource) : string :=
  match Package.name ps with
  | Some n => safe n
  | None => "_url_" +:+ safe (py_str (Package.url ps))
  end.

Definition run (fails : bool) (d : path) (ex : bool) (c : builder_call) (f : FS)
  : FS * res path :=
  match c with
  | BFetch _ _ _ _ =>
      match OS.makedirs_from [] (d ++ ["src"]) f with
      | Ok f' => (f', Ok (d ++ ["src"]))
      | Raise e => (f, Raise e)
      end
  | BConfigure _ _ _ _ _ _ => (f, Ok d)
  | BBuild _ None =>
      if fails then (f, Raise BuildError)
      else (<[d ++ ["lib.a"] := File "obj"]> f, Ok d)
  | BBuild _ (Some _) =>
      match OS.makedirs_from [] (root ++ ["lib"]) f with
      | Ok f' => (<[root ++ ["lib"; "lib.a"] := File "obj"]> f', Ok d)
      | Raise e => (f, Raise e)
      end
  | BTest _ => (f, Ok d)
  end.

Definition with_flags (t b : bool) (pb : PackageBuild) : PackageBuild :=
  {| pkg_src := pkg_src pb; define := define pb; parent := parent pb;
     test := t; build := b; cmake := cmake pb; hash := hash pb;
     variant := variant pb; requirements := requirements pb;
     ignore_requirements := ignore_requirements pb; file := file pb |}.

Definition tokens_to_build (tokens : list string) : res PackageBuild :=
  match tokens with
  | [t] => Ok (mk (Raw t))
  | ["--test"; t] => Ok (with_flags true false (mk (Raw t)))
  | ["--build"; t] => Ok (with_flags false true (mk (Raw t)))
  | _ => Raise TypeError
  end.

Definition make_ops (fails : bool) : Ops := {|
  to_fname pb := match pkg_src pb with
                 | Resolved ps => src_fname ps
                 | Raw s => safe s
                 end;
  src_to_fname := src_fname;
  to_name pb := match pkg_src pb with
                | Resolved ps => py_str (Package.name ps)
                | Raw s => s
                end;
  fname_to_pkg d := {| Package.name := Some d; Package.url := None;
                       Package.recipe := None |};
  shlex_split line :=
    Ok (filter (λ t, t ≠ EmptyString) (PyStr.split " " line));
  parse_pkg_build_tokens := tokens_to_build;
  actual_path s start :=
    if PyStr.startswith s "/" then Path.of_string s
    else default home start ++ Path.of_string s;
  cget_dir a b := ["usr"; "lib"; "cget"; a; b];
  cmake_original_file := "CMakeLists.original.txt";
  builder_run := run fails
|}.

(** The Builder that succeeds, and the one whose build step fails. *)
Definition ops : Ops := make_ops false.
Definition failing_ops : Ops := make_ops true.

Definition posix : Env :=
  {| prefix := root; verbose := false; nt := false; USE_SYMLINKS := true;
     limit := 8 |}.

Definition posix_copy : Env :=
  {| prefix := root; verbose := false; nt := false; USE_SYMLINKS := false;
     limit := 8 |}.

(** The store right after [CGetPrefix(prefix)]: only the toolchain file. *)
Definition fresh_fs : FS :=
  list_to_map [(["home"], Dir); (home, Dir); (root, Dir); (store, Dir);
               (store ++ ["cget.cmake"], File "set(CGET_PREFIX)")].

Definition fresh : world := {| fs := fresh_fs; trace := [] |}.

(** Two installed packages, [app] and [zlib], each published into the
    prefix tree, and the edge "[app] required [zlib]" recorded in the store
    entry of [zlib]. *)
Definition published (symlinks : bool) (target : path) (c : string) : node :=
  if symlinks then Symlink target else File c.

Definition linked_fs (symlinks : bool) : FS :=
  list_to_map
    [(store ++ ["app"], Dir);
     (store ++ ["app"; "install"], Dir);
     (store ++ ["app"; "install"; "bin"], Dir);
     (store ++ ["app"; "install"; "bin"; "app"], File "exe");
     (store ++ ["zlib"], Dir);
     (store ++ ["zlib"; "install"], Dir);
     (store ++ ["zlib"; "install"; "lib"], Dir);
     (store ++ ["zlib"; "install"; "lib"; "libz.a"], File "obj");
     (store ++ ["zlib"; ".depend"], Dir);
     (store ++ ["zlib"; ".depend"; "app"], File "app");
     (root ++ ["bin"], Dir);
     (root ++ ["bin"; "app"],
      published symlinks (store ++ ["app"; "install"; "bin"; "app"]) "exe");
     (root ++ ["lib"], Dir);
     (root ++ ["lib"; "libz.a"],
      published symlinks (store ++ ["zlib"; "install"; "lib"; "libz.a"]) "obj")]
  ∪ fresh_fs.

Definition linked (symlinks : bool) : world :=
  {| fs := linked_fs symlinks; trace := [] |}.

(** An entry in the state [link] looks for: its content under [unlink]. *)
Definition unlinked_fs : FS :=
  list_to_map
    [(store ++ ["zlib"], Dir);
     (store ++ ["zlib"; "unlink"], Dir);
     (store ++ ["zlib"; "unlink"; "install"], Dir);
     (store ++ ["zlib"; "unlink"; "install"; "lib"], Dir);
     (store ++ ["zlib"; "unlink"; "install"; "lib"; "libz.a"], File "obj")]
  ∪ fresh_fs.

Definition unlinked : world := {| fs := unlinked_fs; trace := [] |}.

(** A package [app] whose requirements file lists [zlib] and, for the build
    only, [tool]. *)
Definition app : PackageBuild :=
  set_requirements (Some "/home/user/app/requirements.txt")
    (mk (Resolved {| Package.name := Some "app";
                     Package.url := Some "https://example.org/app.tar.gz";
                     Package.recipe := None |})).

Definition with_requirements : world :=
  {| fs := list_to_map
             [(home ++ ["app"], Dir);
              (home ++ ["app"; "requirements.txt"],
               File ("zlib" +:+ String "010" ("--build tool" +:+ String "010" "")))]
           ∪ fresh_fs;
     trace := [] |}.

(** A stand-in for [install] that leaves a mark in the trace when it is
    called with arguments that are not those [track_ok] describes. *)
Definition checked `{Ops} (pb : PackageBuild) (arg : pkg_arg) (a : install_args)
  : M string :=
  λ w, if track_ok pb arg a then (w, Ok EmptyString)
       else ({| fs := fs w;
                trace := trace w ++ [{| ev_dir := []; ev_exists := false;
                                        ev_call := BTest None |}] |},
             Ok EmptyString).

(** A recipe [zlib]: its [package.txt] names the archive, and a
    [requirements.txt] sits next to it. *)
Definition zlib_recipe : path := root ++ ["etc"; "cget"; "recipes"; "zlib"].

Definition with_recipe : FS :=
  list_to_map
    [(root ++ ["etc"], Dir);
     (root ++ ["etc"; "cget"], Dir);
     (root ++ ["etc"; "cget"; "recipes"], Dir);
     (zlib_recipe, Dir);
     (zlib_recipe ++ ["package.txt"], File "zlib,https://zlib.net/zlib-1.3.tar.gz");
     (zlib_recipe ++ ["requirements.txt"], File "")]
  ∪ fresh_fs.

(** A caller's build that points at the recipe, under the name [name]. *)
Definition recipe_build (name : option string) : PackageBuild :=
  set_cmake (Some "/home/user/zlib.cmake")
    (mk (Resolved {| Package.name := name; Package.url := None;
                     Package.recipe := Some zlib_recipe |})).

(** The store after an install of [foo/bar] whose build step failed. *)
Definition partial : world :=
  fst (install (H := failing_ops) posix (AStr "foo/bar") default_args fresh).

(** The build [install_deps] passes to [install] for the requirement [zlib]
    of [app]: the archive of [zlib], labelled with its parent. *)
Definition zlib_child : PackageBuild :=
  set_parent (Some "app")
    (mk (Resolved {| Package.name := Some "zlib";
                     Package.url := Some "https://zlib.net/zlib-1.3.tar.gz";
                     Package.recipe := None |})).

(** A fresh store next to the recipe [zlib]. *)
Definition recipe_store : world := {| fs := with_recipe; trace := [] |}.

(** The same with a store entry for [zlib]. *)
Definition recipe_entry : world :=
  {| fs := <[store ++ ["zlib"] := Dir]> with_recipe; trace := [] |}.

(** The requirements of [app] next to the recipe [zlib]. *)
Definition recipe_requirements : world :=
  {| fs := fs with_requirements ∪ with_recipe; trace := [] |}.

(** A store entry for [zlib], no recipe, and a directory [zlib] in the
    working directory. *)
Definition local_dir : world :=
  {| fs := <[home ++ ["zlib"] := Dir]> (<[store ++ ["zlib"] := Dir]> fresh_fs);
     trace := [] |}.

End Example.

(** ** More of [prefix.py] *)

(** The position of the first occurrence of [sub] in [s], as [s.find(sub)]
    counts it. *)
Fixpoint first_index (sub s : string) : option nat :=
  if String.prefix sub s then Some O
  else match s with
       | EmptyString => None
       | String _ s' => S <$> first_index sub s'
       end.

Section CMakeVar.

(** [str.upper] and [str.lower], taken as they come. *)
Variables upper lower : string → string.

Definition parse_cmake_var_type (key value : string) : string * string * string :=
  if PyStr.contains ":" key then
    let p := PyStr.split ":" key in
    (hd EmptyString p, upper (nth 1 p EmptyString), value)
  else if bool_decide (lower value ∈ ["on"; "off"; "true"; "false"])
       then (key, "BOOL", value)
       else (key, "STRING", value).

End CMakeVar.

Section Maintenance.

Context `{Ops} (env : Env).

(** [build_clean]: the tree is removed with [shutil.rmtree(p)], which
    raises on an entry path that is a file or a symbolic link. *)
Definition build_clean (pb : option pkg_arg) : M unit :=
  let* p := get_package_directory env pb in
  let* ex := read (λ f, OS.exists_ f p) in
  if ex then update_res (OS.rmtree_strict p) else ret tt.

End Maintenance.

(** The example installation with a Builder whose fetch fails. *)
Definition fetch_fails : Ops := {|
  to_fname := to_fname (Ops := Example.ops);
  src_to_fname := src_to_fname (Ops := Example.ops);
  to_name := to_name (Ops := Example.ops);
  fname_to_pkg := fname_to_pkg (Ops := Example.ops);
  shlex_split := shlex_split (Ops := Example.ops);
  parse_pkg_build_tokens := parse_pkg_build_tokens (Ops := Example.ops);
  actual_path := actual_path (Ops := Example.ops);
  cget_dir := cget_dir (Ops := Example.ops);
  cmake_original_file := cmake_original_file (Ops := Example.ops);
  builder_run d ex c f :=
    match c with
    | BFetch _ _ _ _ => (f, Raise BuildError)
    | _ => Example.run false d ex c f
    end
|}.

(** A build that leaves the requirements of its source aside. *)
Definition standalone : PackageBuild :=
  {| pkg_src := Resolved {| Package.name := Some "tool";
                            Package.url := Some "https://example.org/tool.tar.gz";
                            Package.recipe := None |};
     define := ∅; parent := None; test := false; build := false;
     cmake := None; hash := None; variant := Some "Release";
     requirements := None; ignore_requirements := true; file := None |}.

(** What [install_deps], called with [test], [test_all], [generator] and
    [insecure], passes to [install]: a dependency that is test-only just
    when tests are asked for, [test] and [update] at their defaults,
    [test_all], [generator] and [insecure] as they came. *)
Definition deps_call (test test_all : bool) (generator : option string)
           (insecure : bool) (arg : pkg_arg) (a : install_args) : bool :=
  match arg with
  | ABuild dep =>
      (negb (Package.test dep) || test || test_all)
      && negb (a_test a)
      && negb (a_update a)
      && Bool.eqb (a_test_all a) test_all
      && bool_decide (a_generator a = generator)
      && Bool.eqb (a_insecure a) insecure
  | _ => false
  end.

(** A stand-in for [install] that leaves a mark in the trace when it is
    called with arguments that [ok] refuses. *)
Definition audited (ok : pkg_arg → install_args → bool) (arg : pkg_arg)
           (a : install_args) : M string :=
  λ w, if ok arg a then (w, Ok EmptyString)
       else ({| fs := fs w;
                trace := trace w ++ [{| ev_dir := []; ev_exists := false;
                                        ev_call := BTest None |}] |},
             Ok EmptyString).

(** The requirements of [Example.app] with a test-only [gtest] added. *)
Definition with_test_requirement : world :=
  {| fs := <[Example.home ++ ["app"; "requirements.txt"] :=
               File ("zlib" +:+ String "010" ("--test gtest" +:+ String "010" ""))]>
             (fs Example.with_requirements);
     trace := [] |}.

(** * Properties *)

(** ** Strings *)

Module PyStrFacts.
Import PyStr.

Lemma prefix_char c s :
  String.prefix (String c EmptyString) s
  = match s with String a _ => Ascii.eqb a c | EmptyString => false end.
Proof.
  destruct s as [|a s]; simpl; [reflexivity|].
  destruct (ascii_dec c a) as [->|Hne].
  - rewrite Ascii.eqb_refl. now destruct s.
  - symmetry. apply Ascii.eqb_neq. congruence.
Qed.

Lemma find_from_char c s : ∀ i, 0 ≤ i →
  if has_char c s then i ≤ find_from (String c EmptyString) s i
  else find_from (String c EmptyString) s i = -1.
Proof.
  induction s as [|a s IH]; intros i Hi.
  - reflexivity.
  - cbn [has_char find_from]. rewrite prefix_char.
    destruct (Ascii.eqb a c); cbn [orb]; [lia|].
    specialize (IH (i + 1) ltac:(lia)).
    destruct (has_char c s); lia.
Qed.

Lemma contains_char c s : contains (String c EmptyString) s = has_char c s.
Proof.
  unfold contains, find. pose proof (find_from_char c s 0 ltac:(lia)) as Hf.
  destruct (has_char c s); [apply Z.leb_le; lia|]. now rewrite Hf.
Qed.

Lemma split_no_char c s : has_char c s = false → split c s = [s].
Proof.
  induction s as [|a s IH]; cbn [has_char split]; [reflexivity|].
  intros [Ha Hs]%orb_false_iff. rewrite Ha, (IH Hs). reflexivity.
Qed.

Lemma split_app c a b :
  has_char c a = false →
  split c (a +:+ String c b) = a :: split c b.
Proof.
  induction a as [|x a IH]; cbn [has_char].
  - intros _. change (EmptyString +:+ String c b) with (String c b).
    cbn [split]. now rewrite Ascii.eqb_refl.
  - intros [Hx Ha]%orb_false_iff.
    change (String x a +:+ String c b) with (String x (a +:+ String c b)).
    cbn [split]. rewrite Hx, (IH Ha). reflexivity.
Qed.

Lemma has_char_app c a b : has_char c (a +:+ b) = has_char c a || has_char c b.
Proof.
  induction a as [|x a IH]; [reflexivity|].
  change (String x a +:+ b) with (String x (a +:+ b)).
  cbn [has_char]. now rewrite IH, orb_assoc.
Qed.

Lemma append_assoc a b c : (a +:+ b) +:+ c = a +:+ (b +:+ c).
Proof.
  induction a as [|x a IH]; [reflexivity|].
  change (String x a +:+ b) with (String x (a +:+ b)).
  change (String x (a +:+ b) +:+ c) with (String x ((a +:+ b) +:+ c)).
  now rewrite IH.
Qed.

End PyStrFacts.

(** ** The shorthand fallback of the resolver *)

Section Shorthand.

Import PyStr PyStrFacts.

Variables owner repo ref : string.
Hypothesis owner_plain : has_char "/" owner = false ∧ has_char "@" owner = false.
Hypothesis repo_plain : has_char "/" repo = false ∧ has_char "@" repo = false.
Hypothesis ref_plain : has_char "@" ref = false.

Lemma parse_src_name_owner_repo_ref default :
  parse_src_name ((owner +:+ "/" +:+ repo) +:+ "@" +:+ ref) default
  = (if String.eqb owner repo then owner else owner +:+ "/" +:+ repo, Some ref).
Proof.
  destruct owner_plain as [Ho1 Ho2], repo_plain as [Hr1 Hr2].
  unfold parse_src_name.
  change ("@" +:+ ref) with (String "@" ref).
  change ("/" +:+ repo) with (String "/" repo).
  rewrite split_app
    by (rewrite has_char_app; cbn [has_char]; now rewrite Ho2, Hr2).
  rewrite (split_no_char _ ref ref_plain). cbn [hd].
  rewrite PyStrFacts.contains_char, has_char_app. cbn [has_char].
  rewrite Ascii.eqb_refl, orb_true_r.
  rewrite split_app, (split_no_char _ repo) by assumption.
  cbn. reflexivity.
Qed.

Lemma parse_src_name_owner_repo default :
  parse_src_name (owner +:+ "/" +:+ repo) default
  = (if String.eqb owner repo then owner else owner +:+ "/" +:+ repo, default).
Proof.
  destruct owner_plain as [Ho1 Ho2], repo_plain as [Hr1 Hr2].
  unfold parse_src_name.
  change ("/" +:+ repo) with (String "/" repo).
  rewrite (split_no_char "@")
    by (rewrite has_char_app; cbn [has_char]; now rewrite Ho2, Hr2).
  cbn [hd].
  rewrite PyStrFacts.contains_char, has_char_app. cbn [has_char].
  rewrite Ascii.eqb_refl, orb_true_r.
  rewrite split_app, (split_no_char _ repo) by assumption.
  cbn. reflexivity.
Qed.

Lemma parse_src_name_repo_ref default :
  parse_src_name (repo +:+ "@" +:+ ref) default = (repo, Some ref).
Proof.
  destruct repo_plain as [Hr1 Hr2].
  unfold parse_src_name.
  change ("@" +:+ ref) with (String "@" ref).
  rewrite split_app, (split_no_char _ ref) by assumption.
  cbn [hd]. now rewrite PyStrFacts.contains_char, Hr1.
Qed.

(** The shorthand [owner/repo], whatever [p] the name parser keeps. *)
Lemma github_owner_repo v :
  (let p := if String.eqb owner repo then owner else owner +:+ "/" +:+ repo in
   if contains "/" p
   then "https://github.com/" +:+ p +:+ "/archive/" +:+ v +:+ ".tar.gz"
   else "https://github.com/" +:+ p +:+ "/" +:+ p +:+ "/archive/" +:+ v
        +:+ ".tar.gz")
  = archive_url owner repo v.
Proof.
  destruct owner_plain as [Ho1 Ho2]. cbv zeta. unfold archive_url.
  destruct (String.eqb_spec owner repo) as [<-|Hne].
  - now rewrite PyStrFacts.contains_char, Ho1.
  - rewrite PyStrFacts.contains_char, has_char_app.
    change ("/" +:+ repo) with (String "/" repo). cbn [has_char].
    rewrite Ascii.eqb_refl, orb_true_r.
    now rewrite append_assoc.
Qed.

Lemma parse_src_github_owner_repo_ref name :
  Package.url (parse_src_github name ((owner +:+ "/" +:+ repo) +:+ "@" +:+ ref))
  = Some (archive_url owner repo ref).
Proof.
  unfold parse_src_github. rewrite parse_src_name_owner_repo_ref.
  cbn [Package.url py_str]. f_equal. apply github_owner_repo.
Qed.

Lemma parse_src_github_owner_repo name :
  Package.url (parse_src_github name (owner +:+ "/" +:+ repo))
  = Some (archive_url owner repo "HEAD").
Proof.
  unfold parse_src_github. rewrite parse_src_name_owner_repo.
  cbn [Package.url py_str]. f_equal. apply github_owner_repo.
Qed.

Lemma parse_src_github_repo_ref name :
  Package.url (parse_src_github name (repo +:+ "@" +:+ ref))
  = Some (archive_url repo repo ref).
Proof.
  destruct repo_plain as [Hr1 Hr2].
  unfold parse_src_github. rewrite parse_src_name_repo_ref.
  rewrite PyStrFacts.contains_char, Hr1. reflexivity.
Qed.

End Shorthand.

(** C5. A token with no scheme marker that names no local path and no recipe
    resolves to the synthesized archive source: [owner/repo] gives the
    archive of [owner/repo] at ref [HEAD], [owner/repo@ref] the same with
    [ref] in the ref segment, and a bare [repo@ref] takes the repo name for
    the owner. *)
Theorem shorthand_fallback `{Ops} (env : Env) (f : FS) (start : option path)
        (token : string) (name : option string) (url owner repo ref : string) :
  parse_alias token = (name, url) →
  PyStr.contains "://" url = false →
  parse_src_file name url start f = None →
  parse_src_recipe env name url f = None →
  PyStr.has_char "/" owner = false ∧ PyStr.has_char "@" owner = false →
  PyStr.has_char "/" repo = false ∧ PyStr.has_char "@" repo = false →
  PyStr.has_char "@" ref = false →
  ∃ ps, parse_pkg_src env (Some (AStr token)) start false f = Ok ps
        ∧ ps = parse_src_github name url
        ∧ Package.recipe ps = None
        ∧ (url = owner +:+ "/" +:+ repo →
           Package.url ps = Some (archive_url owner repo "HEAD"))
        ∧ (url = (owner +:+ "/" +:+ repo) +:+ "@" +:+ ref →
           Package.url ps = Some (archive_url owner repo ref))
        ∧ (url = repo +:+ "@" +:+ ref →
           Package.url ps = Some (archive_url repo repo ref)).
Proof.
  intros Halias Hscheme Hfile Hrecipe Ho Hr Hv.
  exists (parse_src_github name url).
  split; [|split; [reflexivity|split; [|split; [|split]]]].
  - unfold parse_pkg_src, parse_pkg_src_str.
    now rewrite Halias, Hscheme, Hfile, Hrecipe.
  - unfold parse_src_github. now destruct (parse_src_name url (Some "HEAD")).
  - intros ->. now apply parse_src_github_owner_repo.
  - intros ->. now apply parse_src_github_owner_repo_ref.
  - intros ->. now apply parse_src_github_repo_ref.
Qed.

Lemma shorthand_fallback_witness :
  parse_pkg_src (H := Example.ops) Example.posix (Some (AStr "foo/bar@v1.2")) None
    false Example.fresh_fs
  = Ok {| Package.name := Some "foo/bar";
          Package.url := Some "https://github.com/foo/bar/archive/v1.2.tar.gz";
          Package.recipe := None |}.
Proof.
  destruct (shorthand_fallback (H := Example.ops) Example.posix Example.fresh_fs
              None "foo/bar@v1.2" None "foo/bar@v1.2" "foo" "bar" "v1.2")
    as (ps & Hps & Heq & _); [vm_compute; tauto ..|].
  rewrite Hps, Heq. reflexivity.
Defined.


(** ** The monad *)

Lemma bind_ok {A B} (m : M A) (k : A → M B) w w' a :
  m w = (w', Ok a) → bind m k w = k a w'.
Proof. unfold bind. now intros ->. Qed.

Lemma bind_raise {A B} (m : M A) (k : A → M B) w w' e :
  m w = (w', Raise e) → bind m k w = (w', Raise e).
Proof. unfold bind. now intros ->. Qed.

Ltac munfold :=
  unfold bind, ret, raise, lift, read, read_res, update_fs, update_res in *.

(** ** Paths *)

Lemma strip_app p r : Path.strip p (p ++ r) = Some r.
Proof.
  induction p as [|a p IH]; [reflexivity|].
  cbn. now rewrite decide_True.
Qed.

Lemma under_app p r : Path.under p (p ++ r) = true.
Proof. unfold Path.under. now rewrite strip_app. Qed.

Lemma app_cons_ne (p : path) c r : p ++ c :: r ≠ p.
Proof.
  intros Heq. apply (f_equal length) in Heq.
  rewrite length_app in Heq. cbn in Heq. lia.
Qed.

(** A directory cannot be renamed onto the directory that holds it. *)
Lemma rename_onto_parent nt d c f :
  OS.rename nt (d ++ [c]) d f = Raise OSError.
Proof.
  unfold OS.rename. destruct (OS.node_at f (d ++ [c])); [|reflexivity].
  rewrite decide_False by apply app_cons_ne.
  now rewrite under_app.
Qed.

(** ** [list] without a package *)

(** C9, on the code: [_list_files] parses the package before it compares it
    with [None], so [list()] raises at its first step and enumerates nothing,
    whatever the store holds and with or without [recursive]. *)
Theorem list_without_package_raises `{Ops} (env : Env) (n : nat)
        (recursive top : bool) (w : world) :
  _list_files env None top w = (w, Raise TypeError)
  ∧ list_at env (S n) None recursive top w = ([], Some TypeError).
Proof. split; reflexivity. Qed.

(** The store of the example holds two entries, which [list()] does not
    enumerate. *)
Lemma list_example :
  Util.ls (fs (Example.linked true)) Example.store OS.isdir = ["app"; "zlib"]
  ∧ list_ (H := Example.ops) Example.posix None false true (Example.linked true)
    = ([], Some TypeError).
Proof. split; vm_compute; reflexivity. Qed.

(** ** The link farm *)

Section Link.

Context `{Ops} (env : Env).

(** [link] publishes nothing: when the entry has an [unlink] child the rename
    of that child onto the entry fails, and otherwise nothing is done. *)
Lemma get_package_directory_world pb w w' r :
  get_package_directory env pb w = (w', r) → w' = w.
Proof.
  unfold get_package_directory. munfold.
  destruct (parse_pkg_build env pb None false (fs w)); congruence.
Qed.

Lemma link_cases pkg w :
  link env pkg w = (w, Ok tt) ∨ ∃ w' e, link env pkg w = (w', Raise e).
Proof.
  unfold link. munfold.
  destruct (parse_pkg_src env pkg None false (fs w)) as [ps|e]; [|eauto].
  destruct (get_package_directory env (Some (ASrc ps)) w) as [w1 [d|e]] eqn:Hd;
    [|eauto].
  apply get_package_directory_world in Hd as ->.
  destruct (OS.exists_ (fs w) (d ++ ["unlink"])) eqn:Hex.
  - right. destruct (Util.mkdir d w) as [w2 [d'|e]]; [|eauto].
    rewrite rename_onto_parent. eauto.
  - left. unfold Util.ls. now rewrite Hex.
Qed.

(** A call of [link] that returns has changed nothing: no entry is renamed
    back, no path is published, no dependent is relinked. *)
Lemma link_returns_unchanged pkg w w' :
  link env pkg w = (w', Ok tt) → w' = w.
Proof.
  intros Hl. destruct (link_cases pkg w) as [Hw|(w1 & e & Hw)];
    rewrite Hw in Hl; congruence.
Qed.

(** [unlink] without [delete] raises on every entry that exists, after it
    has taken the entry's paths out of the prefix tree. *)
Lemma unlink_keep_raises pkg ps d w :
  parse_pkg_src env pkg None false (fs w) = Ok ps →
  get_package_directory env (Some (ASrc ps)) w = (w, Ok d) →
  OS.exists_ (fs w) d = true →
  snd (unlink env pkg false w) = Raise TypeError.
Proof.
  intros Hps Hd Hex. unfold unlink, get_unlink_directory. munfold.
  rewrite Hps. cbv beta iota. rewrite Hd. cbv beta iota.
  rewrite Hd. cbv beta iota. rewrite Hex.
  destruct (USE_SYMLINKS env); reflexivity.
Qed.

End Link.

(** C2, on the code, in both composition modes: [unlink] of the linked entry
    [zlib] takes its library out of the prefix tree and then raises
    [TypeError], the entry staying where it was; the [link] that follows
    returns without publishing anything, so the prefix tree is not
    restored. *)
Theorem unlink_then_link_loses_paths (symlinks : bool) :
  let env := if symlinks then Example.posix else Example.posix_copy in
  let libz := Example.root ++ ["lib"; "libz.a"] in
  let stored := Example.store ++ ["zlib"; "install"; "lib"; "libz.a"] in
  let w0 := Example.linked symlinks in
  let w1 := fst (unlink (H := Example.ops) env (Some (AStr "zlib")) false w0) in
  let w2 := fst (link (H := Example.ops) env (Some (AStr "zlib")) w1) in
  fs w0 !! libz = Some (Example.published symlinks stored "obj")
  ∧ snd (unlink (H := Example.ops) env (Some (AStr "zlib")) false w0)
    = Raise TypeError
  ∧ fs w1 !! libz = None
  ∧ fs w1 !! stored = Some (File "obj")
  ∧ fs w1 !! (Example.store ++ ["zlib"; ".unlink"]) = None
  ∧ snd (link (H := Example.ops) env (Some (AStr "zlib")) w1) = Ok tt
  ∧ fs w2 !! libz = None.
Proof. destruct symlinks; vm_compute; repeat split; reflexivity. Qed.

(** C3, on the code: [app] required [zlib] and the edge is recorded. Both
    calls of [unlink] raise after emptying the prefix tree, and [link] of
    [app] returns without relinking [zlib] or [app]. On an entry whose
    content sits under [unlink], the state [link] looks for, [link] raises
    on the rename. *)
Theorem link_does_not_cascade :
  let env := Example.posix in
  let libz := Example.root ++ ["lib"; "libz.a"] in
  let w0 := Example.linked true in
  let w1 := fst (unlink (H := Example.ops) env (Some (AStr "zlib")) false w0) in
  let w2 := fst (unlink (H := Example.ops) env (Some (AStr "app")) false w1) in
  fs w0 !! (Example.store ++ ["zlib"; ".depend"; "app"]) = Some (File "app")
  ∧ is_Some (fs w0 !! libz)
  ∧ snd (unlink (H := Example.ops) env (Some (AStr "zlib")) false w0)
    = Raise TypeError
  ∧ snd (unlink (H := Example.ops) env (Some (AStr "app")) false w1)
    = Raise TypeError
  ∧ snd (link (H := Example.ops) env (Some (AStr "app")) w2) = Ok tt
  ∧ fs (fst (link (H := Example.ops) env (Some (AStr "app")) w2)) !! libz = None
  ∧ fs w2 !! (Example.root ++ ["bin"; "app"]) = None
  ∧ snd (link (H := Example.ops) env (Some (AStr "zlib")) Example.unlinked)
    = Raise OSError.
Proof. vm_compute. repeat split; try reflexivity. eauto. Qed.

(** ** The file system *)

Lemma dirname_app p n : Path.dirname (p ++ [n]) = p.
Proof. apply removelast_last. Qed.

Lemma wf_parent f p n v :
  wf f → f !! (p ++ [n]) = Some v → p = [] ∨ f !! p = Some Dir.
Proof.
  intros Hwf Hv. specialize (Hwf _ _ Hv). cbv beta in Hwf.
  now rewrite dirname_app in Hwf.
Qed.

(** In a well-formed file system every proper ancestor of a node is a
    directory. *)
Lemma wf_ancestor f q r v :
  wf f → f !! (q ++ r) = Some v → q ≠ [] → r ≠ [] → f !! q = Some Dir.
Proof.
  intros Hwf. revert v. induction r as [|x r IH] using rev_ind; [done|].
  intros v Hv Hq _. rewrite app_assoc in Hv.
  destruct (wf_parent _ _ _ _ Hwf Hv) as [Hnil|Hd].
  - now apply app_eq_nil in Hnil as [-> _].
  - destruct r as [|y r] using rev_ind.
    + now rewrite app_nil_r in Hd.
    + apply (IH Dir); [exact Hd|exact Hq|]. now destruct r.
Qed.

(** [makedirs_from] only adds directories, on the way to its target. *)
Lemma makedirs_from_spec rest : ∀ base f f',
  OS.makedirs_from base rest f = Ok f' →
  f ⊆ f'
  ∧ (∀ q, f' !! q = f !! q
          ∨ (f' !! q = Some Dir ∧ ∃ r1 r2, r1 ≠ [] ∧ rest = r1 ++ r2 ∧ q = base ++ r1))
  ∧ (rest ≠ [] → f' !! (base ++ rest) = Some Dir).
Proof.
  induction rest as [|c rest IH]; intros base f f' Hm.
  - injection Hm as <-. split; [done|]. split; [auto|done].
  - cbn [OS.makedirs_from] in Hm.
    destruct (f !! (base ++ [c])) as [[| |]|] eqn:Hc; try discriminate.
    + apply IH in Hm as (Hsub & Hq & Hd). split; [exact Hsub|]. split.
      * intros q. destruct (Hq q) as [?|(? & r1 & r2 & ? & -> & ->)]; [auto|].
        right. split; [done|]. exists (c :: r1), r2.
        split; [done|]. split; [done|]. now rewrite <- app_assoc.
      * intros _. destruct rest as [|c' rest].
        -- apply (lookup_weaken _ _ _ _ Hc Hsub).
        -- rewrite (cons_middle c), app_assoc. now apply Hd.
    + apply IH in Hm as (Hsub & Hq & Hd).
      assert (f ⊆ <[base ++ [c] := Dir]> f) as Hins by now apply insert_subseteq.
      split; [now transitivity (<[base ++ [c] := Dir]> f)|]. split.
      * intros q. destruct (Hq q) as [Hsame|(? & r1 & r2 & ? & -> & ->)].
        -- destruct (decide (q = base ++ [c])) as [->|Hne].
           ++ right. rewrite Hsame, lookup_insert_eq. split; [done|].
              exists [c], rest. done.
           ++ left. now rewrite Hsame, lookup_insert_ne.
        -- right. split; [done|]. exists (c :: r1), r2.
           split; [done|]. split; [done|]. now rewrite <- app_assoc.
      * intros _. destruct rest as [|c' rest].
        -- apply (lookup_weaken _ _ _ _ (lookup_insert_eq f (base ++ [c]) Dir) Hsub).
        -- rewrite (cons_middle c), app_assoc. now apply Hd.
Qed.

(** Creating a directory right under an existing chain of directories. *)
Lemma makedirs_from_child rest : ∀ base c f,
  (∀ r1 r2, rest ++ [c] = r1 ++ r2 → r1 ≠ [] → r2 ≠ [] →
            f !! (base ++ r1) = Some Dir) →
  f !! (base ++ rest ++ [c]) = None →
  OS.makedirs_from base (rest ++ [c]) f = Ok (<[base ++ rest ++ [c] := Dir]> f).
Proof.
  induction rest as [|x rest IH]; intros base c f Hdirs Hnone.
  - cbn in *. now rewrite Hnone.
  - cbn [app OS.makedirs_from] in Hnone |- *.
    rewrite (Hdirs [x] (rest ++ [c])); [|done|done|now destruct rest].
    replace (base ++ x :: rest ++ [c]) with ((base ++ [x]) ++ rest ++ [c]) in *
      by (now rewrite <- app_assoc).
    apply IH; [|exact Hnone].
    intros r1 r2 Heq Hr1 Hr2. rewrite <- app_assoc.
    apply (Hdirs (x :: r1) r2); [|done|done]. cbn. now rewrite Heq.
Qed.

Lemma node_at_app f p c : OS.node_at f (p ++ [c]) = f !! (p ++ [c]).
Proof. now destruct p. Qed.

Lemma makedirs_child f p c :
  wf f → p = [] ∨ f !! p = Some Dir → f !! (p ++ [c]) = None →
  OS.makedirs (p ++ [c]) f = Ok (<[p ++ [c] := Dir]> f).
Proof.
  intros Hwf Hp Hnone. unfold OS.makedirs, OS.exists_.
  rewrite node_at_app, Hnone.
  apply (makedirs_from_child p [] c f); [|exact Hnone].
  intros r1 r2 Heq Hr1 Hr2. cbn [app].
  destruct Hp as [->|Hp].
  - destruct r1 as [|a [|b r1]]; simplify_eq/=; done.
  - destruct (decide (r1 = p)) as [->|Hne]; [exact Hp|].
    assert (∃ r3, p = r1 ++ r3 ∧ r3 ≠ []) as (r3 & -> & Hr3).
    { destruct r2 as [|z r2 _] using rev_ind; [congruence|].
      rewrite app_assoc in Heq. apply app_inj_tail in Heq as [Heq _].
      exists r2. split; [done|]. intros ->. rewrite app_nil_r in Heq. congruence. }
    apply (wf_ancestor f r1 r3 Dir); done.
Qed.

(** ** The install orchestrator *)

Section Orchestrator.

Context `{Ops} (env : Env).

Lemma get_package_directory_eq pb w d :
  snd (get_package_directory env pb w) = Ok d →
  get_package_directory env pb w = (w, Ok d).
Proof.
  destruct (get_package_directory env pb w) as [w1 r] eqn:Hd. cbn. intros ->.
  now apply get_package_directory_world in Hd as ->.
Qed.

Lemma mkdir_trace p w : trace (fst (Util.mkdir p w)) = trace w.
Proof.
  unfold Util.mkdir. destruct (OS.exists_ _ _); [done|].
  now destruct (OS.makedirs _ _).
Qed.

Lemma mkfile_trace d file c aw w :
  trace (fst (Util.mkfile d file c aw w)) = trace w.
Proof.
  unfold Util.mkfile. munfold. pose proof (mkdir_trace d w) as Hm.
  destruct (Util.mkdir d w) as [w1 [?|?]]; cbn in *; [|done].
  destruct (negb _ || aw); [|done]. now destruct (OS.write_file _ _ _).
Qed.

(** Recording an edge makes no call to the Builder. *)
Lemma write_parent_trace pb t w :
  trace (fst (write_parent env pb t w)) = trace w.
Proof.
  unfold write_parent. destruct (parent pb) as [p|], t; try done.
  unfold get_deps_directory. munfold.
  destruct (get_package_directory env _ w) as [w1 [d|e]] eqn:Hd;
    apply get_package_directory_world in Hd as ->; [|done].
  pose proof (mkfile_trace (d ++ [".depend"]) p p true w) as Hm.
  now destruct (Util.mkfile _ _ _ _ w) as [w1 [?|?]].
Qed.

Lemma write_parent_eq pb t w :
  snd (write_parent env pb t w) = Ok tt →
  write_parent env pb t w = (fst (write_parent env pb t w), Ok tt).
Proof. destruct (write_parent env pb t w) as [w1 r]. cbn. now intros ->. Qed.

(** The path through [install] on an entry that exists and is not unlinked:
    the edge is recorded and the report is "already installed". *)
Lemma install_at_existing n spec a w pb d :
  parse_pkg_build env (Some spec) None false (fs w) = Ok pb →
  snd (get_package_directory env (Some (ABuild pb)) w) = Ok d →
  OS.isdir (fs w) d = true →
  OS.isdir (fs w) (d ++ ["unlink"]) = false →
  a_update a = false →
  install_at env (S n) spec a w
  = bind (write_parent env pb (a_track a))
         (λ _, ret (already_installed pb)) w.
Proof.
  intros Hp Hd%get_package_directory_eq Hdir Hunl Hupd.
  cbn [install_at]. munfold. rewrite Hp. cbv beta iota.
  rewrite Hd. cbv beta iota. rewrite Hunl, Hdir, Hupd. reflexivity.
Qed.

Lemma parse_limit pkg start nr f pb :
  parse_pkg_build env pkg start nr f = Ok pb → ∃ n, limit env = S n.
Proof.
  unfold parse_pkg_build. destruct (limit env) as [|n]; [discriminate|eauto].
Qed.

Lemma install_existing spec a w pb d :
  parse_pkg_build env (Some spec) None false (fs w) = Ok pb →
  snd (get_package_directory env (Some (ABuild pb)) w) = Ok d →
  OS.isdir (fs w) d = true →
  OS.isdir (fs w) (d ++ ["unlink"]) = false →
  a_update a = false →
  snd (write_parent env pb (a_track a) w) = Ok tt →
  install env spec a w
  = (fst (write_parent env pb (a_track a) w), Ok (already_installed pb)).
Proof.
  intros Hp Hd Hdir Hunl Hupd Hw.
  destruct (parse_limit _ _ _ _ _ Hp) as [n Hn]. unfold install. rewrite Hn.
  rewrite (install_at_existing n spec a w pb d) by assumption.
  unfold bind. now rewrite (write_parent_eq _ _ _ Hw).
Qed.

End Orchestrator.

(** Where recording the edge raises nothing: when the store entry of the
    package is a directory without the unlinked marker, whatever it holds,
    [install] without [update] records the edge (when there is one to
    record) and returns the "already installed" report; the Builder is not
    called. *)
Theorem install_existing_entry `{Ops} (env : Env) (spec : pkg_arg)
        (a : install_args) (w : world) (pb : PackageBuild) (d : path) :
  parse_pkg_build env (Some spec) None false (fs w) = Ok pb →
  snd (get_package_directory env (Some (ABuild pb)) w) = Ok d →
  OS.isdir (fs w) d = true →
  OS.isdir (fs w) (d ++ ["unlink"]) = false →
  a_update a = false →
  snd (write_parent env pb (a_track a) w) = Ok tt →
  snd (install env spec a w) = Ok (already_installed pb)
  ∧ fst (install env spec a w) = fst (write_parent env pb (a_track a) w)
  ∧ trace (fst (install env spec a w)) = trace w.
Proof.
  intros Hp Hd Hdir Hunl Hupd Hw.
  rewrite (install_existing env spec a w pb d) by assumption.
  cbn [fst snd]. split; [done|]. split; [done|]. apply write_parent_trace.
Qed.

(** The entry left by a failed build is reported as installed. *)
Lemma install_existing_entry_witness :
  snd (install (H := Example.failing_ops) Example.posix (AStr "foo/bar")
         default_args Example.fresh) = Raise BuildError
  ∧ snd (install (H := Example.failing_ops) Example.posix (AStr "foo/bar")
           default_args Example.partial)
    = Ok "Package foo/bar already installed"
  ∧ trace (fst (install (H := Example.failing_ops) Example.posix (AStr "foo/bar")
                  default_args Example.partial))
    = trace Example.partial.
Proof.
  split; [vm_compute; reflexivity|].
  destruct (install_existing_entry (H := Example.failing_ops) Example.posix
              (AStr "foo/bar") default_args Example.partial
              (mk (Resolved {| Package.name := Some "foo/bar";
                               Package.url := Some "https://github.com/foo/bar/archive/HEAD.tar.gz";
                               Package.recipe := None |}))
              (Example.store ++ ["foo__bar"]))
    as (Hr & _ & Ht); [vm_compute; reflexivity ..|].
  split; [exact Hr|exact Ht].
Defined.

(** C10, on the code: the store holds the entry [zlib], a directory without
    the unlinked marker, and the recipe [zlib]; the package is the build
    [install_deps] passes for the requirement [zlib] of [app], and [update]
    is unset. [install] raises [AttributeError] where it is to return the
    "already installed" report: to record the edge,
    [write_parent] has the file name of the entry resolved as a token, the
    token names the recipe, and [parse_pkg_build] hands the name to
    [from_recipe] in the place of a build. The Builder is not called.
    Without the parent label the same call returns the report. *)
Theorem install_existing_entry_raises :
  let env := Example.posix in
  let w := Example.recipe_entry in
  let d := Example.store ++ ["zlib"] in
  let pb := Example.zlib_child in
  let r := install (H := Example.ops) env (ABuild pb) default_args w in
  parse_pkg_build (H := Example.ops) env (Some (ABuild pb)) None false (fs w)
  = Ok pb
  ∧ snd (get_package_directory (H := Example.ops) env (Some (ABuild pb)) w)
    = Ok d
  ∧ OS.isdir (fs w) d = true
  ∧ OS.exists_ (fs w) (d ++ ["unlink"]) = false
  ∧ a_update default_args = false
  ∧ snd r = Raise AttributeError
  ∧ trace (fst r) = []
  ∧ snd (write_parent (H := Example.ops) env pb true w) = Raise AttributeError
  ∧ parse_pkg_build (H := Example.ops) env
      (Some (AStr (to_fname (Ops := Example.ops) pb))) None false (fs w)
    = Raise AttributeError
  ∧ snd (install (H := Example.ops) env (ABuild (set_parent None pb))
           default_args w)
    = Ok "Package zlib already installed".
Proof. vm_compute. repeat split; reflexivity. Qed.

(** ** [ignore] *)

Section Ignore.

Context `{Ops} (env : Env).

Lemma join_marker d : Path.join d "ignore" = d ++ ["ignore"].
Proof. reflexivity. Qed.

(** Nothing sits below a path that is absent from a well-formed file
    system. *)
Lemma wf_child_absent f p c x :
  wf f → f !! (p ++ [c]) = None → f !! ((p ++ [c]) ++ [x]) = None.
Proof.
  intros Hwf Hnone. destruct (f !! ((p ++ [c]) ++ [x])) as [v|] eqn:Hx; [|done].
  destruct (wf_parent _ _ _ _ Hwf Hx) as [Hnil|Hd]; [now destruct p|congruence].
Qed.

Lemma mkfile_marker w p c :
  wf (fs w) →
  p = [] ∨ fs w !! p = Some Dir →
  fs w !! (p ++ [c]) = None →
  Util.mkfile (p ++ [c]) "ignore" "ignore" true w
  = (ignored (p ++ [c]) w, Ok ((p ++ [c]) ++ ["ignore"])).
Proof.
  intros Hwf Hp Hnone.
  pose proof (wf_child_absent _ _ _ "ignore" Hwf Hnone) as Hmark.
  unfold Util.mkfile, Util.mkdir. munfold.
  unfold OS.exists_ at 1. rewrite node_at_app, Hnone.
  rewrite (makedirs_child _ _ _ Hwf Hp Hnone). cbn [fs trace].
  rewrite join_marker. unfold OS.exists_. rewrite node_at_app.
  rewrite lookup_insert_ne by (symmetry; apply app_cons_ne).
  rewrite Hmark. cbn [negb orb].
  unfold OS.write_file, OS.isdir. rewrite dirname_app, !node_at_app.
  cbn [fs trace].
  rewrite lookup_insert_eq, lookup_insert_ne by (symmetry; apply app_cons_ne).
  rewrite Hmark. reflexivity.
Qed.

Lemma ignored_isdir w p c :
  OS.isdir (fs (ignored (p ++ [c]) w)) (p ++ [c]) = true.
Proof.
  unfold OS.isdir, ignored. cbn [fs]. rewrite node_at_app.
  rewrite lookup_insert_ne by apply app_cons_ne.
  now rewrite lookup_insert_eq.
Qed.

Lemma ignored_not_unlinked w p c :
  wf (fs w) → fs w !! (p ++ [c]) = None →
  OS.isdir (fs (ignored (p ++ [c]) w)) ((p ++ [c]) ++ ["unlink"]) = false.
Proof.
  intros Hwf Hnone. unfold OS.isdir, ignored. cbn [fs]. rewrite node_at_app.
  rewrite lookup_insert_ne by (intros [_ [=]]%app_inj_tail).
  rewrite lookup_insert_ne by (symmetry; apply app_cons_ne).
  now rewrite (wf_child_absent _ _ _ "unlink" Hwf Hnone).
Qed.

End Ignore.

(** Where the specification resolves to a build: [ignore] reports "already
    installed" and leaves the store as it is when the entry exists; when
    there is none it creates the entry with its [ignore] marker and reports
    so. An [install] of the same specification after that, when recording
    the edge raises nothing, finds the entry and reports "already installed"
    without a call to the Builder. *)
Theorem ignore_then_install `{Ops} (env : Env) (spec : pkg_arg) (w : world)
        (pb : PackageBuild) (c : string) :
  parse_pkg_build env (Some spec) None false (fs w) = Ok pb →
  entry_path env pb = get_private_path env ++ [c] →
  let d := entry_path env pb in
  (OS.exists_ (fs w) d = true →
   ignore env spec w = (w, Ok (already_installed pb)))
  ∧ (wf (fs w) → fs w !! get_private_path env = Some Dir → fs w !! d = None →
     ignore env spec w = (ignored d w, Ok ("Ignore package " +:+ to_name pb))
     ∧ OS.isfile (fs (ignored d w)) (d ++ ["ignore"]) = true
     ∧ ∀ a : install_args,
         a_update a = false →
         parse_pkg_build env (Some spec) None false (fs (ignored d w)) = Ok pb →
         snd (get_package_directory env (Some (ABuild pb)) (ignored d w)) = Ok d →
         snd (write_parent env pb (a_track a) (ignored d w)) = Ok tt →
         snd (install env spec a (ignored d w)) = Ok (already_installed pb)
         ∧ trace (fst (install env spec a (ignored d w))) = trace w).
Proof.
  intros Hp Hd d. subst d. split.
  - intros Hex. unfold ignore. munfold. rewrite Hp. cbv beta iota.
    fold (entry_path env pb). now rewrite Hex.
  - intros Hwf Hpriv Hnone. rewrite Hd in *. split; [|split].
    + unfold ignore. munfold. rewrite Hp. cbv beta iota.
      fold (entry_path env pb). rewrite Hd.
      unfold OS.exists_ at 1. rewrite node_at_app, Hnone. cbn [negb].
      now rewrite (mkfile_marker w _ c Hwf (or_intror Hpriv) Hnone).
    + unfold OS.isfile, ignored. cbn [fs]. rewrite node_at_app.
      now rewrite lookup_insert_eq.
    + intros a Hupd Hp1 Hd1 Hw1.
      rewrite (install_existing env spec a _ pb _ Hp1 Hd1
                 (ignored_isdir w _ c) (ignored_not_unlinked w _ c Hwf Hnone)
                 Hupd Hw1).
      cbn [fst snd]. split; [done|]. now rewrite write_parent_trace.
Qed.

Lemma ignore_then_install_witness :
  ignore (H := Example.ops) Example.posix (AStr "mylib") Example.fresh
  = (ignored (Example.store ++ ["mylib"]) Example.fresh, Ok "Ignore package mylib")
  ∧ snd (install (H := Example.ops) Example.posix (AStr "mylib") default_args
           (ignored (Example.store ++ ["mylib"]) Example.fresh))
    = Ok "Package mylib already installed"
  ∧ trace (fst (install (H := Example.ops) Example.posix (AStr "mylib")
                  default_args
                  (ignored (Example.store ++ ["mylib"]) Example.fresh)))
    = [].
Proof.
  destruct (ignore_then_install (H := Example.ops) Example.posix (AStr "mylib")
              Example.fresh
              (mk (Resolved {| Package.name := Some "mylib";
                               Package.url := Some "https://github.com/mylib/mylib/archive/HEAD.tar.gz";
                               Package.recipe := None |}))
              "mylib")
    as [_ Hnew]; [vm_compute; reflexivity ..|].
  destruct Hnew as (Hi & _ & Hinst);
    [apply (bool_decide_unpack _); vm_compute; reflexivity
    |vm_compute; reflexivity ..|].
  split; [exact Hi|].
  apply (Hinst default_args); vm_compute; reflexivity.
Defined.

(** C4, on the code: the store holds the recipe [zlib] and no entry for it.
    [ignore] of the token [zlib] raises [AttributeError] and creates no
    marker, where it is to create the marker entry and report so:
    [parse_pkg_build] hands the name of the recipe to [from_recipe] in the
    place of a build. [ignore] of the build [install_deps] passes for the
    requirement [zlib] of [app] does create the marker, and the [install]
    of that build that follows raises [AttributeError] where it is to
    report "already installed": recording the edge resolves the file
    name of the entry as a token, which names the recipe. The Builder is
    not called. *)
Theorem ignore_recipe_raises :
  let env := Example.posix in
  let w := Example.recipe_store in
  let d := Example.store ++ ["zlib"] in
  let pb := Example.zlib_child in
  let w1 := fst (ignore (H := Example.ops) env (ABuild pb) w) in
  OS.exists_ (fs w) d = false
  ∧ snd (ignore (H := Example.ops) env (AStr "zlib") w) = Raise AttributeError
  ∧ OS.exists_ (fs (fst (ignore (H := Example.ops) env (AStr "zlib") w))) d
    = false
  ∧ snd (ignore (H := Example.ops) env (ABuild pb) w) = Ok "Ignore package zlib"
  ∧ OS.isfile (fs w1) (d ++ ["ignore"]) = true
  ∧ snd (install (H := Example.ops) env (ABuild pb) default_args w1)
    = Raise AttributeError
  ∧ trace (fst (install (H := Example.ops) env (ABuild pb) default_args w1))
    = [].
Proof. vm_compute. repeat split; reflexivity. Qed.

(** ** [install] twice *)

Section Reinstall.

Context `{Ops} (env : Env).

Lemma rmtree_under d q f : Path.under d q = true → OS.rmtree d f !! q = None.
Proof.
  intros Hu. unfold OS.rmtree. apply map_lookup_filter_None. right.
  intros v _. cbn. congruence.
Qed.

Lemma under_refl d : Path.under d d = true.
Proof. rewrite <- (app_nil_r d) at 2. apply under_app. Qed.

(** The path through [install] when the store has no entry: the build. *)
Lemma install_at_fresh n spec a w pb d :
  parse_pkg_build env (Some spec) None false (fs w) = Ok pb →
  snd (get_package_directory env (Some (ABuild pb)) w) = Ok d →
  OS.isdir (fs w) d = false →
  OS.isdir (fs w) (d ++ ["unlink"]) = false →
  install_at env (S n) spec a w
  = bind (create_builder env pb true (install_build env (install_at env n) pb a))
         (λ _, bind (write_parent env pb (a_track a))
                    (λ _, ret (successfully_installed pb))) w.
Proof.
  intros Hp Hd%get_package_directory_eq Hdir Hunl.
  cbn [install_at]. munfold. rewrite Hp. cbv beta iota.
  rewrite Hd. cbv beta iota. rewrite Hunl, Hdir. reflexivity.
Qed.

(** Off Windows, the directory the Builder worked in, which is the store
    entry, is gone when the [with] block of [install] is left normally. *)
Lemma create_builder_removes {A} pb (body : path → bool → M A) w w' x d :
  nt env = false →
  snd (get_package_directory env (Some (ABuild pb)) w) = Ok d →
  create_builder env pb true body w = (w', Ok x) →
  ∀ q, Path.under d q = true → fs w' !! q = None.
Proof.
  intros Hnt Hd%get_package_directory_eq Hc q Hq.
  unfold create_builder in Hc. munfold. rewrite Hd, Hnt in Hc.
  cbv beta iota in Hc.
  destruct (Util.mkdir d w) as [w1 [?|?]]; [|discriminate].
  destruct (body d _ w1) as [w2 [?|?]]; [|discriminate].
  injection Hc as <- _. cbn [fs]. now apply rmtree_under.
Qed.

(** After a first install that built a package with no parent label, off
    Windows, the entry does not exist, and a second install of the same
    specification does not report "already installed". *)
Lemma install_posix_forgets n m spec a w w1 s pb d :
  nt env = false →
  parent pb = None →
  parse_pkg_build env (Some spec) None false (fs w) = Ok pb →
  snd (get_package_directory env (Some (ABuild pb)) w) = Ok d →
  OS.isdir (fs w) d = false →
  OS.isdir (fs w) (d ++ ["unlink"]) = false →
  install_at env (S n) spec a w = (w1, Ok s) →
  s = successfully_installed pb
  ∧ fs w1 !! d = None
  ∧ (parse_pkg_build env (Some spec) None false (fs w1) = Ok pb →
     snd (get_package_directory env (Some (ABuild pb)) w1) = Ok d →
     snd (install_at env (S m) spec a w1) ≠ Ok (already_installed pb)).
Proof.
  intros Hnt Hpar Hp Hd Hdir Hunl Hi.
  rewrite (install_at_fresh n spec a w pb d) in Hi by assumption.
  unfold bind at 1 in Hi.
  destruct (create_builder env pb true _ w) as [w2 [[]|?]] eqn:Hc;
    [|discriminate].
  pose proof (create_builder_removes _ _ _ _ _ _ Hnt Hd Hc) as Hgone.
  unfold write_parent in Hi. rewrite Hpar in Hi. munfold.
  injection Hi as <- <-. split; [done|]. split; [apply Hgone, under_refl|].
  intros Hp1 Hd1.
  assert (d ≠ []) as Hne by (intros ->; discriminate).
  assert (∀ q, Path.under d q = true → q ≠ [] → OS.isdir (fs w2) q = false)
    as Hno.
  { intros q Hq Hq0. unfold OS.isdir, OS.node_at.
    destruct q; [done|]. now rewrite Hgone. }
  assert (OS.isdir (fs w2) d = false) as Hdir2
    by (apply Hno; [apply under_refl|done]).
  assert (OS.isdir (fs w2) (d ++ ["unlink"]) = false) as Hunl2
    by (apply Hno; [apply under_app|now destruct d]).
  rewrite (install_at_fresh m spec a w2 pb d Hp1 Hd1 Hdir2 Hunl2).
  unfold bind at 1.
  destruct (create_builder env pb true _ w2) as [w3 [[]|?]]; [|done].
  unfold write_parent. rewrite Hpar. cbn.
  intros [=].
Qed.

End Reinstall.

(** C1, on the code: on a host that is not Windows the second [install] of
    [foo/bar] on a fresh store runs the whole Builder sequence again and
    reports "Successfully installed", because the first one removed the
    store entry when it left [create_builder]. *)
Theorem install_twice_builds_twice :
  let run := install (H := Example.ops) Example.posix (AStr "foo/bar") default_args in
  let entry := Example.store ++ ["foo__bar"] in
  let sequence :=
    [BFetch (Some "https://github.com/foo/bar/archive/HEAD.tar.gz") None false false;
     BConfigure (entry ++ ["src"]) ∅ None Example.root false None;
     BBuild None None;
     BBuild None (Some "install")] in
  let w1 := fst (run Example.fresh) in
  let w2 := fst (run w1) in
  snd (run Example.fresh) = Ok "Successfully installed foo/bar"
  ∧ map ev_call (trace w1) = sequence
  ∧ OS.exists_ (fs w1) entry = false
  ∧ snd (run w1) = Ok "Successfully installed foo/bar"
  ∧ map ev_call (trace w2) = sequence ++ sequence.
Proof. vm_compute. repeat split; reflexivity. Qed.

(** ** Listing a directory *)

Lemma strip_Some p : ∀ k r, Path.strip p k = Some r → k = p ++ r.
Proof.
  induction p as [|a p IH]; intros k r Hs; cbn in Hs.
  - now injection Hs as ->.
  - destruct k as [|b k]; [discriminate|].
    destruct (decide (a = b)) as [->|]; [|discriminate].
    now rewrite (IH _ _ Hs).
Qed.

Lemma child_of_Some p k n : Path.child_of p k = Some n ↔ k = p ++ [n].
Proof.
  unfold Path.child_of. split.
  - destruct (Path.strip p k) as [[|x [|y r]]|] eqn:Hs; try discriminate.
    intros [= ->]. now apply strip_Some.
  - intros ->. now rewrite strip_app.
Qed.

Lemma elem_of_listdir (f : FS) p n :
  n ∈ OS.listdir f p ↔ is_Some (f !! (p ++ [n])).
Proof.
  unfold OS.listdir. rewrite list_elem_of_omap. split.
  - intros ([k v] & Hin%elem_of_map_to_list & Hc). cbn in Hc.
    apply child_of_Some in Hc as ->. eauto.
  - intros [v Hv]. exists (p ++ [n], v). split.
    + now apply elem_of_map_to_list.
    + now apply child_of_Some.
Qed.

Lemma NoDup_omap_inj {A B} (g : A → option B) (l : list A) :
  NoDup l →
  (∀ x y b, x ∈ l → y ∈ l → g x = Some b → g y = Some b → x = y) →
  NoDup (omap g l).
Proof.
  induction 1 as [|x l Hx Hl IH]; intros Hinj; [constructor|].
  cbn. destruct (g x) as [b|] eqn:Hg.
  - constructor.
    + rewrite list_elem_of_omap. intros (y & Hy & Hgy).
      assert (x = y) as -> by (eapply Hinj; eauto; set_solver).
      done.
    + apply IH. intros ???????. eapply Hinj; eauto; set_solver.
  - apply IH. intros ???????. eapply Hinj; eauto; set_solver.
Qed.

(** A directory lists each of its children once. *)
Lemma NoDup_listdir (f : FS) p : NoDup (OS.listdir f p).
Proof.
  unfold OS.listdir. apply NoDup_omap_inj; [apply NoDup_map_to_list|].
  intros [k1 v1] [k2 v2] n H1%elem_of_map_to_list H2%elem_of_map_to_list
         Hc1 Hc2.
  cbn in Hc1, Hc2. apply child_of_Some in Hc1 as ->, Hc2 as ->. congruence.
Qed.

Lemma elem_of_ls f p pred n :
  n ∈ Util.ls f p pred
  ↔ OS.exists_ f p = true ∧ is_Some (f !! (p ++ [n])) ∧ pred f (p ++ [n]) = true.
Proof.
  unfold Util.ls. destruct (OS.exists_ f p).
  - rewrite list_elem_of_filter, elem_of_listdir. tauto.
  - rewrite elem_of_nil. split; [done|]. now intros [? _].
Qed.

Lemma NoDup_ls f p pred : NoDup (Util.ls f p pred).
Proof.
  unfold Util.ls. destruct (OS.exists_ f p); [|constructor].
  apply NoDup_filter, NoDup_listdir.
Qed.

(** ** Recording an edge *)

Lemma node_at_insert_ne (f : FS) k v q :
  k ≠ q → OS.node_at (<[k := v]> f) q = OS.node_at f q.
Proof. intros Hne. destruct q; [done|]. cbn. now rewrite lookup_insert_ne. Qed.

Lemma isdir_exists f p : OS.isdir f p = true → OS.exists_ f p = true.
Proof.
  unfold OS.isdir, OS.exists_.
  destruct (OS.node_at f p) as [[| |t]|]; try done.
  now destruct (OS.node_at f t) as [[| |]|].
Qed.

(** Writing a file where no directory is keeps the directories. *)
Lemma isdir_insert_file f k c d :
  OS.isdir f d = true → OS.isdir f k = false →
  OS.isdir (<[k := File c]> f) d = true.
Proof.
  intros Hd Hk. unfold OS.isdir in *.
  assert (k ≠ d) as Hne by (intros ->; congruence).
  rewrite (node_at_insert_ne _ _ _ _ Hne).
  destruct (OS.node_at f d) as [[| |t]|]; try done.
  assert (k ≠ t) as Hnt.
  { intros ->. destruct (OS.node_at f t) as [[| |]|]; congruence. }
  now rewrite (node_at_insert_ne _ _ _ _ Hnt).
Qed.

Lemma mkdir_spec d w wm x :
  Util.mkdir d w = (wm, Ok x) →
  trace wm = trace w ∧ fs w ⊆ fs wm
  ∧ ∀ q, fs wm !! q = fs w !! q
         ∨ (fs wm !! q = Some Dir ∧ ∃ r1 r2, r1 ≠ [] ∧ d = r1 ++ r2 ∧ q = r1).
Proof.
  unfold Util.mkdir. destruct (OS.exists_ (fs w) d).
  - intros [= <- _]. split; [done|]. split; [done|auto].
  - unfold OS.makedirs. destruct (OS.exists_ (fs w) d); [discriminate|].
    destruct (OS.makedirs_from [] d (fs w)) as [f'|] eqn:Hm; [|discriminate].
    intros [= <- _]. cbn [fs trace].
    apply makedirs_from_spec in Hm as (Hsub & Hq & _).
    split; [done|]. split; [done|exact Hq].
Qed.

Section Edges.

Context `{Ops} (env : Env).

Variables (pb : PackageBuild) (p m : string) (d : path) (w : world).

Hypothesis has_parent : parent pb = Some p.
Hypothesis deps_dir :
  snd (get_deps_directory env (Some (AStr (to_fname pb))) w) = Ok d.
Hypothesis marker : Path.join d p = d ++ [m].
Hypothesis no_link : OS.islink (fs w) (d ++ [m]) = false.
Hypothesis recorded : snd (write_parent env pb true w) = Ok tt.

Lemma get_deps_directory_eq pkg w0 d0 :
  snd (get_deps_directory env pkg w0) = Ok d0 →
  get_deps_directory env pkg w0 = (w0, Ok d0).
Proof.
  unfold get_deps_directory. munfold.
  destruct (get_package_directory env pkg w0) as [w' [x|e]] eqn:Hd;
    apply get_package_directory_world in Hd as ->; cbn; congruence.
Qed.

(** The world after the edge is recorded: the directories on the way to the
    record directory, and the marker. *)
Lemma write_parent_spec :
  ∃ fm, fs w ⊆ fm
        ∧ OS.isdir fm d = true
        ∧ OS.isdir fm (d ++ [m]) = false
        ∧ fs (fst (write_parent env pb true w)) = <[d ++ [m] := File p]> fm.
Proof.
  pose proof recorded as Hrec. revert Hrec.
  unfold write_parent. rewrite has_parent. munfold.
  rewrite (get_deps_directory_eq _ _ _ deps_dir). cbv beta iota.
  unfold Util.mkfile. munfold. rewrite marker.
  destruct (Util.mkdir d w) as [wm [x|e]] eqn:Hm; [|discriminate].
  apply mkdir_spec in Hm as (Htr & Hsub & Hq).
  rewrite orb_true_r. unfold OS.write_file. rewrite dirname_app.
  destruct (OS.isdir (fs wm) d) eqn:Hd; [|discriminate].
  destruct (OS.isdir (fs wm) (d ++ [m])) eqn:Hdm; [discriminate|].
  cbn [andb negb fst snd fs]. intros _. exists (fs wm).
  split; [done|]. split; [done|]. split; [done|].
  assert (fs wm !! (d ++ [m]) = fs w !! (d ++ [m])) as Hsame.
  { destruct (Hq (d ++ [m])) as [?|(_ & r1 & r2 & _ & Hd1 & Hd2)]; [done|].
    exfalso. apply (f_equal length) in Hd1.
    rewrite <- Hd2, !length_app in Hd1. cbn in Hd1. lia. }
  pose proof no_link as Hl. unfold OS.islink in Hl.
  rewrite node_at_app in Hl |- *. rewrite Hsame.
  now destruct (fs w !! (d ++ [m])) as [[| |]|].
Qed.

End Edges.

(** Where the file name of the child resolves to a record directory [d]
    and the write succeeds, recording an edge a second time changes nothing:
    the marker of the edge is in [d], which lists each marker once;
    recording leaves every other path as it was, and every marker that was
    listed stays listed. *)
Theorem record_edge_idempotent `{Ops} (env : Env) (pb : PackageBuild)
        (p m : string) (d : path) (w : world) :
  parent pb = Some p →
  snd (get_deps_directory env (Some (AStr (to_fname pb))) w) = Ok d →
  Path.join d p = d ++ [m] →
  OS.islink (fs w) (d ++ [m]) = false →
  snd (write_parent env pb true w) = Ok tt →
  let w1 := fst (write_parent env pb true w) in
  snd (get_deps_directory env (Some (AStr (to_fname pb))) w1) = Ok d →
  write_parent env pb true w1 = (w1, Ok tt)
  ∧ fs w1 !! (d ++ [m]) = Some (File p)
  ∧ (m ∈ Util.ls (fs w1) d OS.isfile ∧ NoDup (Util.ls (fs w1) d OS.isfile))
  ∧ (∀ q v, q ≠ d ++ [m] → fs w !! q = Some v → fs w1 !! q = Some v)
  ∧ (∀ n, n ∈ Util.ls (fs w) d OS.isfile → n ∈ Util.ls (fs w1) d OS.isfile).
Proof.
  intros Hpar Hd Hmark Hlink Hrec w1 Hd1.
  destruct (write_parent_spec env pb p m d w Hpar Hd Hmark Hlink Hrec)
    as (fm & Hsub & Hdir & Hnodir & Hfs).
  fold w1 in Hfs.
  assert (fs w1 !! (d ++ [m]) = Some (File p)) as Hm
    by (rewrite Hfs; apply lookup_insert_eq).
  assert (OS.isdir (fs w1) d = true) as Hdir1
    by (rewrite Hfs; now apply isdir_insert_file).
  assert (∀ q v, q ≠ d ++ [m] → fs w !! q = Some v → fs w1 !! q = Some v)
    as Hkeep.
  { intros q v Hne Hq. rewrite Hfs, lookup_insert_ne by done.
    apply (lookup_weaken _ _ _ _ Hq Hsub). }
  assert (OS.isfile (fs w1) (d ++ [m]) = true) as Hfile
    by (unfold OS.isfile; now rewrite node_at_app, Hm).
  split; [|split; [done|split; [|split; [done|]]]].
  - unfold write_parent. rewrite Hpar. munfold.
    rewrite (get_deps_directory_eq env _ _ _ Hd1). cbv beta iota.
    unfold Util.mkfile, Util.mkdir. munfold.
    rewrite (isdir_exists _ _ Hdir1), Hmark, orb_true_r.
    unfold OS.write_file. rewrite dirname_app, Hdir1.
    unfold OS.isdir at 1. rewrite !node_at_app, Hm. cbn [andb negb].
    rewrite insert_id by done. now destruct w1.
  - split; [|apply NoDup_ls].
    apply elem_of_ls. split; [now apply isdir_exists|]. split; [eauto|done].
  - intros n (Hex & [v Hv] & Hf)%elem_of_ls. apply elem_of_ls.
    split; [now apply isdir_exists|].
    destruct (decide (n = m)) as [->|Hne]; [split; [eauto|done]|].
    assert (d ++ [n] ≠ d ++ [m]) as Hne' by (intros [_ [=]]%app_inj_tail; done).
    split; [rewrite (Hkeep _ _ Hne' Hv); eauto|].
    unfold OS.isfile in *. rewrite node_at_app in *.
    rewrite Hv in Hf. rewrite (Hkeep _ _ Hne' Hv).
    destruct v as [| |t]; [done|done|].
    destruct t as [|t0 t]; [done|]. cbn [OS.node_at] in *.
    destruct (decide (t0 :: t = d ++ [m])) as [->|Hnt]; [now rewrite Hm|].
    destruct (fs w !! (t0 :: t)) as [v'|] eqn:Ht; [|done].
    now rewrite (Hkeep _ _ Hnt Ht).
Qed.

Lemma record_edge_idempotent_witness :
  let pb := set_parent (Some "tool")
              (mk (Resolved {| Package.name := Some "zlib";
                               Package.url := None;
                               Package.recipe := None |})) in
  let w1 := fst (write_parent (H := Example.ops) Example.posix pb true
                   (Example.linked true)) in
  write_parent (H := Example.ops) Example.posix pb true w1 = (w1, Ok tt)
  ∧ fs w1 !! (Example.store ++ ["zlib"; ".depend"; "tool"]) = Some (File "tool").
Proof.
  intros pb w1.
  destruct (record_edge_idempotent (H := Example.ops) Example.posix pb "tool"
              "tool" (Example.store ++ ["zlib"; ".depend"]) (Example.linked true))
    as (Hidem & Hm & _); [vm_compute; reflexivity ..|].
  split; [exact Hidem|exact Hm].
Defined.

(** C8, on the code: the child is [zlib], whose store entry is
    [cget/zlib], and the parent is [app]. [write_parent] does not take the
    record directory from the entry of the child: it has the file name of
    the child resolved as a token. With a recipe [zlib] in the store the
    token names the recipe, recording raises [AttributeError] each time and
    no marker is written. With a directory [zlib] in the working directory
    the token names that directory, and the marker is written under the
    entry of another identity. In both cases recording the edge twice
    leaves no marker in the record directory of the child, where there is
    to be exactly one. *)
Theorem record_edge_misses_child :
  let env := Example.posix in
  let pb := Example.zlib_child in
  let record w := write_parent (H := Example.ops) env pb true w in
  let twice w := fst (record (fst (record w))) in
  let records := Example.store ++ ["zlib"; ".depend"] in
  entry_path (H := Example.ops) env pb = Example.store ++ ["zlib"]
  ∧ parent pb = Some "app"
  ∧ snd (record Example.recipe_entry) = Raise AttributeError
  ∧ snd (record (fst (record Example.recipe_entry))) = Raise AttributeError
  ∧ Util.ls (fs (twice Example.recipe_entry)) records OS.isfile = []
  ∧ snd (record Example.local_dir) = Ok tt
  ∧ snd (record (fst (record Example.local_dir))) = Ok tt
  ∧ Util.ls (fs (twice Example.local_dir)) records OS.isfile = []
  ∧ fs (twice Example.local_dir)
      !! (Example.store ++ ["_url_file:______home__user__zlib"; ".depend"; "app"])
    = Some (File "app").
Proof. vm_compute. repeat split; reflexivity. Qed.

(** ** The dependencies of an install *)

Section Dependencies.

Context `{Ops} (env : Env).

(** What every run of the body preserves, the loop preserves. *)
Lemma for_gen_invariant (I : world → Prop) body :
  (∀ dep w, I w → I (fst (body dep w))) →
  ∀ k g w, I w → I (fst (for_gen env k g body w)).
Proof.
  intros Hbody. induction k as [|k IH]; intros g w Hw; [done|].
  cbn [for_gen]. munfold.
  destruct (gen_next _ _ _ g (fs w)) as [[[dep g']|]|e]; [|done|done].
  specialize (Hbody dep w Hw).
  destruct (body dep w) as [w' [[]|e]]; [|done]. now apply IH.
Qed.

Lemma write_parent_untracked pb w : write_parent env pb false w = (w, Ok tt).
Proof. unfold write_parent. now destruct (parent pb). Qed.

End Dependencies.

(** A safety statement: every call [install_deps] makes to [install] is for
    a dependency labelled with its parent, with [track] unset exactly when
    the dependency is test-only or build-only: whatever such calls preserve,
    [install_deps] preserves. With [track] unset [write_parent] writes
    nothing; with [track] set and the write succeeding, the marker named
    after the parent is in the record directory the file name of the
    dependency resolves to. *)
Theorem install_deps_track `{Ops} (env : Env)
        (inst : pkg_arg → install_args → M string) (pb : PackageBuild)
        (d : path) (test test_all : bool) (generator : option string)
        (insecure ignore_requirements : bool) (I : world → Prop) :
  (∀ arg a w, track_ok pb arg a = true → I w → I (fst (inst arg a w))) →
  (∀ w, I w →
        I (fst (install_deps env inst pb d test test_all generator insecure
                  ignore_requirements w)))
  ∧ (∀ dep w, write_parent env dep false w = (w, Ok tt))
  ∧ (∀ dep p m dir w,
       parent dep = Some p →
       snd (get_deps_directory env (Some (AStr (to_fname dep))) w) = Ok dir →
       Path.join dir p = dir ++ [m] →
       OS.islink (fs w) (dir ++ [m]) = false →
       snd (write_parent env dep true w) = Ok tt →
       fs (fst (write_parent env dep true w)) !! (dir ++ [m]) = Some (File p)).
Proof.
  intros Hinst. split; [|split].
  - intros w Hw. unfold install_deps. apply for_gen_invariant; [|done].
    intros dep w0 Hw0.
    destruct (negb (Package.test dep)
              || Bool.eqb (Package.test dep) (test || test_all)); [|done].
    munfold.
    match goal with
    | |- context [inst ?arg ?a w0] =>
        pose proof (Hinst arg a w0) as Hcall;
        destruct (inst arg a w0) as [w1 [s|e]]
    end; cbn [fst] in *; apply Hcall; try done;
      unfold track_ok, of_; cbn;
      rewrite bool_decide_eq_true_2 by done;
      now rewrite eqb_reflx.
  - apply write_parent_untracked.
  - intros dep p m dir w Hpar Hdir Hmark Hlink Hrec.
    destruct (write_parent_spec env dep p m dir w Hpar Hdir Hmark Hlink Hrec)
      as (fm & _ & _ & _ & ->).
    apply lookup_insert_eq.
Qed.

(** With the requirements of [app], every call is as described, and the real
    install records the edge for [zlib] and none for the build-only
    [tool]. *)
Lemma install_deps_track_witness :
  trace (fst (install_deps (H := Example.ops) Example.posix
                (Example.checked (H := Example.ops) Example.app) Example.app
                (Example.home ++ ["app"]) false false None false false
                Example.with_requirements)) = []
  ∧ (let w1 := fst (install (H := Example.ops) Example.posix
                      (ABuild Example.app) default_args
                      Example.with_requirements) in
     fs w1 !! (Example.store ++ ["zlib"; ".depend"; "app"]) = Some (File "app")
     ∧ fs w1 !! (Example.store ++ ["tool"; ".depend"; "app"]) = None
     ∧ length (trace w1) = 12%nat).
Proof.
  split; [|vm_compute; repeat split; reflexivity].
  apply (install_deps_track (H := Example.ops) Example.posix
           (Example.checked (H := Example.ops) Example.app) Example.app (Example.home ++ ["app"])
           false false None false false (λ w, trace w = [])); [|reflexivity].
  intros arg a w Hok Hw. unfold Example.checked. now rewrite Hok.
Defined.

(** C6, on the code: [app] requires [zlib], and the store holds the recipe
    [zlib]. The requirement resolves, through the recipe, to a dependency
    that is neither test-only nor build-only, and [install_deps] has it
    installed with [track] set: the Builder fetches, configures, builds and
    installs it. Recording the edge then raises [AttributeError], which
    [install_deps] passes on, and no marker is written, where the edge is
    to be recorded: [write_parent] has the file name of the dependency
    resolved as a token, the token names the recipe, and [parse_pkg_build]
    hands the name to [from_recipe] in the place of a build. Without the
    recipe the edge is recorded. *)
Theorem install_deps_recipe_no_edge :
  let env := Example.posix in
  let w := Example.recipe_requirements in
  let deps w := install_deps (H := Example.ops) env
                  (install (H := Example.ops) env) Example.app
                  (Example.home ++ ["app"]) false false None false false w in
  let edge := Example.store ++ ["zlib"; ".depend"; "app"] in
  match gen_next (H := Example.ops) (parse_pkg_build (H := Example.ops) env)
          false (limit env)
          (from_file (Some (Example.home ++ ["app"; "requirements.txt"]))
             (Some "https://example.org/app.tar.gz")) (fs w) with
  | Ok (Some (dep, _)) =>
      Package.test dep = false ∧ Package.build dep = false
      ∧ to_fname (Ops := Example.ops) dep = "zlib"
  | _ => False
  end
  ∧ snd (deps w) = Raise AttributeError
  ∧ map ev_call (trace (fst (deps w)))
    = [BFetch (Some "https://zlib.net/zlib-1.3.tar.gz") None false false;
       BConfigure (Example.store ++ ["zlib"; "src"]) ∅ None Example.root
         false None;
       BBuild None None;
       BBuild None (Some "install")]
  ∧ fs (fst (deps w)) !! edge = None
  ∧ Util.ls (fs (fst (deps w))) (Example.store ++ ["zlib"; ".depend"])
      OS.isfile = []
  ∧ snd (deps Example.with_requirements) = Ok tt
  ∧ fs (fst (deps Example.with_requirements)) !! edge = Some (File "app").
Proof. vm_compute. repeat split; reflexivity. Qed.

(** ** Recipes *)

(** C7 as stated fails when the caller's build carries no name: the build
    the recipe expands to has no name either, where the recipe's own build
    is named [zlib]. *)
Lemma recipe_name_counterexample :
  let expand pkg :=
    from_recipe (H := Example.ops) 8
      (parse_pkg_build (H := Example.ops) Example.posix)
      Example.zlib_recipe pkg None Example.with_recipe in
  let name_of (r : res PackageBuild) : res (option string) :=
    match r with
    | Ok pb => match pkg_src pb with
               | Resolved ps => Ok (Package.name ps)
               | Raw _ => Raise AttributeError
               end
    | Raise e => Raise e
    end in
  name_of (expand None) = Ok (Some "zlib")
  ∧ name_of (expand (Some (inr (Example.recipe_build None)))) = Ok None
  ∧ name_of (parse_pkg_build (H := Example.ops) Example.posix
               (Some (ABuild (Example.recipe_build None))) None false
               Example.with_recipe) = Ok None.
Proof. vm_compute. repeat split; reflexivity. Qed.

(** C7, amended. Expanding a recipe for a caller's build whose source is
    resolved fails with a configuration error when [package.txt] is absent.
    When it is there and its first directive resolves to a build [p], the
    result has the source of [p] with the recipe pointer cleared and the
    name of the caller's source, set or not; its requirements are the
    caller's, else the [requirements.txt] next to [package.txt] when there
    is one, else those of [p]; every other option is that of [p] overridden
    by the caller's. *)
Theorem from_recipe_merges `{Ops} (k : nat)
        (rec : option pkg_arg → option path → bool → FS → res PackageBuild)
        (recipe : path) (caller : PackageBuild) (cs : PackageSource) (f : FS) :
  pkg_src caller = Resolved cs →
  let package_txt := Path.join recipe "package.txt" in
  let requirements_txt := Path.join recipe "requirements.txt" in
  (OS.exists_ f package_txt = false →
   from_recipe k rec recipe (Some (inr caller)) None f = Raise ConfigurationError)
  ∧ (∀ p g ps,
       OS.exists_ f package_txt = true →
       gen_next rec true k (from_file (Some package_txt) None) f = Ok (Some (p, g)) →
       pkg_src p = Resolved ps →
       ∃ r, from_recipe k rec recipe (Some (inr caller)) None f = Ok r
            ∧ pkg_src r = Resolved {| Package.name := Package.name cs;
                                      Package.url := Package.url ps;
                                      Package.recipe := None |}
            ∧ requirements r
              = or_else (requirements caller)
                  (if OS.exists_ f requirements_txt
                   then Some (Path.to_string requirements_txt)
                   else requirements p)
            ∧ define r = define caller ∪ define p
            ∧ cmake r = or_else (cmake caller) (cmake p)
            ∧ hash r = or_else (hash caller) (hash p)
            ∧ variant r = or_else (variant caller) (variant p)
            ∧ Package.test r = Package.test caller || Package.test p
            ∧ Package.build r = Package.build caller || Package.build p
            ∧ ignore_requirements r
              = ignore_requirements caller || ignore_requirements p).
Proof.
  intros Hcs package_txt requirements_txt. split.
  - intros Hex. unfold from_recipe, Util.ensure_exists.
    fold package_txt. now rewrite Hex.
  - intros p g ps Hex Hgen Hps. unfold from_recipe, Util.ensure_exists.
    fold package_txt requirements_txt. rewrite Hex, Hgen, Hcs.
    destruct (OS.exists_ f requirements_txt); cbn; rewrite Hps;
      eexists; (split; [reflexivity|]); cbn; repeat split; reflexivity.
Qed.

Lemma from_recipe_merges_witness :
  ∃ r, from_recipe (H := Example.ops) 8
         (parse_pkg_build (H := Example.ops) Example.posix)
         Example.zlib_recipe (Some (inr (Example.recipe_build (Some "z")))) None
         Example.with_recipe = Ok r
       ∧ pkg_src r
         = Resolved {| Package.name := Some "z";
                       Package.url := Some "https://zlib.net/zlib-1.3.tar.gz";
                       Package.recipe := None |}
       ∧ requirements r
         = Some "/home/user/cget/etc/cget/recipes/zlib/requirements.txt"
       ∧ cmake r = Some "/home/user/zlib.cmake".
Proof.
  destruct (from_recipe_merges (H := Example.ops) 8
              (parse_pkg_build (H := Example.ops) Example.posix)
              Example.zlib_recipe (Example.recipe_build (Some "z"))
              {| Package.name := Some "z"; Package.url := None;
                 Package.recipe := Some Example.zlib_recipe |}
              Example.with_recipe eq_refl) as [_ Hyes].
  destruct (Hyes (mk (Resolved {| Package.name := Some "zlib";
                                  Package.url := Some "https://zlib.net/zlib-1.3.tar.gz";
                                  Package.recipe := None |}))
                 [FLines [] Example.zlib_recipe]
                 {| Package.name := Some "zlib";
                    Package.url := Some "https://zlib.net/zlib-1.3.tar.gz";
                    Package.recipe := None |})
    as (r & Hr & Hsrc & Hreq & _ & Hcmake & _); [vm_compute; reflexivity ..|].
  exists r. split; [exact Hr|]. split; [exact Hsrc|].
  split; [rewrite Hreq; vm_compute; reflexivity
         |rewrite Hcmake; vm_compute; reflexivity].
Defined.

(** * Further properties *)

(** ** Searching and slicing strings *)

Module FindFacts.

Import PyStr.

Lemma find_from_index sub s : ∀ k,
  find_from sub s k
  = match first_index sub s with Some i => k + Z.of_nat i | None => -1 end.
Proof.
  induction s as [|a s IH]; intros k; cbn [find_from first_index].
  - destruct (String.prefix sub EmptyString); [lia|reflexivity].
  - destruct (String.prefix sub (String a s)); [lia|].
    rewrite IH. destruct (first_index sub s); cbn; lia.
Qed.

Lemma find_index s sub :
  find s sub
  = match first_index sub s with Some i => Z.of_nat i | None => -1 end.
Proof.
  unfold find. rewrite find_from_index. now destruct (first_index sub s).
Qed.

Lemma prefix_app t b : String.prefix t (t +:+ b) = true.
Proof.
  induction t as [|x t IH]; [now destruct b|].
  change (String x t +:+ b) with (String x (t +:+ b)). cbn.
  now destruct (ascii_dec x x).
Qed.

Lemma prefix_head_ne c t x s : x ≠ c → String.prefix (String c t) (String x s) = false.
Proof. intros Hne. cbn. now destruct (ascii_dec c x) as [->|]. Qed.

(** The first occurrence of a text that starts with [c], after a text
    without [c]. *)
Lemma first_index_app c t a b :
  has_char c a = false →
  first_index (String c t) (a +:+ String c t +:+ b) = Some (String.length a).
Proof.
  induction a as [|x a IH]; cbn [has_char].
  - intros _. change (EmptyString +:+ String c t +:+ b) with (String c t +:+ b).
    destruct (String c t +:+ b) eqn:Heq; [discriminate|].
    cbn [first_index]. rewrite <- Heq. now rewrite prefix_app.
  - intros [Hx Ha]%orb_false_iff.
    change (String x a +:+ String c t +:+ b)
      with (String x (a +:+ String c t +:+ b)).
    cbn [first_index String.length].
    rewrite prefix_head_ne by (intros ->; now rewrite Ascii.eqb_refl in Hx).
    now rewrite (IH Ha).
Qed.

Lemma first_index_no_char c t s :
  has_char c s = false → first_index (String c t) s = None.
Proof.
  induction s as [|x s IH]; cbn [has_char first_index].
  - reflexivity.
  - intros [Hx Hs]%orb_false_iff.
    rewrite prefix_head_ne by (intros ->; now rewrite Ascii.eqb_refl in Hx).
    now rewrite (IH Hs).
Qed.

(** A text whose second character does not occur is not found. *)
Lemma first_index_no_second c1 c2 t s :
  has_char c2 s = false → first_index (String c1 (String c2 t)) s = None.
Proof.
  induction s as [|x s IH]; cbn [has_char first_index]; [reflexivity|].
  intros [Hx Hs]%orb_false_iff. rewrite (IH Hs).
  assert (String.prefix (String c1 (String c2 t)) (String x s) = false) as ->;
    [|reflexivity].
  cbn. destruct (ascii_dec c1 x); [|reflexivity].
  destruct s as [|y s]; [reflexivity|].
  cbn in Hs. apply orb_false_iff in Hs as [Hy _].
  apply prefix_head_ne. intros ->. now rewrite Ascii.eqb_refl in Hy.
Qed.

Lemma length_append a b :
  String.length (a +:+ b) = (String.length a + String.length b)%nat.
Proof.
  induction a as [|x a IH]; [reflexivity|].
  change (String x a +:+ b) with (String x (a +:+ b)). cbn. now rewrite IH.
Qed.

Lemma substring_all s : String.substring 0 (String.length s) s = s.
Proof. induction s as [|x s IH]; [reflexivity|]. cbn. now rewrite IH. Qed.

Lemma substring_take a b : String.substring 0 (String.length a) (a +:+ b) = a.
Proof.
  induction a as [|x a IH]; [now destruct b|].
  change (String x a +:+ b) with (String x (a +:+ b)). cbn. now rewrite IH.
Qed.

Lemma substring_drop a b :
  String.substring (String.length a) (String.length b) (a +:+ b) = b.
Proof.
  induction a as [|x a IH]; [apply substring_all|].
  change (String x a +:+ b) with (String x (a +:+ b)). cbn. exact IH.
Qed.

(** [s[0:n]] and [s[n:]] of [s = a + b], [n] being the length of [a]. *)
Lemma slice_to_app a b :
  slice_to (a +:+ b) (Z.of_nat (String.length a)) = a.
Proof.
  unfold slice_to. rewrite length_append.
  destruct (Z.ltb_spec (Z.of_nat (String.length a)) 0) as [?|_]; [lia|].
  rewrite Z.min_l by lia. rewrite Nat2Z.id. apply substring_take.
Qed.

Lemma slice_from_app a b :
  slice_from (a +:+ b) (Z.of_nat (String.length a)) = b.
Proof.
  unfold slice_from. rewrite length_append, Nat2Z.id.
  replace (String.length a + String.length b - String.length a)%nat
    with (String.length b) by lia.
  apply substring_drop.
Qed.

Lemma slice_from_sep a c b :
  slice_from (a +:+ String c b) (Z.of_nat (String.length a) + 1) = b.
Proof.
  replace (a +:+ String c b) with ((a +:+ String c EmptyString) +:+ b)
    by (now rewrite PyStrFacts.append_assoc).
  replace (Z.of_nat (String.length a) + 1)
    with (Z.of_nat (String.length (a +:+ String c EmptyString)))
    by (rewrite length_append; cbn; lia).
  apply slice_from_app.
Qed.

End FindFacts.

(** ** Aliases *)

Section Alias.

Import PyStr FindFacts.

Lemma first_index_skip c t a r :
  has_char c a = false →
  first_index (String c t) (a +:+ r)
  = (λ i, (String.length a + i)%nat) <$> first_index (String c t) r.
Proof.
  induction a as [|x a IH]; cbn [has_char].
  - intros _. change (EmptyString +:+ r) with r.
    now destruct (first_index (String c t) r).
  - intros [Hx Ha]%orb_false_iff.
    change (String x a +:+ r) with (String x (a +:+ r)).
    cbn [first_index String.length].
    rewrite prefix_head_ne by (intros ->; now rewrite Ascii.eqb_refl in Hx).
    rewrite (IH Ha). now destruct (first_index (String c t) r).
Qed.

(** The first [c] of a text, seen through a slice that reaches past it. *)
Lemma first_index_slice c a b : ∀ m,
  has_char c a = false → (String.length a < m)%nat →
  first_index (String c EmptyString) (String.substring 0 m (a +:+ String c b))
  = Some (String.length a).
Proof.
  induction a as [|x a IH]; intros m; cbn [has_char String.length].
  - intros _ Hm. destruct m as [|m]; [lia|].
    change (EmptyString +:+ String c b) with (String c b).
    cbn [String.substring first_index]. rewrite PyStrFacts.prefix_char.
    now rewrite Ascii.eqb_refl.
  - intros [Hx Ha]%orb_false_iff Hm. destruct m as [|m]; [lia|].
    change (String x a +:+ String c b) with (String x (a +:+ String c b)).
    cbn [String.substring first_index]. rewrite PyStrFacts.prefix_char, Hx.
    rewrite (IH m Ha) by lia. reflexivity.
Qed.

Lemma find_upto_past c a b e :
  has_char c a = false → Z.of_nat (String.length a) < e →
  find_upto (a +:+ String c b) (String c EmptyString) e
  = Z.of_nat (String.length a).
Proof.
  intros Ha He. unfold find_upto, slice_to.
  destruct (Z.ltb_spec e 0) as [?|_]; [lia|].
  rewrite find_index, first_index_slice; [reflexivity|exact Ha|].
  rewrite length_append. cbn [String.length]. lia.
Qed.

Lemma has_char_substring c s : ∀ n m,
  has_char c s = false → has_char c (String.substring n m s) = false.
Proof.
  induction s as [|x s IH]; intros n m Hs.
  - now destruct n, m.
  - cbn [has_char] in Hs. apply orb_false_iff in Hs as [Hx Hs].
    destruct n as [|n]; [destruct m as [|m]|]; cbn [String.substring has_char].
    + reflexivity.
    + now rewrite Hx, (IH 0%nat m Hs).
    + now apply IH.
Qed.

Lemma find_upto_no_char c s e :
  has_char c s = false → find_upto s (String c EmptyString) e = -1.
Proof.
  intros Hs. unfold find_upto, slice_to. rewrite find_index.
  now rewrite first_index_no_char by (now apply has_char_substring).
Qed.

Lemma find_no_char c t s : has_char c s = false → find s (String c t) = -1.
Proof. intros Hs. now rewrite find_index, first_index_no_char. Qed.

End Alias.

(** X1. A token [name,url] with a non-empty name without comma is split at
    its first comma, whatever the rest holds. *)
Theorem parse_alias_comma (name url : string) :
  name ≠ EmptyString →
  PyStr.has_char "," name = false →
  parse_alias (name +:+ "," +:+ url) = (Some name, url).
Proof.
  intros Hne Hc. unfold parse_alias.
  change ("," +:+ url) with (String "," EmptyString +:+ url).
  rewrite FindFacts.find_index, (FindFacts.first_index_app _ _ _ _ Hc).
  assert (0 < Z.of_nat (String.length name)) as Hpos
    by (destruct name; [done|cbn; lia]).
  apply Z.ltb_lt in Hpos as ->.
  change (String "," EmptyString +:+ url) with (String "," url).
  now rewrite FindFacts.slice_to_app, FindFacts.slice_from_sep.
Qed.

Lemma parse_alias_comma_witness :
  parse_alias ("zlib" +:+ "," +:+ "http://zlib.net/zlib-1.3.tar.gz,x")
  = (Some "zlib", "http://zlib.net/zlib-1.3.tar.gz,x").
Proof. apply parse_alias_comma; [discriminate|reflexivity]. Defined.

Section AliasForms.

Import PyStr FindFacts.

Lemma prefix_slashes_scheme scheme rest :
  has_char "/" scheme = false →
  String.prefix "//" (scheme +:+ "://" +:+ rest) = false.
Proof.
  destruct scheme as [|x scheme]; [reflexivity|]. cbn [has_char].
  intros [Hx _]%orb_false_iff.
  change (String x scheme +:+ "://" +:+ rest)
    with (String x (scheme +:+ "://" +:+ rest)).
  apply prefix_head_ne. intros ->. now rewrite Ascii.eqb_refl in Hx.
Qed.

Lemma prefix_second_ne c1 c2 t x y s :
  y ≠ c2 → String.prefix (String c1 (String c2 t)) (String x (String y s)) = false.
Proof.
  intros Hne. cbn. destruct (ascii_dec c1 x); [|reflexivity].
  now destruct (ascii_dec c2 y) as [->|].
Qed.

Lemma first_index_exists sub a b :
  ∃ j, first_index sub (a +:+ sub +:+ b) = Some j.
Proof.
  induction a as [|x a [j IH]].
  - exists O. change (EmptyString +:+ sub +:+ b) with (sub +:+ b).
    destruct (sub +:+ b) eqn:Heq; cbn [first_index]; rewrite <- Heq;
      now rewrite prefix_app.
  - change (String x a +:+ sub +:+ b) with (String x (a +:+ sub +:+ b)).
    cbn [first_index]. destruct (String.prefix sub _); [eauto|].
    rewrite IH. eauto.
Qed.

Lemma first_index_char_split c s : ∀ i,
  first_index (String c EmptyString) s = Some i →
  ∃ a b, s = a +:+ String c b ∧ String.length a = i.
Proof.
  induction s as [|x s IH]; intros i; cbn [first_index].
  - discriminate.
  - rewrite PyStrFacts.prefix_char.
    destruct (Ascii.eqb x c) eqn:Hx.
    + intros [= <-]. apply Ascii.eqb_eq in Hx as ->.
      now exists EmptyString, s.
    + destruct (first_index (String c EmptyString) s) as [j|]; [|discriminate].
      intros [= <-]. destruct (IH j eq_refl) as (a & b & -> & <-).
      now exists (String x a), b.
Qed.

Lemma substring_prefix s : ∀ m, ∃ r, s = String.substring 0 m s +:+ r.
Proof.
  induction s as [|x s IH]; intros m.
  - exists EmptyString. now destruct m.
  - destruct m as [|m]; [now exists (String x s)|].
    destruct (IH m) as [r Hr]. exists r. cbn [String.substring].
    change (String x (String.substring 0 m s) +:+ r)
      with (String x (String.substring 0 m s +:+ r)).
    now rewrite <- Hr.
Qed.

End AliasForms.

(** X2. The older form [name:scheme://rest] is split at its first colon when
    the name and the scheme hold no colon, the scheme no slash, and the token
    no comma. *)
Theorem parse_alias_colon (name scheme rest : string) :
  name ≠ EmptyString →
  PyStr.has_char "," name = false ∧ PyStr.has_char ":" name = false →
  PyStr.has_char "," scheme = false ∧ PyStr.has_char ":" scheme = false
  ∧ PyStr.has_char "/" scheme = false →
  PyStr.has_char "," rest = false →
  parse_alias (name +:+ ":" +:+ scheme +:+ "://" +:+ rest)
  = (Some name, scheme +:+ "://" +:+ rest).
Proof.
  intros Hne [Hn1 Hn2] (Hs1 & Hs2 & Hs3) Hr.
  set (url := scheme +:+ "://" +:+ rest).
  change (":" +:+ url) with (String ":" url).
  assert (0 < Z.of_nat (String.length name)) as Hpos
    by (destruct name; [done|cbn; lia]).
  unfold parse_alias, parse_deprecated_alias.
  rewrite (FindFacts.find_index _ ","), FindFacts.first_index_no_char.
  2:{ rewrite PyStrFacts.has_char_app. cbn [PyStr.has_char]. subst url.
      rewrite !PyStrFacts.has_char_app. cbn [PyStr.has_char].
      now rewrite Hn1, Hs1, Hr. }
  cbn [Z.ltb Z.compare].
  rewrite (FindFacts.find_index _ "://"), (first_index_skip _ _ _ _ Hn2).
  cbn [first_index]. subst url. cbn [String.prefix].
  destruct (ascii_dec ":" ":") as [_|]; [|done].
  rewrite (prefix_slashes_scheme _ _ Hs3).
  change ("://" +:+ rest) with (String ":" "//" +:+ rest).
  rewrite (FindFacts.first_index_app _ _ _ _ Hs2). cbn [fmap option_fmap option_map].
  rewrite find_upto_past by (try done; lia).
  apply Z.ltb_lt in Hpos as ->.
  now rewrite FindFacts.slice_to_app, FindFacts.slice_from_sep.
Qed.

Lemma parse_alias_colon_witness :
  parse_alias ("zlib" +:+ ":" +:+ "http" +:+ "://" +:+ "zlib.net/zlib.tar.gz")
  = (Some "zlib", "http" +:+ "://" +:+ "zlib.net/zlib.tar.gz").
Proof. apply parse_alias_colon; [discriminate|repeat split ..]. Defined.

(** X3. Tokens that are kept whole, with no alias: a token without comma and
    colon; a URL whose scheme holds no colon, with no comma and no backslash
    in it; a path on a one-letter drive, with no further colon and no
    comma. *)
Theorem parse_alias_whole :
  (∀ s, PyStr.has_char "," s = false → PyStr.has_char ":" s = false →
        parse_alias s = (None, s))
  ∧ (∀ scheme rest,
       PyStr.has_char "," scheme = false ∧ PyStr.has_char ":" scheme = false
       ∧ PyStr.has_char "\" scheme = false →
       PyStr.has_char "," rest = false ∧ PyStr.has_char "\" rest = false →
       parse_alias (scheme +:+ "://" +:+ rest) = (None, scheme +:+ "://" +:+ rest))
  ∧ (∀ drive rest,
       drive ≠ ":"%char → drive ≠ ","%char →
       PyStr.has_char "," rest = false ∧ PyStr.has_char ":" rest = false →
       parse_alias (String drive (":\" +:+ rest))
       = (None, String drive (":\" +:+ rest))).
Proof.
  split; [|split].
  - intros s Hc Hk. unfold parse_alias, parse_deprecated_alias.
    rewrite !find_no_char by done. cbn [Z.ltb Z.compare Z.max].
    now rewrite find_upto_no_char.
  - intros scheme rest (Hs1 & Hs2 & Hs3) [Hr1 Hr2].
    unfold parse_alias, parse_deprecated_alias.
    rewrite (find_no_char ",").
    2:{ rewrite !PyStrFacts.has_char_app. cbn [PyStr.has_char].
        now rewrite Hs1, Hr1. }
    cbn [Z.ltb Z.compare].
    rewrite (FindFacts.find_index _ ":\"), FindFacts.first_index_no_second.
    2:{ rewrite !PyStrFacts.has_char_app. cbn [PyStr.has_char].
        now rewrite Hs3, Hr2. }
    rewrite (FindFacts.find_index _ "://").
    change ("://" +:+ rest) with (String ":" "//" +:+ rest).
    rewrite (FindFacts.first_index_app _ _ _ _ Hs2).
    rewrite Z.max_l by lia.
    unfold PyStr.find_upto. rewrite FindFacts.slice_to_app.
    now rewrite find_no_char.
  - intros drive rest Hd1 Hd2 [Hr1 Hr2].
    assert (Ascii.eqb drive ":" = false) as Hd by now apply Ascii.eqb_neq.
    assert (Ascii.eqb drive "," = false) as Hd' by now apply Ascii.eqb_neq.
    change (":\" +:+ rest) with (String ":" (String "\" rest)).
    set (s := String drive (String ":" (String "\" rest))).
    assert (first_index "://" s = None) as H1.
    { subst s. cbn [first_index].
      rewrite FindFacts.prefix_head_ne by congruence.
      rewrite (prefix_second_ne ":" "/" "/" ":" "\") by done.
      rewrite (FindFacts.prefix_head_ne ":" "//" "\") by done.
      now rewrite (FindFacts.first_index_no_char ":" "//" rest Hr2). }
    assert (first_index ":\" s = Some 1%nat) as H2.
    { subst s. cbn [first_index].
      rewrite FindFacts.prefix_head_ne by congruence.
      change (String ":" (String "\" rest)) with (":\" +:+ rest).
      now rewrite FindFacts.prefix_app. }
    unfold parse_alias, parse_deprecated_alias.
    rewrite (find_no_char ",")
      by (subst s; cbn [PyStr.has_char]; now rewrite Hd', Hr1).
    cbn [Z.ltb Z.compare].
    rewrite !FindFacts.find_index, H1, H2.
    change (-1 `max` Z.of_nat 1) with (Z.of_nat (String.length (String drive EmptyString))).
    unfold PyStr.find_upto. subst s.
    change (String drive (String ":" (String "\" rest)))
      with (String drive EmptyString +:+ String ":" (String "\" rest)) at 1.
    rewrite FindFacts.slice_to_app.
    now rewrite (find_no_char ":") by (cbn [PyStr.has_char]; now rewrite Hd).
Qed.

Lemma parse_alias_whole_witness :
  parse_alias "foo/bar@v1" = (None, "foo/bar@v1")
  ∧ parse_alias ("https" +:+ "://" +:+ "example.org/a.tar.gz")
    = (None, "https" +:+ "://" +:+ "example.org/a.tar.gz")
  ∧ parse_alias (String "C" (":\" +:+ "src\zlib")) = (None, String "C" (":\" +:+ "src\zlib")).
Proof.
  destruct parse_alias_whole as (Hplain & Hurl & Hdrive).
  split; [apply Hplain; reflexivity|].
  split; [apply Hurl; repeat split|apply Hdrive; [discriminate ..|repeat split]].
Defined.

(** X4. A URL that holds a drive marker [:\] after its scheme is split at the
    colon of the scheme: the scheme becomes the alias and the source starts
    at the two slashes. *)
Theorem parse_alias_scheme_drive (scheme mid tail : string) :
  scheme ≠ EmptyString →
  PyStr.has_char "," scheme = false ∧ PyStr.has_char ":" scheme = false →
  PyStr.has_char "," mid = false →
  PyStr.has_char "," tail = false →
  parse_alias (scheme +:+ "://" +:+ mid +:+ ":\" +:+ tail)
  = (Some scheme, "//" +:+ mid +:+ ":\" +:+ tail).
Proof.
  intros Hne [Hs1 Hs2] Hm Ht.
  set (r := "//" +:+ mid +:+ ":\" +:+ tail).
  change ("://" +:+ mid +:+ ":\" +:+ tail) with (String ":" r).
  assert (0 < Z.of_nat (String.length scheme)) as Hpos
    by (destruct scheme; [done|cbn; lia]).
  unfold parse_alias, parse_deprecated_alias.
  rewrite (find_no_char ",").
  2:{ rewrite PyStrFacts.has_char_app. subst r. cbn [PyStr.has_char].
      change ("//" +:+ mid +:+ ":\" +:+ tail)
        with (String "/" (String "/" (mid +:+ ":\" +:+ tail))).
      cbn [PyStr.has_char]. rewrite PyStrFacts.has_char_app.
      change (":\" +:+ tail) with (String ":" (String "\" tail)).
      cbn [PyStr.has_char]. now rewrite Hs1, Hm, Ht. }
  cbn [Z.ltb Z.compare].
  assert (∃ j, first_index ":\" (scheme +:+ String ":" r)
               = Some (String.length scheme + S j)%nat) as [j Hj].
  { rewrite (first_index_skip _ _ _ _ Hs2). cbn [first_index].
    subst r.
    change ("//" +:+ mid +:+ ":\" +:+ tail)
      with (String "/" ("/" +:+ mid +:+ ":\" +:+ tail)).
    rewrite (prefix_second_ne ":" "\" EmptyString ":" "/") by done.
    change (String "/" ("/" +:+ mid +:+ ":\" +:+ tail))
      with (("//" +:+ mid) +:+ ":\" +:+ tail).
    destruct (first_index_exists ":\" ("//" +:+ mid) tail) as [j ->]. eauto. }
  rewrite (FindFacts.find_index _ ":\"), Hj.
  rewrite find_upto_past by (try done; lia).
  apply Z.ltb_lt in Hpos as ->.
  now rewrite FindFacts.slice_to_app, FindFacts.slice_from_sep.
Qed.

Lemma parse_alias_scheme_drive_witness :
  parse_alias ("file" +:+ "://" +:+ "C" +:+ ":\" +:+ "src\zlib")
  = (Some "file", "//" +:+ "C" +:+ ":\" +:+ "src\zlib").
Proof. apply parse_alias_scheme_drive; [discriminate|repeat split ..]. Defined.

(** X5. When [parse_alias] gives an alias, the alias is not empty and the
    token is the alias, one comma or colon, and the source. *)
Theorem parse_alias_joins (s name url : string) :
  parse_alias s = (Some name, url) →
  name ≠ EmptyString
  ∧ (s = name +:+ "," +:+ url ∨ s = name +:+ ":" +:+ url).
Proof.
  unfold parse_alias, parse_deprecated_alias.
  assert (∀ c a b (i : nat),
            s = a +:+ String c b → String.length a = i → 0 < Z.of_nat i →
            (Some (PyStr.slice_to s (Z.of_nat i)),
             PyStr.slice_from s (Z.of_nat i + 1)) = (Some name, url) →
            name ≠ EmptyString ∧ s = name +:+ String c url) as Hsplit.
  { intros c a b i -> <- Hpos.
    rewrite FindFacts.slice_to_app, FindFacts.slice_from_sep.
    intros [= <- <-]. split; [|done]. intros ->. cbn in Hpos. lia. }
  rewrite (FindFacts.find_index s ",").
  destruct (first_index "," s) as [i|] eqn:Hi.
  - destruct (Z.ltb_spec 0 (Z.of_nat i)) as [Hpos|Hle].
    + destruct (first_index_char_split _ _ _ Hi) as (a & b & Hs & Hlen).
      intros Heq. destruct (Hsplit _ _ _ _ Hs Hlen Hpos Heq) as [? ?]. auto.
    + clear Hi. revert Hle. generalize (Z.of_nat i) as z. intros z Hz.
      set (e := Z.max _ _). unfold PyStr.find_upto.
      rewrite FindFacts.find_index.
      destruct (first_index ":" (PyStr.slice_to s e)) as [k|] eqn:Hk;
        [|discriminate].
      destruct (Z.ltb_spec 0 (Z.of_nat k)) as [Hpos|_]; [|discriminate].
      destruct (first_index_char_split _ _ _ Hk) as (a & b & Hs & Hlen).
      destruct (substring_prefix s (Z.to_nat (if e <? 0
                   then Z.max 0 (e + Z.of_nat (String.length s))
                   else Z.min e (Z.of_nat (String.length s))))) as [r Hr].
      fold (PyStr.slice_to s e) in Hr. rewrite Hs in Hr.
      rewrite PyStrFacts.append_assoc in Hr.
      change (String ":" b +:+ r) with (String ":" (b +:+ r)) in Hr.
      intros Heq. destruct (Hsplit _ _ _ _ Hr Hlen Hpos Heq) as [? ?]. auto.
  - cbn [Z.ltb Z.compare].
    set (e := Z.max _ _). unfold PyStr.find_upto.
    rewrite FindFacts.find_index.
    destruct (first_index ":" (PyStr.slice_to s e)) as [k|] eqn:Hk;
      [|discriminate].
    destruct (Z.ltb_spec 0 (Z.of_nat k)) as [Hpos|_]; [|discriminate].
    destruct (first_index_char_split _ _ _ Hk) as (a & b & Hs & Hlen).
    destruct (substring_prefix s (Z.to_nat (if e <? 0
                 then Z.max 0 (e + Z.of_nat (String.length s))
                 else Z.min e (Z.of_nat (String.length s))))) as [r Hr].
    fold (PyStr.slice_to s e) in Hr. rewrite Hs in Hr.
    rewrite PyStrFacts.append_assoc in Hr.
    change (String ":" b +:+ r) with (String ":" (b +:+ r)) in Hr.
    intros Heq. destruct (Hsplit _ _ _ _ Hr Hlen Hpos Heq) as [? ?]. auto.
Qed.

Lemma parse_alias_joins_witness :
  "zlib" ≠ EmptyString
  ∧ ("zlib,a/b" = "zlib" +:+ "," +:+ "a/b" ∨ "zlib,a/b" = "zlib" +:+ ":" +:+ "a/b").
Proof. apply (parse_alias_joins "zlib,a/b" "zlib" "a/b"). reflexivity. Defined.

(** ** Names and versions *)

Lemma reduce_eq_bool l : ∀ b,
  l ≠ [] → fold_left py_eq (map VStr l) (VBool b) = VBool false.
Proof.
  induction l as [|x l IH]; intros b Hl; [done|].
  cbn [map fold_left]. destruct l as [|y l]; [reflexivity|].
  now apply IH.
Qed.

(** With three segments or more the comparison chain of [reduce] ends on a
    boolean compared with a string. *)
Lemma reduce_eq_three ps :
  (3 ≤ length ps)%nat → py_truthy (reduce_eq ps) = false.
Proof.
  destruct ps as [|a [|b [|c l]]]; cbn [length]; try lia. intros _.
  unfold reduce_eq. cbn [map fold_left].
  change (py_eq (py_eq (VStr a) (VStr b)) (VStr c)) with (VBool false).
  destruct l as [|x l]; [reflexivity|].
  now rewrite reduce_eq_bool.
Qed.

(** X6. The name of a source is shortened only when it has exactly two
    segments and they are equal: [a/a] becomes [a], [a/b] stays, and a name
    of three segments or more stays even when its segments are equal. *)
Theorem parse_src_name_segments :
  (∀ a b default,
     PyStr.has_char "/" a = false ∧ PyStr.has_char "@" a = false →
     PyStr.has_char "/" b = false ∧ PyStr.has_char "@" b = false →
     parse_src_name (a +:+ "/" +:+ b) default
     = (if String.eqb a b then a else a +:+ "/" +:+ b, default))
  ∧ (∀ p default,
       PyStr.has_char "@" p = false →
       (3 ≤ length (PyStr.split "/" p))%nat →
       parse_src_name p default = (p, default)).
Proof.
  split.
  - intros a b default Ha Hb. now apply parse_src_name_owner_repo.
  - intros p default Hat Hlen. unfold parse_src_name.
    rewrite (PyStrFacts.split_no_char "@" p Hat). cbn [hd].
    destruct (PyStr.contains "/" p); [|reflexivity].
    now rewrite (reduce_eq_three _ Hlen).
Qed.

Lemma parse_src_name_segments_witness :
  parse_src_name ("zlib" +:+ "/" +:+ "zlib") None = ("zlib", None)
  ∧ parse_src_name "zlib/zlib/zlib" None = ("zlib/zlib/zlib", None).
Proof.
  destruct parse_src_name_segments as [Htwo Hmany]. split.
  - apply (Htwo "zlib" "zlib"); split; reflexivity.
  - apply Hmany; [reflexivity|vm_compute; lia].
Defined.

(** X7. The version is the text between the first and the second [@]: what
    follows a second [@] is dropped, and without [@] the version is the
    default. *)
Theorem parse_src_name_version (p v rest : string) (default : option string) :
  PyStr.has_char "@" p = false →
  PyStr.has_char "@" v = false →
  snd (parse_src_name (p +:+ "@" +:+ v +:+ "@" +:+ rest) default) = Some v
  ∧ snd (parse_src_name (p +:+ "@" +:+ v) default) = Some v
  ∧ snd (parse_src_name p default) = default.
Proof.
  intros Hp Hv. unfold parse_src_name. cbn [snd].
  change ("@" +:+ v +:+ "@" +:+ rest) with (String "@" (v +:+ String "@" rest)).
  change ("@" +:+ v) with (String "@" v).
  rewrite !(PyStrFacts.split_app "@" p) by done.
  rewrite (PyStrFacts.split_app "@" v) by done.
  rewrite (PyStrFacts.split_no_char "@" v Hv), (PyStrFacts.split_no_char "@" p Hp).
  repeat split.
Qed.

Lemma parse_src_name_version_witness :
  snd (parse_src_name ("foo/bar" +:+ "@" +:+ "v1.2" +:+ "@" +:+ "extra") None)
  = Some "v1.2".
Proof. apply (parse_src_name_version "foo/bar" "v1.2" "extra" None); reflexivity. Defined.

(** ** CMake variables *)

Lemma split_head_no_char c s :
  PyStr.has_char c (hd EmptyString (PyStr.split c s)) = false.
Proof.
  induction s as [|a s IH]; [reflexivity|]. cbn [PyStr.split].
  destruct (Ascii.eqb a c) eqn:Ha; [reflexivity|].
  destruct (PyStr.split c s) as [|x xs]; cbn [hd PyStr.has_char] in *.
  - now rewrite Ha.
  - now rewrite Ha, IH.
Qed.

(** X8. [parse_cmake_var_type] returns the value as it got it and a name
    without colon. A key without colon is the name, typed [BOOL] or
    [STRING]; a key [name:type...] gives the text before its first colon as
    the name and the upper-cased text up to the next colon as the type. *)
Theorem parse_cmake_var_type_name (upper lower : string → string)
        (key value : string) :
  let '(n, t, v) := parse_cmake_var_type upper lower key value in
  v = value
  ∧ PyStr.has_char ":" n = false
  ∧ (PyStr.has_char ":" key = false →
     n = key ∧ (t = "BOOL" ∨ t = "STRING"))
  ∧ (∀ a b, PyStr.has_char ":" a = false → key = a +:+ ":" +:+ b →
            n = a ∧ t = upper (hd EmptyString (PyStr.split ":" b))).
Proof.
  unfold parse_cmake_var_type. rewrite PyStrFacts.contains_char.
  destruct (PyStr.has_char ":" key) eqn:Hk.
  - split; [done|]. split; [apply split_head_no_char|]. split; [done|].
    intros a b Ha ->. change (":" +:+ b) with (String ":" b).
    rewrite (PyStrFacts.split_app ":" a b Ha). cbn [hd nth].
    split; [done|]. now destruct (PyStr.split ":" b).
  - destruct (bool_decide _); (split; [done|]); (split; [done|]);
      (split; [auto|]); intros a b Ha ->; exfalso;
      rewrite PyStrFacts.has_char_app in Hk; cbn [PyStr.has_char] in Hk;
      change (":" +:+ b) with (String ":" b) in Hk; cbn [PyStr.has_char] in Hk;
      rewrite Ascii.eqb_refl, orb_true_r in Hk; discriminate.
Qed.

(** ** Resolution *)

Section Resolution.

Context `{Ops} (env : Env).

Lemma to_string_slash p : ∃ r, Path.to_string p = String "/" r.
Proof. destruct p as [|c p]; cbn; eauto. Qed.

Lemma startswith_to_string p t :
  PyStr.startswith (Path.to_string p +:+ t) "/" = true.
Proof.
  destruct (to_string_slash p) as [r ->].
  change (String "/" r +:+ t) with (String "/" (r +:+ t)).
  unfold PyStr.startswith. cbn. now destruct (r +:+ t).
Qed.

Lemma startswith_to_string' p : PyStr.startswith (Path.to_string p) "/" = true.
Proof.
  destruct (to_string_slash p) as [r ->].
  unfold PyStr.startswith. cbn. now destruct r.
Qed.

Lemma from_recipe_resolved k rec r pkg name f pb :
  from_recipe k rec r pkg name f = Ok pb →
  ∃ ps, pkg_src pb = Resolved ps ∧ Package.recipe ps = None.
Proof.
  unfold from_recipe.
  destruct (Util.ensure_exists f _); [|discriminate].
  destruct (gen_next rec true k _ f) as [[[p g]|]|]; try discriminate.
  destruct (OS.exists_ f _);
    (cbn; destruct (pkg_src p) as [|ps]; [discriminate|];
     destruct pkg as [[s|caller]|];
     [destruct (PyStr.truthy s); [discriminate|]
     |destruct (pkg_src caller); [discriminate|]
     |];
     intros [= <-]; cbn; try destruct (PyStr.otruthy name); eauto).
Qed.

End Resolution.

(** X9. Looking up the CMake override file a second time changes nothing:
    what [find_cmake] returns is returned as it is when passed again, at the
    same start directory and file system. *)
Theorem find_cmake_idempotent `{Ops} (p : option string) (start : option path)
        (f : FS) :
  find_cmake (find_cmake p start f) start f = find_cmake p start f.
Proof.
  unfold find_cmake. destruct p as [s|]; [|reflexivity].
  destruct (PyStr.truthy s && negb (PyStr.startswith s "/")) eqn:Hc;
    [|now rewrite Hc].
  destruct (OS.exists_ f (actual_path s start)) eqn:E1.
  { now rewrite startswith_to_string', andb_false_r. }
  destruct (OS.exists_ f (cget_dir "cmake" s)) eqn:E2.
  { now rewrite startswith_to_string', andb_false_r. }
  destruct (OS.exists_ f (Path.of_string _)) eqn:E3.
  { now rewrite startswith_to_string, andb_false_r. }
  now rewrite Hc, E1, E2, E3.
Qed.

(** X10. Whatever [parse_pkg_build] returns has a resolved source with no
    recipe pointer: a token is never left unresolved and a recipe never left
    unexpanded. *)
Theorem parse_pkg_build_resolved `{Ops} (env : Env) (pkg : option pkg_arg)
        (start : option path) (no_recipe : bool) (f : FS) (pb : PackageBuild) :
  parse_pkg_build env pkg start no_recipe f = Ok pb →
  ∃ ps, pkg_src pb = Resolved ps ∧ Package.recipe ps = None.
Proof.
  unfold parse_pkg_build. destruct (limit env) as [|n]; [discriminate|].
  cbn [parse_pkg_build_at].
  assert (∀ src : PackageSource, ∀ x : option (string + PackageBuild),
            match Package.recipe src with
            | Some r => from_recipe n (parse_pkg_build_at env n) r x None f
            | None => Ok (mk (Resolved src))
            end = Ok pb →
            ∃ ps, pkg_src pb = Resolved ps ∧ Package.recipe ps = None) as Hother.
  { intros src x. destruct (Package.recipe src) eqn:Hr.
    - apply from_recipe_resolved.
    - intros [= <-]. eauto. }
  destruct pkg as [[s|ps|b]|].
  - destruct (parse_pkg_src env _ start no_recipe f); [apply Hother|discriminate].
  - destruct (parse_pkg_src env _ start no_recipe f); [apply Hother|discriminate].
  - destruct (parse_pkg_src env _ start no_recipe f) as [src|]; [|discriminate].
    destruct (match Package.recipe src with Some _ => _ | None => _ end)
      as [pkg2|] eqn:Hpkg2; [|discriminate].
    assert (∃ ps, pkg_src pkg2 = Resolved ps ∧ Package.recipe ps = None)
      as (ps & Hps & Hrec).
    { destruct (Package.recipe src) eqn:Hr.
      - now apply from_recipe_resolved in Hpkg2.
      - injection Hpkg2 as <-. eauto. }
    intros [= <-]. exists ps. now destruct (PyStr.otruthy (cmake pkg2)).
  - destruct (parse_pkg_src env None start no_recipe f); [apply Hother|discriminate].
Qed.

Lemma parse_pkg_build_resolved_witness :
  ∃ ps, pkg_src (mk (Resolved {| Package.name := Some "foo/bar";
                                 Package.url := Some "https://github.com/foo/bar/archive/HEAD.tar.gz";
                                 Package.recipe := None |})) = Resolved ps
        ∧ Package.recipe ps = None.
Proof.
  apply (parse_pkg_build_resolved (H := Example.ops) Example.posix
           (Some (AStr "foo/bar")) None false Example.fresh_fs).
  vm_compute. reflexivity.
Defined.

(** X11. A token that resolves to a recipe under a non-empty name is never
    resolved to a build: [parse_pkg_build] hands the name to [from_recipe]
    in the place of the build, and [from_recipe] fails on it with
    [AttributeError] when the recipe itself is in order. *)
Theorem parse_pkg_build_recipe_token `{Ops} (env : Env) (s : string)
        (start : option path) (no_recipe : bool) (f : FS)
        (src : PackageSource) (r : path) :
  parse_pkg_src env (Some (AStr s)) start no_recipe f = Ok src →
  Package.recipe src = Some r →
  PyStr.otruthy (Package.name src) = true →
  (∀ pb, parse_pkg_build env (Some (AStr s)) start no_recipe f ≠ Ok pb)
  ∧ (∀ n p g ps,
       limit env = S n →
       OS.exists_ f (Path.join r "package.txt") = true →
       gen_next (parse_pkg_build_at env n) true n
         (from_file (Some (Path.join r "package.txt")) None) f = Ok (Some (p, g)) →
       pkg_src p = Resolved ps →
       parse_pkg_build env (Some (AStr s)) start no_recipe f = Raise AttributeError).
Proof.
  intros Hsrc Hrec Hname. unfold parse_pkg_build.
  destruct (Package.name src) as [nm|] eqn:Hnm; [|discriminate].
  cbn [PyStr.otruthy] in Hname. split.
  - intros pb. destruct (limit env) as [|n]; [discriminate|].
    cbn [parse_pkg_build_at]. rewrite Hsrc, Hrec, Hnm. cbn [option_map].
    unfold from_recipe.
    destruct (Util.ensure_exists f _); [|discriminate].
    destruct (gen_next _ true n _ f) as [[[p g]|]|]; try discriminate.
    destruct (OS.exists_ f _); cbn; destruct (pkg_src p); try discriminate;
      now rewrite Hname.
  - intros n p g ps -> Hex Hgen Hps.
    cbn [parse_pkg_build_at]. rewrite Hsrc, Hrec, Hnm. cbn [option_map].
    unfold from_recipe, Util.ensure_exists. rewrite Hex, Hgen.
    destruct p; cbn in Hps; subst.
    destruct (OS.exists_ f (Path.join r "requirements.txt")); cbn;
      now rewrite Hname.
Qed.

Lemma parse_pkg_build_recipe_token_witness :
  parse_pkg_build (H := Example.ops) Example.posix (Some (AStr "zlib")) None false
    Example.with_recipe = Raise AttributeError.
Proof.
  destruct (parse_pkg_build_recipe_token (H := Example.ops) Example.posix "zlib"
              None false Example.with_recipe
              {| Package.name := Some "zlib"; Package.url := None;
                 Package.recipe := Some Example.zlib_recipe |}
              Example.zlib_recipe) as [_ Hraise]; [vm_compute; reflexivity ..|].
  apply (Hraise 7%nat
           (mk (Resolved {| Package.name := Some "zlib";
                            Package.url := Some "https://zlib.net/zlib-1.3.tar.gz";
                            Package.recipe := None |}))
           [FLines [] Example.zlib_recipe]
           {| Package.name := Some "zlib";
              Package.url := Some "https://zlib.net/zlib-1.3.tar.gz";
              Package.recipe := None |});
    vm_compute; reflexivity.
Defined.

(** X12. A token whose source part carries a scheme marker resolves to that
    source as written, under its alias if it has one, whatever the file
    system holds: no local path and no recipe is looked for. *)
Theorem parse_pkg_build_url `{Ops} (env : Env) (s : string)
        (name : option string) (url : string) :
  parse_alias s = (name, url) →
  PyStr.contains "://" url = true →
  limit env ≠ O →
  ∀ start no_recipe f,
    parse_pkg_build env (Some (AStr s)) start no_recipe f
    = Ok (mk (Resolved {| Package.name := name; Package.url := Some url;
                          Package.recipe := None |})).
Proof.
  intros Halias Hurl Hlimit start no_recipe f. unfold parse_pkg_build.
  destruct (limit env) as [|n]; [done|].
  cbn [parse_pkg_build_at parse_pkg_src]. unfold parse_pkg_src_str.
  now rewrite Halias, Hurl.
Qed.

Lemma parse_pkg_build_url_witness :
  parse_pkg_build (H := Example.ops) Example.posix
    (Some (AStr "zlib,https://zlib.net/zlib-1.3.tar.gz")) None false
    Example.with_recipe
  = Ok (mk (Resolved {| Package.name := Some "zlib";
                        Package.url := Some "https://zlib.net/zlib-1.3.tar.gz";
                        Package.recipe := None |})).
Proof.
  apply (parse_pkg_build_url (H := Example.ops) Example.posix
           "zlib,https://zlib.net/zlib-1.3.tar.gz");
    [reflexivity|reflexivity|discriminate].
Defined.

(** ** The reports of [install] *)

Ltac split_results H :=
  repeat match type of H with
         | context [match ?x with _ => _ end] =>
             let E := fresh "E" in destruct x eqn:E; try discriminate H
         | context [if ?x then _ else _] =>
             let E := fresh "E" in destruct x eqn:E; try discriminate H
         end.

(** X13. When [install] returns, its report is one of three, each naming the
    resolved package: "Successfully installed", or, only with [update]
    unset, "already installed" or "Linking package". *)
Theorem install_reports `{Ops} (env : Env) (n : nat) (spec : pkg_arg)
        (a : install_args) (w w' : world) (s : string) :
  install_at env n spec a w = (w', Ok s) →
  ∃ pb, parse_pkg_build env (Some spec) None false (fs w) = Ok pb
        ∧ (s = successfully_installed pb
           ∨ (a_update a = false
              ∧ (s = already_installed pb ∨ s = linking pb))).
Proof.
  intros Hi. destruct n as [|n]; [discriminate|].
  cbn [install_at] in Hi. munfold.
  destruct (parse_pkg_build env (Some spec) None false (fs w)) as [pb|] eqn:Hp;
    [|discriminate].
  exists pb. split; [done|].
  split_results Hi; injection Hi as <- <-; auto.
Qed.

Lemma result_eq {A B} (x : A * B) (b : B) : snd x = b → x = (fst x, b).
Proof. destruct x. cbn. now intros ->. Qed.

Lemma install_reports_witness :
  ∃ pb, parse_pkg_build (H := Example.ops) Example.posix (Some (AStr "foo/bar"))
          None false (fs Example.partial) = Ok pb
        ∧ ("Package foo/bar already installed"
           = successfully_installed (H := Example.ops) pb
           ∨ (a_update default_args = false
              ∧ ("Package foo/bar already installed"
                 = already_installed (H := Example.ops) pb
                 ∨ "Package foo/bar already installed"
                   = linking (H := Example.ops) pb))).
Proof.
  apply (install_reports (H := Example.ops) Example.posix 8 (AStr "foo/bar")
           default_args Example.partial
           (fst (install_at (H := Example.ops) Example.posix 8 (AStr "foo/bar")
                   default_args Example.partial))).
  apply result_eq. vm_compute. reflexivity.
Defined.

(** ** The Builder calls of an install *)

Section Sequence.

Context `{Ops} (env : Env).

Lemma call_builder_trace d ex c w :
  trace (fst (call_builder d ex c w))
  = trace w ++ [{| ev_dir := d; ev_exists := ex; ev_call := c |}].
Proof. unfold call_builder. now destruct (builder_run d ex c (fs w)). Qed.

(** Without a file to read, a [from_file] loop does not run its body. *)
Lemma for_gen_no_file k u body w :
  (2 ≤ limit env)%nat → (0 < k)%nat →
  for_gen env k (from_file None u) body w = (w, Ok tt).
Proof.
  intros Hl Hk. destruct k as [|k]; [lia|].
  destruct (limit env) as [|[|m]] eqn:Hlim; [lia|lia|].
  cbn [for_gen]. rewrite Hlim. reflexivity.
Qed.

End Sequence.

Ltac step_call Hc :=
  match type of Hc with
  | context [call_builder ?d ?ex ?c ?w0] =>
      let T := fresh "T" in
      pose proof (call_builder_trace d ex c w0) as T;
      destruct (call_builder d ex c w0) as [? [?|?]];
      cbn [fst] in T; [|discriminate Hc]
  end.

(** X14. An install that builds a package which leaves its requirements
    aside and has no CMake override, and that returns, has made these calls
    to one Builder and no other: fetch, configure, build, the tests exactly
    when [test] or [test_all] is set, and build of the target [install]. *)
Theorem install_builder_sequence `{Ops} (env : Env) (n : nat) (spec : pkg_arg)
        (a : install_args) (w w' : world) (s : string) (pb : PackageBuild)
        (d : path) :
  parse_pkg_build env (Some spec) None false (fs w) = Ok pb →
  snd (get_package_directory env (Some (ABuild pb)) w) = Ok d →
  OS.isdir (fs w) d = false →
  OS.isdir (fs w) (d ++ ["unlink"]) = false →
  ignore_requirements pb = true →
  PyStr.otruthy (requirements pb) = false →
  cmake pb = None →
  (2 ≤ limit env)%nat →
  install_at env (S n) spec a w = (w', Ok s) →
  ∃ src_dir,
    trace w'
    = trace w
      ++ map (λ c, {| ev_dir := d; ev_exists := OS.exists_ (fs w) d; ev_call := c |})
           ([BFetch (match pkg_src pb with
                     | Resolved ps => Package.url ps
                     | Raw _ => None
                     end) (hash pb) false (a_insecure a);
             BConfigure src_dir (define pb) (a_generator a) (prefix env)
               (a_test a) (variant pb);
             BBuild (variant pb) None]
            ++ (if a_test a || a_test_all a then [BTest (variant pb)] else [])
            ++ [BBuild (variant pb) (Some "install")]).
Proof.
  intros Hp Hd Hdir Hunl Hign Hreq Hcm Hlim Hi.
  rewrite (install_at_fresh env n spec a w pb d) in Hi by assumption.
  unfold bind at 1 in Hi.
  destruct (create_builder env pb true _ w) as [w1 [[]|?]] eqn:Hc;
    [|discriminate].
  assert (trace w' = trace w1) as ->.
  { pose proof (write_parent_trace env pb (a_track a) w1) as Ht.
    unfold bind in Hi.
    destruct (write_parent env pb (a_track a) w1) as [w2 [[]|?]];
      [|discriminate].
    unfold ret in Hi. cbv beta in Hi. now injection Hi as <- _. }
  clear Hi. apply get_package_directory_eq in Hd.
  unfold create_builder, install_build, install_deps in Hc.
  rewrite Hcm, Hign, Hreq in Hc. cbn [negb option_map] in Hc.
  munfold. rewrite Hd in Hc. cbv beta iota in Hc.
  set (ex := OS.exists_ (fs w) d) in *.
  pose proof (mkdir_trace d w) as Hm.
  destruct (Util.mkdir d w) as [wm [?|?]]; [|discriminate Hc].
  cbn [fst] in Hm. cbv beta iota in Hc.
  step_call Hc. cbv beta iota in Hc.
  rewrite for_gen_no_file in Hc by (done || lia). cbv beta iota in Hc.
  step_call Hc. cbv beta iota in Hc.
  step_call Hc. cbv beta iota in Hc.
  match type of T0 with context [BConfigure ?src _ _ _ _ _] => exists src end.
  destruct (a_test a || a_test_all a).
  - step_call Hc. cbv beta iota in Hc.
    step_call Hc. cbv beta iota in Hc.
    destruct (negb (nt env) && true); injection Hc as <-; cbn [trace];
      rewrite T3, T2, T1, T0, T, Hm; cbn [map app];
      now rewrite <- !app_assoc.
  - step_call Hc. cbv beta iota in Hc.
    destruct (negb (nt env) && true); injection Hc as <-; cbn [trace];
      rewrite T2, T1, T0, T, Hm; cbn [map app];
      now rewrite <- !app_assoc.
Qed.

Lemma install_builder_sequence_witness :
  let a := {| a_test := true; a_test_all := false; a_generator := None;
              a_update := false; a_track := true; a_insecure := false |} in
  let d := Example.store ++ ["tool"] in
  ∃ src_dir,
    trace (fst (install_at (H := Example.ops) Example.posix 8
                  (ABuild standalone) a Example.fresh))
    = trace Example.fresh
      ++ map (λ c, {| ev_dir := d; ev_exists := OS.exists_ (fs Example.fresh) d;
                      ev_call := c |})
           ([BFetch (Some "https://example.org/tool.tar.gz") None false false;
             BConfigure src_dir ∅ None Example.root true (Some "Release");
             BBuild (Some "Release") None]
            ++ (if a_test a || a_test_all a then [BTest (Some "Release")] else [])
            ++ [BBuild (Some "Release") (Some "install")]).
Proof.
  intros a d.
  apply (install_builder_sequence (H := Example.ops) Example.posix 7
           (ABuild standalone) a Example.fresh
           (fst (install_at (H := Example.ops) Example.posix 8
                   (ABuild standalone) a Example.fresh))
           "Successfully installed tool" standalone d);
    [vm_compute; reflexivity ..| |].
  - vm_compute. lia.
  - apply result_eq. vm_compute. reflexivity.
Defined.

(** X15. When the fetch of a package that is to be built raises, [install]
    raises the same exception after that one call to the Builder: nothing is
    retried and nothing is undone, the file system being the one the fetch
    left. *)
Theorem install_fetch_failure `{Ops} (env : Env) (n : nat) (spec : pkg_arg)
        (a : install_args) (w : world) (pb : PackageBuild) (d : path)
        (e : exn) :
  parse_pkg_build env (Some spec) None false (fs w) = Ok pb →
  snd (get_package_directory env (Some (ABuild pb)) w) = Ok d →
  OS.isdir (fs w) d = false →
  OS.isdir (fs w) (d ++ ["unlink"]) = false →
  snd (Util.mkdir d w) = Ok d →
  let fetch := BFetch (match pkg_src pb with
                       | Resolved ps => Package.url ps
                       | Raw _ => None
                       end) (hash pb)
                 (match cmake pb with Some _ => true | None => false end)
                 (a_insecure a) in
  let ex := OS.exists_ (fs w) d in
  snd (builder_run d ex fetch (fs (fst (Util.mkdir d w)))) = Raise e →
  install_at env (S n) spec a w
  = ({| fs := fst (builder_run d ex fetch (fs (fst (Util.mkdir d w))));
        trace := trace w ++ [{| ev_dir := d; ev_exists := ex; ev_call := fetch |}] |},
     Raise e).
Proof.
  intros Hp Hd Hdir Hunl Hm fetch ex Hrun%result_eq.
  rewrite (install_at_fresh env n spec a w pb d) by assumption.
  apply get_package_directory_eq in Hd.
  unfold create_builder, install_build. munfold. rewrite Hd. cbv beta iota.
  pose proof (mkdir_trace d w) as Ht.
  destruct (Util.mkdir d w) as [wm [x|?]]; [|discriminate]. cbn [fst snd] in *.
  unfold call_builder. fold ex fetch. rewrite Hrun. now rewrite Ht.
Qed.

Lemma install_fetch_failure_witness :
  snd (install_at (H := fetch_fails) Example.posix 8 (AStr "foo/bar")
         default_args Example.fresh) = Raise BuildError
  ∧ length (trace (fst (install_at (H := fetch_fails) Example.posix 8
                          (AStr "foo/bar") default_args Example.fresh))) = 1%nat.
Proof.
  rewrite (install_fetch_failure (H := fetch_fails) Example.posix 7
             (AStr "foo/bar") default_args Example.fresh
             (mk (Resolved {| Package.name := Some "foo/bar";
                              Package.url := Some "https://github.com/foo/bar/archive/HEAD.tar.gz";
                              Package.recipe := None |}))
             (Example.store ++ ["foo__bar"])
             BuildError); try (vm_compute; reflexivity).
  split; reflexivity.
Defined.

Section Unlinked.

Context `{Ops} (env : Env).

Lemma link_trace pkg w : trace (fst (link env pkg w)) = trace w.
Proof.
  unfold link. munfold.
  destruct (parse_pkg_src env pkg None false (fs w)); [|done].
  destruct (get_package_directory env _ w) as [w1 [d|?]] eqn:Hd;
    apply get_package_directory_world in Hd as ->; [|done].
  destruct (OS.exists_ (fs w) (d ++ ["unlink"])).
  - pose proof (mkdir_trace d w) as Hm.
    destruct (Util.mkdir d w) as [wm [?|?]]; [|done]. cbn [fst] in Hm.
    now rewrite rename_onto_parent.
  - cbn. now destruct (Util.ls _ _ _).
Qed.

End Unlinked.

(** X16. On an entry that holds an [unlink] directory, [install] without
    [update] makes no call to the Builder, and the only report it can return
    is "Linking package". *)
Theorem install_unlinked_no_build `{Ops} (env : Env) (n : nat) (spec : pkg_arg)
        (a : install_args) (w : world) (pb : PackageBuild) (d : path) :
  parse_pkg_build env (Some spec) None false (fs w) = Ok pb →
  snd (get_package_directory env (Some (ABuild pb)) w) = Ok d →
  OS.isdir (fs w) (d ++ ["unlink"]) = true →
  a_update a = false →
  trace (fst (install_at env (S n) spec a w)) = trace w
  ∧ (∀ s, snd (install_at env (S n) spec a w) = Ok s → s = linking pb).
Proof.
  intros Hp Hd%get_package_directory_eq Hunl Hupd.
  cbn [install_at]. munfold. rewrite Hp. cbv beta iota.
  rewrite Hd. cbv beta iota. rewrite Hunl, Hupd.
  pose proof (link_trace env (Some (ABuild pb)) w) as Hl.
  destruct (link env (Some (ABuild pb)) w) as [w1 [[]|?]]; cbn [fst] in Hl;
    [|split; [done|discriminate]].
  pose proof (write_parent_trace env pb (a_track a) w1) as Hw.
  destruct (write_parent env pb (a_track a) w1) as [w2 [[]|?]]; cbn [fst] in *.
  - split; [congruence|]. now intros s [= <-].
  - split; [congruence|discriminate].
Qed.

Lemma install_unlinked_no_build_witness :
  trace (fst (install_at (H := Example.ops) Example.posix 8 (AStr "zlib")
                default_args Example.unlinked)) = trace Example.unlinked
  ∧ snd (install_at (H := Example.ops) Example.posix 8 (AStr "zlib")
           default_args Example.unlinked) = Raise OSError.
Proof.
  split; [|vm_compute; reflexivity].
  apply (install_unlinked_no_build (H := Example.ops) Example.posix 7
           (AStr "zlib") default_args Example.unlinked
           (mk (Resolved {| Package.name := Some "zlib";
                            Package.url := Some "https://github.com/zlib/zlib/archive/HEAD.tar.gz";
                            Package.recipe := None |}))
           (Example.store ++ ["zlib"])); vm_compute; reflexivity.
Defined.

(** ** Removing entries *)

Section Removal.

Context `{Ops} (env : Env).

Lemma lookup_filter_keep (P : path * node → Prop) `{!∀ x, Decision (P x)}
      (f : FS) q :
  (∀ v, f !! q = Some v → P (q, v)) → filter P f !! q = f !! q.
Proof.
  intros HP. destruct (f !! q) as [v|] eqn:Hq.
  - apply map_lookup_filter_Some. auto.
  - apply map_lookup_filter_None. now left.
Qed.

Lemma rmtree_gone d f : d ≠ [] → OS.exists_ (OS.rmtree d f) d = false.
Proof.
  intros Hd. unfold OS.exists_, OS.node_at. destruct d; [done|].
  now rewrite rmtree_under by apply under_refl.
Qed.

Lemma rmtree_frame d q f : Path.under d q = false → OS.rmtree d f !! q = f !! q.
Proof. intros Hu. unfold OS.rmtree. now apply lookup_filter_keep. Qed.

Lemma delete_dir_spec d w :
  d ≠ [] →
  snd (Util.delete_dir d w) = Ok tt
  ∧ OS.exists_ (fs (fst (Util.delete_dir d w))) d = false
  ∧ trace (fst (Util.delete_dir d w)) = trace w
  ∧ ∀ q, Path.under d q = false →
         fs (fst (Util.delete_dir d w)) !! q = fs w !! q.
Proof.
  intros Hd. unfold Util.delete_dir. munfold.
  destruct (OS.exists_ (fs w) d) eqn:Hex; cbn [fst snd fs trace].
  - repeat split; [now apply rmtree_gone|]. intros q Hq. now apply rmtree_frame.
  - done.
Qed.

(** [unlink] on a package whose entry path is [d]: nothing is done where
    there is no entry. *)
Lemma unlink_absent pkg ps d delete w :
  parse_pkg_src env pkg None false (fs w) = Ok ps →
  get_package_directory env (Some (ASrc ps)) w = (w, Ok d) →
  OS.exists_ (fs w) d = false →
  unlink env pkg delete w = (w, Ok tt).
Proof.
  intros Hps Hd Hex. unfold unlink, get_unlink_directory. munfold.
  rewrite Hps. cbv beta iota. rewrite Hd. cbv beta iota.
  rewrite Hd. cbv beta iota. now rewrite Hex.
Qed.

(** [remove] on a package whose entry path is [d]. *)
Lemma remove_eq pkg ps d w :
  parse_pkg_src env pkg None false (fs w) = Ok ps →
  get_package_directory env (Some (ASrc ps)) w = (w, Ok d) →
  remove env pkg w
  = if OS.exists_ (fs w) d
    then ((if USE_SYMLINKS env
           then Util.rm_symlink_from (d ++ ["install"]) (prefix env)
           else Util.rm_dup_dir (d ++ ["install"]) (prefix env)) >>
          Util.rm_empty_dirs (prefix env) >>
          Util.delete_dir d) w
    else (w, Ok tt).
Proof.
  intros Hps Hd. unfold remove, unlink, get_unlink_directory. munfold.
  rewrite Hps. cbv beta iota. rewrite Hd. cbv beta iota.
  rewrite Hd. cbv beta iota. now destruct (OS.exists_ (fs w) d).
Qed.

End Removal.

(** X17. For a package that parses and whose entry path is known: where
    the store has no entry, [unlink] and [remove] return at once and change
    nothing; and whenever [remove] returns, the entry does not exist
    afterwards and no call to the Builder has been made. *)
Theorem remove_deletes_entry `{Ops} (env : Env) (pkg : option pkg_arg)
        (ps : PackageSource) (d : path) (w : world) :
  parse_pkg_src env pkg None false (fs w) = Ok ps →
  snd (get_package_directory env (Some (ASrc ps)) w) = Ok d →
  d ≠ [] →
  (OS.exists_ (fs w) d = false →
   ∀ delete, unlink env pkg delete w = (w, Ok tt))
  ∧ (snd (remove env pkg w) = Ok tt →
     OS.exists_ (fs (fst (remove env pkg w))) d = false
     ∧ trace (fst (remove env pkg w)) = trace w).
Proof.
  intros Hps Hd%get_package_directory_eq Hne. split.
  - intros Hex delete. now apply (unlink_absent env pkg ps d).
  - rewrite (remove_eq env pkg ps d w Hps Hd).
    destruct (OS.exists_ (fs w) d) eqn:Hex; [|done].
    match goal with |- context [bind ?m ?k w] => set (r := bind m k w) end.
    assert (∃ w2, r = Util.delete_dir d w2 ∧ trace w2 = trace w)
      as (w2 & -> & Ht2).
    { subst r. unfold bind.
      destruct (USE_SYMLINKS env); (eexists; split; [reflexivity|done]). }
    destruct (delete_dir_spec d w2 Hne) as (_ & Hex' & Ht & _).
    intros _. split; [done|congruence].
Qed.

Lemma remove_deletes_entry_witness :
  let w := Example.linked true in
  let w' := fst (remove (H := Example.ops) Example.posix (Some (AStr "zlib")) w) in
  OS.exists_ (fs w) (Example.store ++ ["zlib"]) = true
  ∧ OS.exists_ (fs w') (Example.store ++ ["zlib"]) = false
  ∧ trace w' = trace w.
Proof.
  intros w w'. split; [vm_compute; reflexivity|].
  destruct (remove_deletes_entry (H := Example.ops) Example.posix
              (Some (AStr "zlib"))
              {| Package.name := Some "zlib";
                 Package.url := Some "https://github.com/zlib/zlib/archive/HEAD.tar.gz";
                 Package.recipe := None |}
              (Example.store ++ ["zlib"]) w)
    as [_ Hgone];
    [vm_compute; reflexivity|vm_compute; reflexivity|discriminate|].
  apply Hgone. vm_compute. reflexivity.
Defined.

Section Cleaning.

Context `{Ops} (env : Env).

Lemma build_clean_eq pb d w :
  get_package_directory env pb w = (w, Ok d) →
  build_clean env pb w
  = if OS.exists_ (fs w) d
    then update_res (OS.rmtree_strict d) w
    else (w, Ok tt).
Proof.
  intros Hd. unfold build_clean. munfold. rewrite Hd. cbv beta iota.
  now destruct (OS.exists_ (fs w) d).
Qed.

End Cleaning.

(** X18. [build_clean] of a package whose entry path is known removes the
    whole store entry of the package, what was installed under it included,
    not a build directory inside it. Where the entry is a directory it
    returns: nothing under the entry is left, every path outside it is as
    it was, and no call to the Builder has been made. Where the entry
    exists and is no directory (a file, or a link) it raises [OSError] and
    changes nothing; where there is no entry it does nothing. *)
Theorem build_clean_deletes_entry `{Ops} (env : Env) (pb : option pkg_arg)
        (d : path) (w : world) :
  snd (get_package_directory env pb w) = Ok d →
  let r := build_clean env pb w in
  (OS.node_at (fs w) d = Some Dir →
   snd r = Ok tt
   ∧ (∀ q, Path.under d q = true → fs (fst r) !! q = None)
   ∧ (∀ q, Path.under d q = false → fs (fst r) !! q = fs w !! q)
   ∧ trace (fst r) = trace w)
  ∧ (OS.exists_ (fs w) d = true → OS.node_at (fs w) d ≠ Some Dir →
     r = (w, Raise OSError))
  ∧ (OS.exists_ (fs w) d = false → r = (w, Ok tt)).
Proof.
  intros Hd%get_package_directory_eq. cbv zeta.
  rewrite (build_clean_eq env pb d w Hd). unfold update_res, OS.rmtree_strict.
  split; [|split].
  - intros Hdir. unfold OS.exists_. rewrite Hdir. cbn [fst snd fs trace].
    split; [done|]. split; [|split; [|done]]; intros q Hq.
    + now apply rmtree_under.
    + now apply rmtree_frame.
  - intros -> Hno. now destruct (OS.node_at (fs w) d) as [[| |]|].
  - now intros ->.
Qed.

Lemma build_clean_deletes_entry_witness :
  let w := Example.linked true in
  let r := build_clean (H := Example.ops) Example.posix (Some (AStr "zlib")) w in
  let v := {| fs := <[Example.store ++ ["zlib"] := File "stray"]> Example.fresh_fs;
              trace := [] |} in
  fs w !! (Example.store ++ ["zlib"; "install"; "lib"; "libz.a"])
  = Some (File "obj")
  ∧ fs (fst r) !! (Example.store ++ ["zlib"; "install"; "lib"; "libz.a"]) = None
  ∧ fs (fst r) !! (Example.root ++ ["lib"; "libz.a"])
    = fs w !! (Example.root ++ ["lib"; "libz.a"])
  ∧ snd (build_clean (H := Example.ops) Example.posix (Some (AStr "zlib")) v)
    = Raise OSError.
Proof.
  intros w r v. split; [vm_compute; reflexivity|].
  destruct (build_clean_deletes_entry (H := Example.ops) Example.posix
              (Some (AStr "zlib")) (Example.store ++ ["zlib"]) w)
    as [Hdir _]; [vm_compute; reflexivity|].
  destruct Hdir as (_ & Hin & Hout & _); [vm_compute; reflexivity|].
  split; [apply Hin; vm_compute; reflexivity|].
  split; [apply Hout; vm_compute; reflexivity|].
  destruct (build_clean_deletes_entry (H := Example.ops) Example.posix
              (Some (AStr "zlib")) (Example.store ++ ["zlib"]) v)
    as (_ & Hfile & _); [vm_compute; reflexivity|].
  rewrite Hfile; [reflexivity|vm_compute; reflexivity|vm_compute; discriminate].
Defined.

(** ** [list] with a package *)

(** X20. Whatever [list] yields for a package, recursively or not, is the
    source [fname_to_pkg] makes of a name whose store entry exists. *)
Theorem list_yields_entries `{Ops} (env : Env) (n : nat) (pkg : option pkg_arg)
        (recursive top : bool) (w : world) (p : PackageSource) :
  p ∈ fst (list_at env n pkg recursive top w) →
  ∃ d, p = fname_to_pkg d
       ∧ OS.exists_ (fs w) (Path.join (get_private_path env) d) = true.
Proof.
  revert pkg top. induction n as [|n IH]; intros pkg top; cbn [list_at].
  - cbn. now intros ?%elem_of_nil.
  - destruct (_list_files env pkg top w) as [w1 [ds|e]];
      [|cbn; now intros ?%elem_of_nil].
    induction ds as [|d ds IHds]; [cbn; now intros ?%elem_of_nil|].
    match type of IHds with
    | context [?lp ds] => set (loop := lp) in *
    end.
    cbn -[loop].
    assert (p ∈ (if OS.exists_ (fs w) (Path.join (get_private_path env) d)
                 then [fname_to_pkg d] else [])
            → ∃ d, p = fname_to_pkg d
                   ∧ OS.exists_ (fs w) (Path.join (get_private_path env) d)
                     = true) as Hhere.
    { destruct (OS.exists_ (fs w) (Path.join (get_private_path env) d)) eqn:Hex;
        [|now intros ?%elem_of_nil].
      intros ->%list_elem_of_singleton. eauto. }
    specialize (IH (Some (ASrc (fname_to_pkg d))) false).
    destruct recursive.
    + destruct (list_at env n _ true false w) as [cs [e|]];
        [|destruct (loop ds) as [r e]]; cbn [fst] in *;
        rewrite ?elem_of_app; intuition.
    + destruct (loop ds) as [r e]; cbn [fst] in *;
        rewrite ?elem_of_app; intuition.
Qed.

Lemma list_yields_entries_witness :
  ∃ d, fname_to_pkg (Ops := Example.ops) "app"
       = fname_to_pkg (Ops := Example.ops) d
       ∧ OS.exists_ (fs (Example.linked true))
           (Path.join (get_private_path Example.posix) d) = true.
Proof.
  apply (list_yields_entries (H := Example.ops) Example.posix 8
           (Some (AStr "zlib")) true true (Example.linked true)).
  vm_compute. repeat constructor.
Defined.

(** X21. Without [recursive], [list] of a package yields, in this order and
    without raising, the package itself when [top] is set and then the
    packages named by the files of its [.depend] directory, which are the
    packages that required it; each is yielded only when its store entry
    exists. *)
Theorem list_flat `{Ops} (env : Env) (n : nat) (pkg : option pkg_arg)
        (ps : PackageSource) (d dd : path) (top : bool) (w : world) :
  parse_pkg_src env pkg None false (fs w) = Ok ps →
  snd (get_package_directory env (Some (ASrc ps)) w) = Ok d →
  snd (get_deps_directory env (Some (AStr (src_to_fname ps))) w) = Ok dd →
  list_at env (S n) pkg false top w
  = (fname_to_pkg
       <$> filter (λ x, OS.exists_ (fs w) (Path.join (get_private_path env) x)
                        = true)
             ((if top then [src_to_fname ps] else [])
              ++ Util.ls (fs w) dd OS.isfile),
     None).
Proof.
  intros Hps Hd%get_package_directory_eq Hdd.
  assert (_list_files env pkg top w
          = (w, Ok ((if top then [src_to_fname ps] else [])
                    ++ Util.ls (fs w) dd OS.isfile))) as Hl.
  { unfold _list_files. munfold. rewrite Hps. cbv beta iota.
    rewrite Hd. cbv beta iota.
    rewrite (get_deps_directory_eq env _ _ _ Hdd). now destruct top. }
  cbn [list_at]. rewrite Hl.
  generalize ((if top then [src_to_fname ps] else [])
              ++ Util.ls (fs w) dd OS.isfile).
  intros ds. induction ds as [|x ds IH]; [reflexivity|].
  rewrite IH, filter_cons.
  destruct (OS.exists_ (fs w) (Path.join (get_private_path env) x)) eqn:Hex.
  - now rewrite decide_True.
  - now rewrite decide_False.
Qed.

Lemma list_flat_witness :
  list_at (H := Example.ops) Example.posix 8 (Some (AStr "zlib")) false true
    (Example.linked true)
  = (fname_to_pkg (Ops := Example.ops) <$> ["zlib"; "app"], None).
Proof.
  rewrite (list_flat (H := Example.ops) Example.posix 7 (Some (AStr "zlib"))
             {| Package.name := Some "zlib";
                Package.url := Some "https://github.com/zlib/zlib/archive/HEAD.tar.gz";
                Package.recipe := None |}
             (Example.store ++ ["zlib"])
             (Example.store ++ ["zlib"; ".depend"]) true (Example.linked true));
    vm_compute; reflexivity.
Defined.

(** ** Requirements *)



(** X23. Resolving a token to a source never raises, and the source has one
    origin: a URL and no recipe, or, only when recipes are allowed, a named
    recipe and no URL. *)
Theorem parse_pkg_src_one_origin `{Ops} (env : Env) (s : string)
        (start : option path) (no_recipe : bool) (f : FS) :
  ∃ ps, parse_pkg_src env (Some (AStr s)) start no_recipe f = Ok ps
        ∧ ((is_Some (Package.url ps) ∧ Package.recipe ps = None)
           ∨ (no_recipe = false
              ∧ Package.url ps = None
              ∧ is_Some (Package.recipe ps)
              ∧ is_Some (Package.name ps))).
Proof.
  eexists. split; [reflexivity|].
  unfold parse_pkg_src_str. destruct (parse_alias s) as [name url].
  destruct (PyStr.contains "://" url); cbn [negb]; [left; cbn; eauto|].
  unfold parse_src_file. destruct (OS.exists_ f _); [left; cbn; eauto|].
  destruct no_recipe.
  - left. unfold parse_src_github.
    destruct (parse_src_name url (Some "HEAD")). cbn. eauto.
  - unfold parse_src_recipe. destruct (parse_src_name url None) as [p v].
    cbn [get_recipe_paths list_first].
    match goal with |- context [if ?c then Some _ else None] => destruct c end.
    + right. cbn. destruct (PyStr.otruthy name) eqn:Hn; [|eauto 6].
      destruct name; [eauto 6|discriminate].
    + left. unfold parse_src_github.
      destruct (parse_src_name url (Some "HEAD")). cbn. eauto.
Qed.

(** X24. Every call [install_deps] makes to [install] is for a dependency
    that is not test-only unless [test] or [test_all] is set, and passes
    [test] and [update] unset, [test_all], the generator and [insecure] as
    received: whatever such calls preserve, [install_deps] preserves. *)
Theorem install_deps_calls `{Ops} (env : Env)
        (inst : pkg_arg → install_args → M string) (pb : PackageBuild)
        (d : path) (test test_all : bool) (generator : option string)
        (insecure ignore_requirements : bool) (I : world → Prop) :
  (∀ arg a w, deps_call test test_all generator insecure arg a = true →
              I w → I (fst (inst arg a w))) →
  ∀ w, I w →
       I (fst (install_deps env inst pb d test test_all generator insecure
                 ignore_requirements w)).
Proof.
  intros Hinst w Hw. unfold install_deps. apply for_gen_invariant; [|done].
  intros dep w0 Hw0.
  destruct (negb (Package.test dep)
            || Bool.eqb (Package.test dep) (test || test_all)) eqn:Hins; [|done].
  munfold.
  match goal with
  | |- context [inst ?arg ?a w0] =>
      pose proof (Hinst arg a w0) as Hcall;
      destruct (inst arg a w0) as [w1 [s|e]]
  end; cbn [fst] in *; apply Hcall; try done;
    unfold deps_call, of_; cbn;
    rewrite bool_decide_eq_true_2 by done;
    rewrite !eqb_reflx;
    destruct (Package.test dep), test, test_all; done.
Qed.

(** The test-only [gtest] of the example is passed to [install] only when
    tests are asked for. *)
Lemma install_deps_calls_witness :
  let calls test :=
    length (trace (fst (install_deps (H := Example.ops) Example.posix
                          (audited (λ _ _, false)) Example.app
                          (Example.home ++ ["app"]) test false None false false
                          with_test_requirement))) in
  trace (fst (install_deps (H := Example.ops) Example.posix
                (audited (deps_call false false None false)) Example.app
                (Example.home ++ ["app"]) false false None false false
                with_test_requirement)) = []
  ∧ calls false = 1%nat
  ∧ calls true = 2%nat.
Proof.
  intros calls. split; [|split; vm_compute; reflexivity].
  apply (install_deps_calls (H := Example.ops) Example.posix
           (audited (deps_call false false None false)) Example.app
           (Example.home ++ ["app"]) false false None false false
           (λ w, trace w = [])); [|reflexivity].
  intros arg a w Hok Hw. unfold audited. now rewrite Hok.
Defined.
